(** * PII masking sample: job lifecycle, fallback redaction and reconciliation

    Shallow embedding of the three Lambda handlers of the repository

    - [src/batch/src/processor.py]   (job submitter with regex fallback),
    - [src/batch/src/monitor.py]     (job reconciler),
    - [src/Realtime/samplelambda/genai-pii-mask.py] (per-row model call),

    together with the part of Python's [re] module that the fallback uses.
    External collaborators (S3, DynamoDB, Bedrock, pandas, the clock) are
    oracles collected in environment records; every effect of a handler is
    recorded in an explicit world state. *)

From Stdlib Require Import NArith ZArith Lia String Ascii List Bool.
From stdpp Require Import base option list strings gmap pretty.

Set Default Proof Using "Type".

(** * Part I. Definitions *)

(** ** Python's [re] on the patterns of the fallback path *)

Module Re.

(** A Python [str] is a sequence of Unicode code points. *)
Definition char := N.
Definition text := list char.

Definition code (a : ascii) : char := N_of_ascii a.
Definition str (s : string) : text := map code (list_ascii_of_string s).

(** [\d], [\s] and [\w] of a [str] pattern follow the Unicode database.
    Below 128 the classification is fixed and written out; above, it is
    whatever the interpreter's tables say. *)
Record unicode := {
  uni_digit : N -> bool;
  uni_space : N -> bool;
  uni_alnum : N -> bool
}.

Definition between (lo hi c : N) : bool := (lo <=? c)%N && (c <=? hi)%N.

Definition is_digit (U : unicode) (c : char) : bool :=
  if (c <? 128)%N then between 48 57 c else uni_digit U c.

Definition is_space (U : unicode) (c : char) : bool :=
  if (c <? 128)%N then between 9 13 c || between 28 32 c else uni_space U c.

Definition is_word (U : unicode) (c : char) : bool :=
  if (c <? 128)%N
  then between 48 57 c || between 65 90 c || between 97 122 c || (c =? 95)%N
  else uni_alnum U c.

(** Members of a bracket expression; a class is their union. *)
Inductive cset :=
| CChar (a : ascii)
| CRange (lo hi : ascii)
| CDigit
| CSpace.

Definition class := list cset.

Definition cset_mem (U : unicode) (x : cset) (c : char) : bool :=
  match x with
  | CChar a => (c =? code a)%N
  | CRange lo hi => between (code lo) (code hi) c
  | CDigit => is_digit U c
  | CSpace => is_space U c
  end.

Definition member (U : unicode) (cls : class) (c : char) : bool :=
  existsb (fun x => cset_mem U x c) cls.

(** The four patterns are concatenations of [\b] and greedily quantified
    classes: [Rep cls lo hi] is [cls{lo,hi}], with [hi = None] for no upper
    bound. *)
Inductive item :=
| Bnd
| Rep (cls : class) (lo : nat) (hi : option nat).

Definition pattern := list item.

Definition one (cls : class) : item := Rep cls 1 (Some 1).
Definition opt (cls : class) : item := Rep cls 0 (Some 1).
Definition plus (cls : class) : item := Rep cls 1 None.
Definition exactly (n : nat) (cls : class) : item := Rep cls n (Some n).
Definition at_least (n : nat) (cls : class) : item := Rep cls n None.

(** [\b]: exactly one of the two neighbours is a word character; the two
    ends of the string count as non-word. *)
Definition isw (U : unicode) (o : option char) : bool :=
  match o with Some c => is_word U c | None => false end.

Definition bnd (U : unicode) (p q : option char) : bool :=
  xorb (isw U p) (isw U q).

Definition room (hi : option nat) : bool :=
  match hi with Some 0 => false | _ => true end.

Definition less (hi : option nat) : option nat :=
  match hi with Some n => Some (pred n) | None => None end.

(** Backtracking matcher in continuation style.  [prev] is the character
    left of the current position, [n] the number of characters consumed so
    far.  A quantified class first takes as many characters as it may and
    gives them back one at a time when the rest of the pattern fails. *)
Fixpoint rep_go (U : unicode) (cls : class)
    (k : option char -> text -> nat -> option nat)
    (lo : nat) (hi : option nat)
    (prev : option char) (s : text) (n : nat) {struct s} : option nat :=
  let stop := match lo with 0 => k prev s n | S _ => None end in
  match s with
  | c :: s' =>
      if member U cls c && room hi then
        match rep_go U cls k (pred lo) (less hi) (Some c) s' (S n) with
        | Some r => Some r
        | None => stop
        end
      else stop
  | [] => stop
  end.

Fixpoint bt (U : unicode) (pat : pattern)
    (prev : option char) (s : text) (n : nat) : option nat :=
  match pat with
  | [] => Some n
  | Bnd :: r => if bnd U prev (head s) then bt U r prev s n else None
  | Rep cls lo hi :: r => rep_go U cls (bt U r) lo hi prev s n
  end.

(** [pattern.match] at the current position: length of the match. *)
Definition match_at (U : unicode) (pat : pattern)
    (prev : option char) (s : text) : option nat :=
  bt U pat prev s 0.

(** [re.sub(pattern, repl, string)] with a literal replacement: scan from the
    left, replace the first match found at the leftmost position, resume
    right after it.  [skip] counts the characters of the last match that are
    still to be passed over.  An empty match inserts [repl] and moves on by
    one character. *)
Fixpoint sub_go (U : unicode) (pat : pattern) (repl : text)
    (prev : option char) (skip : nat) (s : text) : text :=
  match s with
  | [] =>
      match skip, match_at U pat prev [] with
      | 0, Some _ => repl
      | _, _ => []
      end
  | c :: s' =>
      match skip with
      | S k => sub_go U pat repl (Some c) k s'
      | 0 =>
          match match_at U pat prev s with
          | Some (S n) => repl ++ sub_go U pat repl (Some c) n s'
          | Some 0 => repl ++ c :: sub_go U pat repl (Some c) 0 s'
          | None => c :: sub_go U pat repl (Some c) 0 s'
          end
      end
  end.

Definition sub (U : unicode) (pat : pattern) (repl : string) (s : text) : text :=
  sub_go U pat (str repl) None 0 s.

(** The patterns of [processor.py], lines 129-138. *)

(** [\b[A-Za-z0-9._%+-]+@[A-Za-z0-9.-]+\.[A-Z|a-z]{2,}\b] *)
Definition email : pattern :=
  [ Bnd;
    plus [CRange "A" "Z"; CRange "a" "z"; CRange "0" "9";
          CChar "."; CChar "_"; CChar "%"; CChar "+"; CChar "-"];
    one [CChar "@"];
    plus [CRange "A" "Z"; CRange "a" "z"; CRange "0" "9"; CChar "."; CChar "-"];
    one [CChar "."];
    at_least 2 [CRange "A" "Z"; CChar "|"; CRange "a" "z"];
    Bnd ].

(** [\b\(?\d{3}\)?[-.\s]?\d{3}[-.\s]?\d{4}\b] *)
Definition phone : pattern :=
  [ Bnd;
    opt [CChar "("];
    exactly 3 [CDigit];
    opt [CChar ")"];
    opt [CChar "-"; CChar "."; CSpace];
    exactly 3 [CDigit];
    opt [CChar "-"; CChar "."; CSpace];
    exactly 4 [CDigit];
    Bnd ].

(** [\b\d{4}[-\s]?\d{4}[-\s]?\d{4}[-\s]?\d{4}\b] *)
Definition credit_card : pattern :=
  [ Bnd;
    exactly 4 [CDigit];
    opt [CChar "-"; CSpace];
    exactly 4 [CDigit];
    opt [CChar "-"; CSpace];
    exactly 4 [CDigit];
    opt [CChar "-"; CSpace];
    exactly 4 [CDigit];
    Bnd ].

(** [\b\d{3}-\d{2}-\d{4}\b] *)
Definition ssn : pattern :=
  [ Bnd;
    exactly 3 [CDigit];
    one [CChar "-"];
    exactly 2 [CDigit];
    one [CChar "-"];
    exactly 4 [CDigit];
    Bnd ].

(** The substitutions in the order of the source. *)
Definition rules : list (pattern * string) :=
  [ (email, "<PII_EMAIL>");
    (phone, "<PII_PHONE>");
    (credit_card, "<PII_CREDIT_CARD>");
    (ssn, "<PII_SSN>") ].

(** One [re.sub] after the other. *)
Definition apply_rules (U : unicode) (rs : list (pattern * string)) (s : text) : text :=
  fold_left (fun s r => sub U (fst r) (snd r) s) rs s.

(** [processed_content] of the fallback path as a function of
    [csv_content]. *)
Definition processed_content (U : unicode) (csv_content : text) : text :=
  apply_rules U rules csv_content.

(** *** What a pattern accepts

    The declarative reading of a pattern, against which the matcher is
    checked: [lang U pat p w nx] says that [pat] accepts the word [w] when the
    character before it is [p] and the character after it is [nx]. *)

Fixpoint lastc (p : option char) (w : text) : option char :=
  match w with
  | [] => p
  | c :: w' => lastc (Some c) w'
  end.

Definition hd_or (w : text) (nx : option char) : option char :=
  match w with
  | c :: _ => Some c
  | [] => nx
  end.

Definition fits (n lo : nat) (hi : option nat) : Prop :=
  lo <= n /\ match hi with Some h => n <= h | None => True end.

Fixpoint lang (U : unicode) (pat : pattern) (p : option char) (w : text)
    (nx : option char) : Prop :=
  match pat with
  | [] => w = []
  | Bnd :: r => bnd U p (hd_or w nx) = true /\ lang U r p w nx
  | Rep cls lo hi :: r =>
      exists u v, w = u ++ v /\ forallb (member U cls) u = true /\
                  fits (length u) lo hi /\ lang U r (lastc p u) v nx
  end.

(** [s] holds no match of [pat] at any position, [p] being the character
    before [s]. *)
Definition clean (U : unicode) (pat : pattern) (p : option char) (s : text) : Prop :=
  forall u w y, s = u ++ w ++ y -> ~ lang U pat (lastc p u) w (head y).

(** [rewrites U pat repl p s out]: [out] is [s] with some matches of [pat]
    replaced by [repl], each kept character being one where no match
    starts. *)
Inductive rewrites (U : unicode) (pat : pattern) (repl : text)
    : option char -> text -> text -> Prop :=
| rw_nil p :
    rewrites U pat repl p [] []
| rw_keep p c s out :
    match_at U pat p (c :: s) = None ->
    rewrites U pat repl (Some c) s out ->
    rewrites U pat repl p (c :: s) (c :: out)
| rw_repl p m b out :
    m <> [] ->
    lang U pat p m (head b) ->
    rewrites U pat repl (lastc p m) b out ->
    rewrites U pat repl p (m ++ b) (repl ++ out).

(** Shape of the rules that the idempotence argument rests on, as checks
    that compute: a pattern starts and ends with [\b], none of its classes
    holds [<] or [>], one of its mandatory classes holds no character of a
    tag; a tag starts with [<], ends with [>], neither a word character. *)
Definition lt : char := code "<".
Definition gt : char := code ">".

Definition tag_chars : text := str "<>_ACDEHILMNOPRST".

Definition starts_bnd (pat : pattern) : bool :=
  match pat with Bnd :: _ => true | _ => false end.

Fixpoint ends_bnd (pat : pattern) : bool :=
  match pat with
  | [] => false
  | [Bnd] => true
  | _ :: r => ends_bnd r
  end.

Definition avoids (U : unicode) (c : char) (pat : pattern) : bool :=
  forallb (fun it => match it with
                     | Bnd => true
                     | Rep cls _ _ => negb (member U cls c)
                     end) pat.

Definition rejects (U : unicode) (cs : text) (cls : class) : bool :=
  forallb (fun c => negb (member U cls c)) cs.

Definition core (U : unicode) (pat : pattern) : bool :=
  existsb (fun it => match it with
                     | Rep cls (S _) _ => rejects U tag_chars cls
                     | _ => false
                     end) pat.

Definition tag_ok (U : unicode) (t : text) : bool :=
  match t with
  | c :: _ => (c =? lt)%N
  | [] => false
  end
  && match lastc None t with
     | Some c => (c =? gt)%N
     | None => false
     end
  && forallb (fun c => existsb (N.eqb c) tag_chars) t
  && negb (is_word U lt) && negb (is_word U gt).

Definition rule_ok (U : unicode) (r : pattern * string) : bool :=
  starts_bnd (fst r) && ends_bnd (fst r)
  && avoids U lt (fst r) && avoids U gt (fst r)
  && core U (fst r) && tag_ok U (str (snd r)).

(** The ASCII digits, and a bound on the words of [n] ASCII digits that a
    pattern can accept: a class that holds no ASCII digit takes none of
    them, any other class is allowed any number within its bounds. *)
Definition ascii_digits : text := str "0123456789".
Definition ascii_digit (c : char) : bool := between 48 57 c.

Definition fitsb (n lo : nat) (hi : option nat) : bool :=
  (lo <=? n) && match hi with Some h => n <=? h | None => true end.

Fixpoint digit_word (U : unicode) (pat : pattern) (n : nat) : bool :=
  match pat with
  | [] => n =? 0
  | Bnd :: r => digit_word U r n
  | Rep cls lo hi :: r =>
      if rejects U ascii_digits cls
      then (lo =? 0) && digit_word U r n
      else existsb (fun k => fitsb k lo hi && digit_word U r (n - k)) (seq 0 (S n))
  end.

(** A pattern with a mandatory class that is [\d] alone or [@] alone. *)
Definition digit_or_at (cls : class) : bool :=
  match cls with
  | [CDigit] => true
  | [CChar a] => Ascii.eqb a "@"
  | _ => false
  end.

Definition needs_digit_or_at (pat : pattern) : bool :=
  existsb (fun it => match it with
                     | Rep cls (S _) _ => digit_or_at cls
                     | _ => false
                     end) pat.

(** No rule of [rs] matches at any position of [s]. *)
Definition no_match (U : unicode) (rs : list (pattern * string)) (s : text) : Prop :=
  forall pat tag u v,
    In (pat, tag) rs -> s = u ++ v -> match_at U pat (lastc None u) v = None.

(** Tables that classify nothing above 127; for running examples. *)
Definition ascii_only : unicode :=
  {| uni_digit := fun _ => false;
     uni_space := fun _ => false;
     uni_alnum := fun _ => false |}.

End Re.


(** ** Python values, exceptions and the handlers' monad *)

Module Py.

(** Values as they come out of [json] and [boto3]: events, responses and
    DynamoDB attributes. *)
#[local] Unset Elimination Schemes.
Inductive value :=
| VNone
| VBool (b : bool)
| VInt (z : Z)
| VStr (s : string)
| VList (l : list value)
| VDict (d : list (string * value)).
#[local] Set Elimination Schemes.

(** The key of a [KeyError]: the handlers look values up under [str] keys
    and under the index [0]. *)
Inductive key :=
| KStr (s : string)
| KInt (z : Z).

Inductive exn :=
| KeyError (k : key)
| IndexError (msg : string)
| TypeError (msg : string)
| AttributeError (msg : string)
| ClientError (msg : string).

(** [str(e)]; a [KeyError] prints the repr of its key: an [int] in decimal,
    a [str] between single quotes (the [str] keys of the handlers are plain
    words, which repr neither escapes nor quotes otherwise). *)
Definition str_exn (e : exn) : string :=
  match e with
  | KeyError (KStr k) => "'" +:+ k +:+ "'"
  | KeyError (KInt z) => pretty z
  | IndexError m | TypeError m | AttributeError m | ClientError m => m
  end.

(** [type(v).__name__] *)
Definition type_name (v : value) : string :=
  match v with
  | VNone => "NoneType"
  | VBool _ => "bool"
  | VInt _ => "int"
  | VStr _ => "str"
  | VList _ => "list"
  | VDict _ => "dict"
  end.

(** The errors of [v[k]] and [v.name] on a value that has neither. *)
Definition not_subscriptable (v : value) : exn :=
  TypeError ("'" +:+ type_name v +:+ "' object is not subscriptable").
Definition no_attribute (v : value) (name : string) : exn :=
  AttributeError ("'" +:+ type_name v +:+ "' object has no attribute '" +:+ name +:+ "'").

Inductive result (A : Type) :=
| Ok (a : A)
| Raise (e : exn).
Arguments Ok {A} a.
Arguments Raise {A} e.

Fixpoint assoc (k : string) (d : list (string * value)) : option value :=
  match d with
  | [] => None
  | (k', v) :: d' => if String.eqb k k' then Some v else assoc k d'
  end.

(** [v[k]] for a string key; the texts of the errors are CPython 3.11's. *)
Definition getitem (v : value) (k : string) : result value :=
  match v with
  | VDict d =>
      match assoc k d with
      | Some x => Ok x
      | None => Raise (KeyError (KStr k))
      end
  | VList _ => Raise (TypeError "list indices must be integers or slices, not str")
  | VStr _ => Raise (TypeError "string indices must be integers, not 'str'")
  | VNone | VBool _ | VInt _ => Raise (not_subscriptable v)
  end.

(** [v[0]]. *)
Definition getfirst (v : value) : result value :=
  match v with
  | VList (x :: _) => Ok x
  | VList [] => Raise (IndexError "list index out of range")
  | VStr (String a _) => Ok (VStr (String a EmptyString))
  | VStr EmptyString => Raise (IndexError "string index out of range")
  | VDict _ => Raise (KeyError (KInt 0))
  | VNone | VBool _ | VInt _ => Raise (not_subscriptable v)
  end.

(** [d.get(k, default)] on a dict. *)
Definition dict_get (d : list (string * value)) (k : string) (default : value) : value :=
  match assoc k d with
  | Some x => x
  | None => default
  end.

(** [v.get(k, default)] on any value. *)
Definition get (v : value) (k : string) (default : value) : result value :=
  match v with
  | VDict d => Ok (dict_get d k default)
  | _ => Raise (no_attribute v "get")
  end.

(** Truth value of [v] in a condition. *)
Definition truthy (v : value) : bool :=
  match v with
  | VNone => false
  | VBool b => b
  | VInt z => negb (z =? 0)%Z
  | VStr s => negb (String.eqb s "")
  | VList l => match l with [] => false | _ => true end
  | VDict d => match d with [] => false | _ => true end
  end.

(** [v == s] for a string literal [s]. *)
Definition is_str (v : value) (s : string) : bool :=
  match v with
  | VStr t => String.eqb t s
  | _ => false
  end.

(** [str.endswith]. *)
Definition endswith (s suffix : string) : bool :=
  let n := String.length s in
  let m := String.length suffix in
  (m <=? n) && String.eqb (substring (n - m) m s) suffix.

(** [needle in hay] on strings. *)
Fixpoint contains (needle hay : string) : bool :=
  String.prefix needle hay
  || match hay with
     | EmptyString => false
     | String _ hay' => contains needle hay'
     end.

(** [str.replace(old, new)]: all occurrences, left to right, non
    overlapping.  [skip] counts the characters of the last occurrence still
    to be passed over. *)
Fixpoint replace_go (old new : string) (skip : nat) (s : string) : string :=
  match s with
  | EmptyString => EmptyString
  | String a s' =>
      match skip with
      | S k => replace_go old new k s'
      | 0 =>
          if String.prefix old s
          then new +:+ replace_go old new (pred (String.length old)) s'
          else String a (replace_go old new 0 s')
      end
  end.

Definition replace (s old new : string) : string :=
  match old with
  | EmptyString => s
  | _ => replace_go old new 0 s
  end.

(** A value in an f-string: a [str] prints as itself; the text of any other
    value is left to the interpreter ([fmt]). *)
Definition format (fmt : value -> string) (v : value) : string :=
  match v with
  | VStr s => s
  | _ => fmt v
  end.

(** A reading of [datetime.now()]. *)
Record datetime := {
  timestamp : Z;          (* int(d.timestamp()) *)
  isoformat : string      (* d.isoformat() *)
}.

(** Computations over a world [W] that may raise.  The world reached when an
    exception is raised is kept: effects are not rolled back. *)
Definition M (W A : Type) : Type := W -> result A * W.

Definition ret {W A} (a : A) : M W A := fun w => (Ok a, w).
Definition raise {W A} (e : exn) : M W A := fun w => (Raise e, w).
Definition bind {W A B} (m : M W A) (f : A -> M W B) : M W B :=
  fun w => match m w with
           | (Ok a, w') => f a w'
           | (Raise e, w') => (Raise e, w')
           end.
Definition lift {W A} (r : result A) : M W A := fun w => (r, w).
Definition modify {W} (f : W -> W) : M W unit := fun w => (Ok tt, f w).
Definition gets {W A} (f : W -> A) : M W A := fun w => (Ok (f w), w).

(** [try: m except Exception as e: h e]. *)
Definition try_except {W A} (m : M W A) (h : exn -> M W A) : M W A :=
  fun w => match m w with
           | (Ok a, w') => (Ok a, w')
           | (Raise e, w') => h e w'
           end.

Module Notations.
Notation "m >>= f" := (bind m f) (at level 50, left associativity).
Notation "'do' x <- m ; k" := (bind m (fun x => k))
  (at level 10, x name, m at level 100, k at level 200).
Notation "'do' ' p <- m ; k" := (bind m (fun x => match x with p => k end))
  (at level 10, p pattern, m at level 100, k at level 200).
Notation "'run' m ; k" := (bind m (fun _ => k))
  (at level 10, m at level 100, k at level 200).
End Notations.

(** A dict literal of a handler's return value or of a DynamoDB item. *)
Definition dict (l : list (string * value)) : gmap string value :=
  list_to_map l.

(** One entry of the dict a handler returned, if it returned. *)
Definition field {W} (run : result (gmap string value) * W) (k : string) : option value :=
  match fst run with
  | Ok r => r !! k
  | Raise _ => None
  end.

Inductive level := WARNING | ERROR.

End Py.

(** ** The batch pipeline: [src/batch/src] *)

Module Batch.
Import Py Py.Notations.

(** Arguments of [bedrock.create_model_invocation_job]. *)
Record job_request := {
  jobName : string;
  roleArn : string;
  modelId : string;
  s3InputUri : string;
  s3OutputUri : string;
  timeoutDurationInHours : Z
}.

(** Everything the two handlers can change or leave a trace in.  The table
    has hash key [jobId]: it maps a job id to the other attributes of its
    item. *)
Record world := {
  ticks : nat;                                    (* readings of the clock taken *)
  table : gmap string (gmap string value);        (* the DynamoDB table *)
  objects : gmap (string * string) Re.text;       (* objects written to S3 *)
  jobs : list job_request;                        (* batch jobs the backend accepted *)
  queries : list value;                           (* jobs whose status was asked for *)
  updates : list string;                          (* job ids updated in the table *)
  log : list (level * string)                     (* warnings and errors, oldest first *)
}.

(** The collaborators.  An oracle of type [option exn] tells whether the call
    raises. *)
Record env := {
  environ : gmap string string;                   (* os.environ *)
  now : nat -> datetime;                          (* successive datetime.now() *)
  fmt : value -> string;                          (* str() of a non-str value *)
  unicode : Re.unicode;
  create_model_invocation_job : job_request -> result value;
  get_model_invocation_job : value -> result value;
  get_object : value -> value -> result Re.text;  (* Body, read and decoded *)
  put_object : string -> string -> Re.text -> option exn;
  put_item : string -> gmap string value -> option exn;
  scan : option exn;
  page : string -> bool;                          (* items one scan call reads *)
  update_item : string -> list (string * value) -> option exn
}.

Definition initial : world :=
  {| ticks := 0; table := ∅; objects := ∅; jobs := []; queries := [];
     updates := []; log := [] |}.

Definition tick (w : world) : world :=
  {| ticks := S (ticks w); table := table w; objects := objects w;
     jobs := jobs w; queries := queries w; updates := updates w; log := log w |}.

Definition with_table (f : gmap string (gmap string value) -> gmap string (gmap string value))
    (w : world) : world :=
  {| ticks := ticks w; table := f (table w); objects := objects w;
     jobs := jobs w; queries := queries w; updates := updates w; log := log w |}.

Definition with_object (b k : string) (body : Re.text) (w : world) : world :=
  {| ticks := ticks w; table := table w; objects := <[(b, k) := body]> (objects w);
     jobs := jobs w; queries := queries w; updates := updates w; log := log w |}.

Definition with_job (r : job_request) (w : world) : world :=
  {| ticks := ticks w; table := table w; objects := objects w;
     jobs := jobs w ++ [r]; queries := queries w; updates := updates w; log := log w |}.

Definition with_query (arn : value) (w : world) : world :=
  {| ticks := ticks w; table := table w; objects := objects w;
     jobs := jobs w; queries := queries w ++ [arn]; updates := updates w; log := log w |}.

Definition with_update (job_id : string) (w : world) : world :=
  {| ticks := ticks w; table := table w; objects := objects w;
     jobs := jobs w; queries := queries w; updates := updates w ++ [job_id]; log := log w |}.

Definition with_log (l : level) (msg : string) (w : world) : world :=
  {| ticks := ticks w; table := table w; objects := objects w;
     jobs := jobs w; queries := queries w; updates := updates w;
     log := log w ++ [(l, msg)] |}.

(** One attribute of the item of a job. *)
Definition attribute (w : world) (job_id k : string) : option value :=
  match table w !! job_id with
  | Some attrs => attrs !! k
  | None => None
  end.

(** *** Primitive effects *)

Definition getenv (E : env) (k : string) : M world string :=
  match environ E !! k with
  | Some v => ret v
  | None => raise (KeyError (KStr k))
  end.

Definition datetime_now (E : env) : M world datetime :=
  fun w => (Ok (now E (ticks w)), tick w).

Definition logger (l : level) (msg : string) : M world unit :=
  modify (with_log l msg).

Definition call (o : option exn) : M world unit :=
  match o with
  | Some e => raise e
  | None => ret tt
  end.

Definition bedrock_create (E : env) (r : job_request) : M world value :=
  do response <- lift (create_model_invocation_job E r);
  run modify (with_job r);
  ret response.

Definition bedrock_get (E : env) (arn : value) : M world value :=
  run modify (with_query arn);
  lift (get_model_invocation_job E arn).

Definition s3_get_object (E : env) (bucket key : value) : M world Re.text :=
  lift (get_object E bucket key).

Definition s3_put_object (E : env) (bucket key : string) (body : Re.text) : M world unit :=
  run call (put_object E bucket key body);
  modify (with_object bucket key body).

(** [table.put_item(Item=...)]: the item replaces whatever the key held. *)
Definition table_put_item (E : env) (job_id : string) (attrs : gmap string value)
    : M world unit :=
  run call (put_item E job_id attrs);
  modify (with_table <[job_id := attrs]>).

(** [SET a = :a, b = :b, ...] on one item. *)
Definition assign (sets : list (string * value)) (attrs : gmap string value)
    : gmap string value :=
  fold_left (fun a kv => <[fst kv := snd kv]> a) sets attrs.

(** [table.update_item(Key={'jobId': job_id}, ...)]: the named attributes
    are set, the others kept; an item that does not exist is created. *)
Definition table_update_item (E : env) (job_id : string) (sets : list (string * value))
    : M world unit :=
  run call (update_item E job_id sets);
  run modify (with_table (fun t => <[job_id := assign sets (default ∅ (t !! job_id))]> t));
  modify (with_update job_id).

(** [table.scan] for [status = 'InProgress'].  One call reads the items in
    an order fixed by their keys and stops after 1 MB; the filter is applied
    to what was read, and a [LastEvaluatedKey] in the answer tells that items
    are left.  The handler makes one call and reads [Items] only, so what its
    loop sees is the matching items of the first page: [page E k] tells
    whether the item of job [k] is on it, which is the environment's to
    say. *)
Definition in_progress (attrs : gmap string value) : bool :=
  match attrs !! "status" with
  | Some v => is_str v "InProgress"
  | None => false
  end.

Definition scanned (E : env) (w : world) : list (string * gmap string value) :=
  map_to_list
    (filter (fun kv => page E (fst kv) && in_progress (snd kv) = true) (table w)).

Definition table_scan (E : env) : M world (list (string * gmap string value)) :=
  run call (scan E);
  gets (scanned E).

(** *** [processor.py] *)

Module Processor.

Definition seconds_30_days : Z := 30 * 24 * 60 * 60.

(** Lines 33-41: where the file is. *)
Definition locate (event : list (string * value)) (input_bucket : string)
    : M world (value * value) :=
  if match assoc "Records" event with
     | Some records => truthy records
     | None => false
     end
  then
    do records <- lift (getitem (VDict event) "Records");
    do record <- lift (getfirst records);
    do s3 <- lift (getitem record "s3");
    do b <- lift (getitem s3 "bucket");
    do bucket <- lift (getitem b "name");
    do s3' <- lift (getitem record "s3");
    do o <- lift (getitem s3' "object");
    do key <- lift (getitem o "key");
    ret (bucket, key)
  else
    ret (dict_get event "bucket" (VStr input_bucket),
         dict_get event "key" (VStr "sample_pii_data.csv")).

(** The locals of [handler] once lines 23-53 have run. *)
Record locals := {
  job_id : string;
  bucket : value;
  key : value;
  output_bucket : string;
  output_key : string;
  input_uri : string;
  output_uri : string;
  bedrock_role_arn : string
}.

(** Lines 23-53: configuration, event, job id and locations. *)
Definition setup (E : env) (event : list (string * value)) : M world locals :=
  do input_bucket <- getenv E "INPUT_BUCKET";
  do output_bucket <- getenv E "OUTPUT_BUCKET";
  do table_name <- getenv E "DYNAMODB_TABLE";
  do bedrock_role_arn <- getenv E "BEDROCK_ROLE_ARN";
  do '(bucket, key) <- locate event input_bucket;
  do stamp <- datetime_now E;
  let output_key := "processed-" +:+ format (fmt E) key in
  ret {| job_id := "pii-job-" +:+ pretty (timestamp stamp);
         bucket := bucket;
         key := key;
         output_bucket := output_bucket;
         output_key := output_key;
         input_uri := "s3://" +:+ format (fmt E) bucket +:+ "/" +:+ format (fmt E) key;
         output_uri := "s3://" +:+ output_bucket +:+ "/" +:+ output_key;
         bedrock_role_arn := bedrock_role_arn |}.

(** The arguments of line 69. *)
Definition request (l : locals) : job_request :=
  {| jobName := job_id l;
     roleArn := bedrock_role_arn l;
     modelId := "anthropic.claude-3-haiku-20240307-v1:0";
     s3InputUri := input_uri l;
     s3OutputUri := output_uri l;
     timeoutDurationInHours := 24 |}.

(** Lines 91-101: the item of a submitted job. *)
Definition submitted_item (l : locals) (job_arn : value) (created ttl : datetime)
    : gmap string value :=
  dict
    [ ("jobArn", job_arn);
      ("status", VStr "InProgress");
      ("sourceFile", key l);
      ("inputBucket", bucket l);
      ("outputBucket", VStr (output_bucket l));
      ("outputKey", VStr (output_key l));
      ("createdAt", VStr (isoformat created));
      ("ttl", VInt (timestamp ttl + seconds_30_days)) ].

(** Lines 68-109: the body of the inner [try]. *)
Definition batch_inference (E : env) (l : locals) : M world (gmap string value) :=
  do response <- bedrock_create E (request l);
  do job_arn <- lift (getitem response "jobArn");
  do created <- datetime_now E;
  do ttl <- datetime_now E;
  run table_put_item E (job_id l) (submitted_item l job_arn created ttl);
  ret (dict
    [ ("statusCode", VInt 200);
      ("jobId", VStr (job_id l));
      ("jobArn", job_arn);
      ("message", VStr ("Successfully created batch job for " +:+ format (fmt E) (key l))) ]).

(** Lines 150-161: the item of a file processed directly. *)
Definition processed_item (l : locals) (created completed ttl : datetime)
    : gmap string value :=
  dict
    [ ("status", VStr "Completed");
      ("sourceFile", key l);
      ("inputBucket", bucket l);
      ("outputBucket", VStr (output_bucket l));
      ("outputKey", VStr (output_key l));
      ("createdAt", VStr (isoformat created));
      ("completedAt", VStr (isoformat completed));
      ("method", VStr "direct_processing");
      ("ttl", VInt (timestamp ttl + seconds_30_days)) ].

(** Lines 115-170: the body of the [try] inside the first handler. *)
Definition direct_processing (E : env) (l : locals) : M world (gmap string value) :=
  do csv_content <- s3_get_object E (bucket l) (key l);
  let processed_content := Re.processed_content (unicode E) csv_content in
  run s3_put_object E (output_bucket l) (output_key l) processed_content;
  do created <- datetime_now E;
  do completed <- datetime_now E;
  do ttl <- datetime_now E;
  run table_put_item E (job_id l) (processed_item l created completed ttl);
  ret (dict
    [ ("statusCode", VInt 200);
      ("jobId", VStr (job_id l));
      ("method", VStr "direct_processing");
      ("outputFile", VStr ("s3://" +:+ output_bucket l +:+ "/" +:+ output_key l));
      ("message", VStr ("Successfully processed " +:+ format (fmt E) (key l)
                          +:+ " directly")) ]).

(** The exception that ends the direct path, if any, when the path is
    entered at clock reading [tick]. *)
Definition direct_error (E : env) (l : locals) (tick : nat) : option exn :=
  match get_object E (bucket l) (key l) with
  | Raise e => Some e
  | Ok csv_content =>
      match put_object E (output_bucket l) (output_key l)
              (Re.processed_content (unicode E) csv_content) with
      | Some e => Some e
      | None =>
          put_item E (job_id l)
            (processed_item l (now E tick) (now E (S tick)) (now E (S (S tick))))
      end
  end.

(** Lines 111-177: the first handler, entered when anything in the inner
    [try] raises. *)
Definition fallback (E : env) (l : locals) (bedrock_error : exn)
    : M world (gmap string value) :=
  run logger WARNING
    ("Bedrock batch job creation failed, falling back to direct processing: "
       +:+ str_exn bedrock_error);
  try_except (direct_processing E l)
    (fun direct_error =>
       run logger ERROR ("Direct processing failed: " +:+ str_exn direct_error);
       ret (dict
         [ ("statusCode", VInt 500);
           ("error", VStr ("Both Bedrock and direct processing failed: "
                             +:+ str_exn direct_error)) ])).

(** [handler(event, context)].  The prompt text of lines 56-65 is assigned
    and never used; info-level log lines are left out. *)
Definition handler (E : env) (event : list (string * value)) : M world (gmap string value) :=
  try_except
    (do l <- setup E event;
     try_except (batch_inference E l) (fallback E l))
    (fun e =>
       run logger ERROR ("Handler error: " +:+ str_exn e);
       ret (dict [ ("statusCode", VInt 500); ("error", VStr (str_exn e)) ])).

End Processor.

(** *** [monitor.py] *)

Module Monitor.

(** [job_status in ['Completed', 'Failed', 'Stopped']] *)
Definition terminal (job_status : value) : bool :=
  is_str job_status "Completed" || is_str job_status "Failed"
  || is_str job_status "Stopped".

(** Lines 64-67: the extra assignment of a failed job. *)
Definition failure (job_status job_response : value)
    : M world (list (string * value)) :=
  if is_str job_status "Failed" then
    do failure_reason <- lift (get job_response "failureMessage" (VStr "Unknown failure"));
    ret [("failureReason", failure_reason)]
  else ret [].

(** Lines 50-77: the body of the [try] of one job. *)
Definition check (E : env) (job_id : string) (job_arn : value) (jobs_updated : nat)
    : M world nat :=
  do job_response <- bedrock_get E job_arn;
  do job_status <- lift (getitem job_response "status");
  if terminal job_status then
    do completed <- datetime_now E;
    do extra <- failure job_status job_response;
    run table_update_item E job_id
      ([("status", job_status); ("completedAt", VStr (isoformat completed))] ++ extra);
    ret (S jobs_updated)
  else ret jobs_updated.

(** Line 42: [not job_arn or item.get('method') == 'direct_processing']. *)
Definition skipped (attrs : gmap string value) : bool :=
  negb (truthy (default VNone (attrs !! "jobArn")))
  || is_str (default VNone (attrs !! "method")) "direct_processing".

(** Lines 38-81: one turn of the loop over the scanned items. *)
Definition visit (E : env) (counts : nat * nat) (item : string * gmap string value)
    : M world (nat * nat) :=
  let '(jobs_checked, jobs_updated) := counts in
  let '(job_id, attrs) := item in
  let job_arn := default VNone (attrs !! "jobArn") in
  if skipped attrs then ret (jobs_checked, jobs_updated)
  else
    try_except
      (do updated <- check E job_id job_arn jobs_updated;
       ret (S jobs_checked, updated))
      (fun job_error =>
         run logger ERROR
           ("Error checking job " +:+ job_id +:+ ": " +:+ str_exn job_error);
         ret (S jobs_checked, jobs_updated)).

(** The items that get past line 42, and the handle of an item. *)
Definition arn (attrs : gmap string value) : value :=
  default VNone (attrs !! "jobArn").

Definition checked (items : list (string * gmap string value))
    : list (string * gmap string value) :=
  List.filter (fun it => negb (skipped (snd it))) items.

(** What one turn does, read off without the world: the answer of the
    backend when it names a terminal status, the assignments that follow
    from it, and the assignments that reach the table at clock reading
    [tick]. *)
Definition reports (E : env) (attrs : gmap string value) : option (value * value) :=
  if skipped attrs then None
  else match get_model_invocation_job E (default VNone (attrs !! "jobArn")) with
       | Ok job_response =>
           match getitem job_response "status" with
           | Ok job_status =>
               if terminal job_status then Some (job_response, job_status) else None
           | Raise _ => None
           end
       | Raise _ => None
       end.

Definition assignments (job_response job_status : value) (completed : datetime)
    : list (string * value) :=
  [("status", job_status); ("completedAt", VStr (isoformat completed))]
  ++ (if is_str job_status "Failed"
      then match job_response with
           | VDict d => [("failureReason", dict_get d "failureMessage" (VStr "Unknown failure"))]
           | _ => []
           end
      else []).

Definition transition (E : env) (job_id : string) (attrs : gmap string value)
    (tick : nat) : option (list (string * value)) :=
  match reports E attrs with
  | Some (job_response, job_status) =>
      let sets := assignments job_response job_status (now E tick) in
      match update_item E job_id sets with
      | None => Some sets
      | Some _ => None
      end
  | None => None
  end.

(** The record of a job after a pass that reaches it at clock reading
    [tick]; a record that the scan does not return stays as it is. *)
Definition reconciled (E : env) (job_id : string) (attrs : gmap string value)
    (tick : nat) : gmap string value :=
  if page E job_id && in_progress attrs
  then match transition E job_id attrs tick with
       | Some sets => assign sets attrs
       | None => attrs
       end
  else attrs.

(** Whether the table takes an update of a job does not depend on the
    values written. *)
Definition steady (E : env) : Prop :=
  forall job_id sets sets',
    update_item E job_id sets = None -> update_item E job_id sets' = None.

Fixpoint for_each {A B : Type} (body : A -> B -> M world A) (a : A) (l : list B)
    : M world A :=
  match l with
  | [] => ret a
  | x :: l' => do a' <- body a x; for_each body a' l'
  end.

(** [handler(event, context)]; info-level log lines are left out. *)
Definition handler (E : env) (event : list (string * value)) : M world (gmap string value) :=
  try_except
    (do table_name <- getenv E "DYNAMODB_TABLE";
     do items <- table_scan E;
     do '(jobs_checked, jobs_updated) <- for_each (visit E) (0, 0) items;
     ret (dict
       [ ("statusCode", VInt 200);
         ("jobsChecked", VInt (Z.of_nat jobs_checked));
         ("jobsUpdated", VInt (Z.of_nat jobs_updated));
         ("message", VStr ("Checked " +:+ pretty jobs_checked +:+ " jobs, updated "
                             +:+ pretty jobs_updated)) ]))
    (fun e =>
       run logger ERROR ("Monitor error: " +:+ str_exn e);
       ret (dict [ ("statusCode", VInt 500); ("error", VStr (str_exn e)) ])).

End Monitor.

End Batch.

(** ** The real-time pipeline: [src/Realtime/samplelambda/genai-pii-mask.py] *)

Module Realtime.
Import Py Py.Notations.

(** A DataFrame: its rows in index order, each a map from column to cell;
    a missing cell (NaN) is [VNone]. *)
Definition frame := list (gmap string value).

Record world := {
  conversed : list string;                       (* texts sent to bedrock.converse *)
  written : list (value * string * string);      (* put_object calls: bucket, key, body *)
  log : list (level * string)
}.

Record env := {
  fmt : value -> string;                         (* str() of a non-str value *)
  converse : string -> result value;             (* the one user message -> response *)
  get_object : value -> value -> result (list Byte.byte);
  decode : list Byte.byte -> result Re.text;     (* bytes.decode('utf-8') *)
  read_csv : list Byte.byte -> result frame;     (* pandas.read_csv *)
  to_csv : frame -> string;                      (* DataFrame.to_csv(index=False) *)
  put_object : value -> string -> string -> option exn;
  dumps : gmap string value -> string            (* json.dumps *)
}.

Definition initial : world := {| conversed := []; written := []; log := [] |}.

Definition with_conversed (t : string) (w : world) : world :=
  {| conversed := conversed w ++ [t]; written := written w; log := log w |}.
Definition with_written (b : value) (k body : string) (w : world) : world :=
  {| conversed := conversed w; written := written w ++ [(b, k, body)]; log := log w |}.
Definition with_log (l : level) (msg : string) (w : world) : world :=
  {| conversed := conversed w; written := written w; log := log w ++ [(l, msg)] |}.

Definition logger (l : level) (msg : string) : M world unit :=
  modify (with_log l msg).

Definition bedrock_converse (E : env) (t : string) : M world value :=
  run modify (with_conversed t);
  lift (converse E t).

Definition s3_put_object (E : env) (bucket : value) (key body : string) : M world unit :=
  match put_object E bucket key body with
  | Some e => raise e
  | None => modify (with_written bucket key body)
  end.

Definition prompt : string :=
"You are a PII detection and masking system. Your task is to identify and mask personally identifiable information (PII) in input text. When you detect PII, replace it with a corresponding PII entity type tag.

Use the following masking tags:
- Credit card numbers: <PII_CREDIT_CARD>
- Names: <PII_NAME>
- Email addresses: <PII_EMAIL>
- Street/postal addresses: <PII_ADDRESS>
- Phone numbers: <PII_PHONE>
- Bank account numbers: <PII_BANK_ACCOUNT>
- Government IDs (SSN, driver's license, passport, etc): <PII_GOV_ID>
- Dates of birth: <PII_DOB>
- Geolocation coordinates: <PII_GEOLOCATION>
- Organization account numbers: <PII_ORG_ACCOUNT>
- Associated IDs (airline, car rental, etc): <PII_ASSOCIATED_ID>
- Digital signatures (IP, MAC, Device ID, etc): <PII_DIGITAL_SIG>
- Health/medical information: <PII_MEDICAL>
- Password( similaly PWD): <PII_PASSWORD> 

Guidelines:
1. Analyze the input text and identify any PII elements
2. Replace each PII element with its corresponding mask tag
3. Preserve the original text structure and formatting
4. Return only the masked text without any additional commentary
5. Process text in-place, maintaining original word order and punctuation
6. Be thorough in detecting PII across different formats and patterns
7. Handle partial or incomplete PII data conservatively
8. Maintain case sensitivity of non-PII text
9. Preserve spacing and line breaks
10. Do not add any explanations or metadata to the output

Remember: Your output should contain only the masked text, with no additional commentary, formatting, or explanations.".

(** The user message of line 53. *)
Definition message (E : env) (text : value) : string :=
  prompt +:+ " + Text to analyze: " +:+ format (fmt E) text.

(** Line 58: [response['output']['message']['content'][0]['text']]. *)
Definition extract (response : value) : result value :=
  match getitem response "output" with
  | Raise e => Raise e
  | Ok output =>
  match getitem output "message" with
  | Raise e => Raise e
  | Ok message =>
  match getitem message "content" with
  | Raise e => Raise e
  | Ok content =>
  match getfirst content with
  | Raise e => Raise e
  | Ok first => getitem first "text"
  end end end end.

(** Lines 48-58: the body of the [try]. *)
Definition ask (E : env) (text : value) : M world value :=
  do response <- bedrock_converse E (message E text);
  lift (extract response).

(** [obfuscate_pii(text)] *)
Definition obfuscate_pii (E : env) (text : value) : M world value :=
  try_except (ask E text)
    (fun e =>
       run logger ERROR ("Error in PII detection: " +:+ str_exn e);
       ret text).

(** [pd.notna] *)
Definition notna (v : value) : bool :=
  match v with VNone => false | _ => true end.

(** Lines 103-107: the loop over [df.iterrows()], row [index] first. *)
Fixpoint process_rows (E : env) (rows : list (gmap string value)) (index : nat)
    (df : frame) : M world frame :=
  match rows with
  | [] => ret df
  | row :: rest =>
      do comments <- match row !! "Comments" with
                     | Some c => ret c
                     | None => raise (KeyError (KStr "Comments"))
                     end;
      do df' <- (if notna comments then
                   do masked <- obfuscate_pii E comments;
                   ret (alter (insert "Comments" masked) index df)
                 else ret df);
      process_rows E rest (S index) df'
  end.

Definition str_method (v : value) (name : string) : M world string :=
  match v with
  | VStr s => ret s
  | _ => raise (no_attribute v name)
  end.

(** Lines 68-69: bucket and key of the first record. *)
Definition source (event : value) : result (value * value) :=
  match getitem event "Records" with Raise e => Raise e | Ok records =>
  match getfirst records with Raise e => Raise e | Ok record =>
  match getitem record "s3" with Raise e => Raise e | Ok s3 =>
  match getitem s3 "bucket" with Raise e => Raise e | Ok b =>
  match getitem b "name" with Raise e => Raise e | Ok source_bucket =>
  match getitem event "Records" with Raise e => Raise e | Ok records' =>
  match getfirst records' with Raise e => Raise e | Ok record' =>
  match getitem record' "s3" with Raise e => Raise e | Ok s3' =>
  match getitem s3' "object" with Raise e => Raise e | Ok o =>
  match getitem o "key" with Raise e => Raise e | Ok source_key =>
  Ok (source_bucket, source_key)
  end end end end end end end end end end.

(** [lambda_handler(event, context)].  The list [pii_types] read from the
    configuration object is only counted in an info-level log line; info-level
    log lines are left out. *)
Definition lambda_handler (E : env) (event : value) : M world (gmap string value) :=
  try_except
    (do '(source_bucket, source_key) <- lift (source event);
     do key <- str_method source_key "endswith";
     if negb (endswith key ".csv") then
       run logger ERROR ("Invalid file format. Expected CSV, got: " +:+ key);
       ret (dict [ ("statusCode", VInt 400); ("body", VStr "Invalid file format") ])
     else
       try_except
         (do pii_config <- lift (get_object E source_bucket (VStr "config/pii_types.txt"));
          do pii_types <- lift (decode E pii_config);
          ret None)
         (fun e =>
            run logger ERROR ("Failed to read PII configuration: " +:+ str_exn e);
            ret (Some (dict
              [ ("statusCode", VInt 500);
                ("body", VStr ("Error reading PII configuration: " +:+ str_exn e)) ])))
       >>= fun early => match early with Some r => ret r | None =>
       try_except
         (do obj <- lift (get_object E source_bucket source_key);
          do df <- lift (read_csv E obj);
          ret (inl df))
         (fun e =>
            run logger ERROR ("Failed to read source CSV: " +:+ str_exn e);
            ret (inr (dict
              [ ("statusCode", VInt 500);
                ("body", VStr ("Error reading source CSV: " +:+ str_exn e)) ])))
       >>= fun loaded => match loaded with inr r => ret r | inl df =>
       let total_rows := length df in
       do df' <- process_rows E df 0 df;
       try_except
         (let target_key := replace key "Newfile/" "Newoutputfile/" in
          run s3_put_object E source_bucket target_key (to_csv E df');
          ret (inl target_key))
         (fun e =>
            run logger ERROR ("Failed to save processed file: " +:+ str_exn e);
            ret (inr (dict
              [ ("statusCode", VInt 500);
                ("body", VStr ("Error saving processed file: " +:+ str_exn e)) ])))
       >>= fun saved => match saved with inr r => ret r | inl target_key =>
       ret (dict
         [ ("statusCode", VInt 200);
           ("body", VStr (dumps E (dict
              [ ("message", VStr "Processing complete");
                ("input_file", VStr key);
                ("output_file", VStr target_key);
                ("rows_processed", VInt (Z.of_nat total_rows)) ]))) ])
       end end end)
    (fun e =>
       run logger ERROR ("Unexpected error in lambda_handler: " +:+ str_exn e);
       ret (dict [ ("statusCode", VInt 500);
                   ("body", VStr ("Unexpected error: " +:+ str_exn e)) ])).

(** The cells of column [Comments] that are not missing, in row order, and
    the masked cell of the same row that [obfuscate_pii] would write. *)
Definition comments (df : frame) : list value :=
  omap (fun row => match row !! "Comments" with
                   | Some c => if notna c then Some c else None
                   | None => None
                   end) df.

Definition masked (E : env) (text : value) : value :=
  match converse E (message E text) with
  | Ok response =>
      match extract response with
      | Ok m => m
      | Raise _ => text
      end
  | Raise _ => text
  end.

Definition masked_row (E : env) (row : gmap string value) : gmap string value :=
  match row !! "Comments" with
  | Some c => if notna c then <["Comments" := masked E c]> row else row
  | None => row
  end.

End Realtime.

(** ** Concrete collaborators and inputs for the worked cases *)

Module Examples.
Import Py Batch.

Definition clock (n : nat) : datetime :=
  {| timestamp := 1700000000 + Z.of_nat n;
     isoformat := "2023-11-14T22:13:" +:+ pretty (20 + n) |}.

Definition configured : gmap string string :=
  list_to_map
    [ ("INPUT_BUCKET", "input"); ("OUTPUT_BUCKET", "output");
      ("DYNAMODB_TABLE", "jobs"); ("BEDROCK_ROLE_ARN", "arn:role") ].

Definition make_env
    (create : job_request -> result value)
    (status : value -> result value)
    (read : value -> value -> result Re.text)
    (store : string -> gmap string value -> option exn) : env :=
  {| environ := configured;
     now := clock;
     fmt := fun _ => "";
     unicode := Re.ascii_only;
     create_model_invocation_job := create;
     get_model_invocation_job := status;
     get_object := read;
     put_object := fun _ _ _ => None;
     put_item := store;
     scan := None;
     page := fun _ => true;
     update_item := fun _ _ => None |}.

Definition accepted (r : job_request) : result value :=
  Ok (VDict [("jobArn", VStr "arn:job:1")]).
Definition denied (r : job_request) : result value :=
  Raise (ClientError "AccessDeniedException").

Definition contact : Re.text := Re.str "Contact: a@b.com, phone 555-123-4567".
Definition readable (b k : value) : result Re.text := Ok contact.
Definition missing (b k : value) : result Re.text := Raise (ClientError "NoSuchKey").

Definition quota (arn : value) : result value :=
  Ok (VDict [("status", VStr "Failed"); ("failureMessage", VStr "quota exceeded")]).
(** The query fails for the first job and reports the second completed. *)
Definition flaky (arn : value) : result value :=
  if is_str arn "arn:job:1" then Raise (ClientError "ThrottlingException")
  else Ok (VDict [("status", VStr "Completed")]).

Definition reliable (k : string) (attrs : gmap string value) : option exn := None.
(** The table refuses the item of a submitted job and takes any other. *)
Definition throttled (k : string) (attrs : gmap string value) : option exn :=
  match attrs !! "jobArn" with
  | Some _ => Some (ClientError "ProvisionedThroughputExceededException")
  | None => None
  end.

(** The backend accepts the job and the table takes its record. *)
Definition smooth : env := make_env accepted quota readable reliable.
(** The backend accepts the job; the table refuses its record. *)
Definition half_way : env := make_env accepted quota readable throttled.
(** The backend refuses the job; the file can be read. *)
Definition backend_down : env := make_env denied quota readable reliable.
(** The backend refuses the job and the file cannot be read. *)
Definition all_down : env := make_env denied quota missing reliable.
(** Status queries: one failing, one answering. *)
Definition patchy : env := make_env accepted flaky readable reliable.

(** The S3 notification for one object. *)
Definition s3_event (b k : string) : list (string * value) :=
  [ ("Records", VList
      [ VDict [ ("s3", VDict [ ("bucket", VDict [("name", VStr b)]);
                               ("object", VDict [("key", VStr k)]) ]) ] ]) ].

Definition csv_arrived : list (string * value) := s3_event "input" "data.csv".
Definition txt_arrived : list (string * value) := s3_event "input" "data.txt".

(** The locals of the submitter for [csv_arrived] at the first clock
    reading. *)
Definition csv_locals : Processor.locals :=
  {| Processor.job_id := "pii-job-1700000000";
     Processor.bucket := VStr "input";
     Processor.key := VStr "data.csv";
     Processor.output_bucket := "output";
     Processor.output_key := "processed-data.csv";
     Processor.input_uri := "s3://input/data.csv";
     Processor.output_uri := "s3://output/processed-data.csv";
     Processor.bedrock_role_arn := "arn:role" |}.

(** A table with a submitted job, a second one, a record of a direct run
    wrongly left in progress, and a completed job. *)
Definition job (arn : string) : gmap string value :=
  dict [("jobArn", VStr arn); ("status", VStr "InProgress")].
Definition stale_direct : gmap string value :=
  dict [("status", VStr "InProgress"); ("method", VStr "direct_processing")].
Definition done_job : gmap string value :=
  dict [("jobArn", VStr "arn:job:0"); ("status", VStr "Completed");
        ("completedAt", VStr "2023-11-14T22:00:00")].

Definition some_jobs : world :=
  with_table (fun _ => list_to_map
    [ ("pii-job-0", done_job); ("pii-job-1", job "arn:job:1");
      ("pii-job-2", job "arn:job:2"); ("pii-job-3", stale_direct) ]) initial.

(** The table takes no item at all. *)
Definition refusing (k : string) (attrs : gmap string value) : option exn :=
  Some (ClientError "ResourceNotFoundException").
(** The backend refuses the job, the file can be read and written, the table
    takes no item. *)
Definition table_down : env := make_env denied quota readable refusing.

(** The scan of the table fails. *)
Definition scan_down : env :=
  {| environ := configured;
     now := clock;
     fmt := fun _ => "";
     unicode := Re.ascii_only;
     create_model_invocation_job := accepted;
     get_model_invocation_job := quota;
     get_object := readable;
     put_object := fun _ _ _ => None;
     put_item := reliable;
     scan := Some (ClientError "ProvisionedThroughputExceededException");
     page := fun _ => true;
     update_item := fun _ _ => None |}.

(** The backend still works on every job. *)
Definition busy (arn : value) : result value :=
  Ok (VDict [("status", VStr "InProgress")]).
Definition waiting : env := make_env accepted busy readable reliable.

(** [E] with one environment variable taken away. *)
Definition unset (name : string) (E : env) : env :=
  {| environ := delete name (environ E);
     now := now E;
     fmt := fmt E;
     unicode := unicode E;
     create_model_invocation_job := create_model_invocation_job E;
     get_model_invocation_job := get_model_invocation_job E;
     get_object := get_object E;
     put_object := put_object E;
     put_item := put_item E;
     scan := scan E;
     page := page E;
     update_item := update_item E |}.

(** A notification whose one record is a number, and a manual invocation
    that names a key only. *)
Definition number_record : list (string * value) := [ ("Records", VList [ VInt 5 ]) ].
Definition manual : list (string * value) := [ ("key", VStr "batch.csv") ].


(** The collaborators of [smooth] with a clock that stays within one second,
    and the notification for a second file. *)
Definition within_a_second : env :=
  {| environ := configured;
     now := fun n => {| timestamp := 1700000000;
                        isoformat := "2023-11-14T22:13:20." +:+ pretty n |};
     fmt := fun _ => "";
     unicode := Re.ascii_only;
     create_model_invocation_job := accepted;
     get_model_invocation_job := quota;
     get_object := readable;
     put_object := fun _ _ _ => None;
     put_item := reliable;
     scan := None;
     page := fun _ => true;
     update_item := fun _ _ => None |}.
Definition other_arrived : list (string * value) := s3_event "input" "other.csv".
Definition other_locals : Processor.locals :=
  {| Processor.job_id := "pii-job-1700000000";
     Processor.bucket := VStr "input";
     Processor.key := VStr "other.csv";
     Processor.output_bucket := "output";
     Processor.output_key := "processed-other.csv";
     Processor.input_uri := "s3://input/other.csv";
     Processor.output_uri := "s3://output/processed-other.csv";
     Processor.bedrock_role_arn := "arn:role" |}.

(** The real-time collaborators: the model answers with a fixed text, S3
    holds nothing. *)
Definition realtime : Realtime.env :=
  {| Realtime.fmt := fun _ => "";
     Realtime.converse := fun _ =>
       Ok (VDict [("output", VDict [("message", VDict
             [("content", VList [VDict [("text", VStr "<PII_NAME> called")]])])])]);
     Realtime.get_object := fun _ _ => Raise (ClientError "NoSuchKey");
     Realtime.decode := fun _ => Ok [];
     Realtime.read_csv := fun _ => Ok [];
     Realtime.to_csv := fun _ => "";
     Realtime.put_object := fun _ _ _ => None;
     Realtime.dumps := fun _ => "" |}.

(** A frame of three rows, the second without a comment, and a frame
    without the column. *)
Definition few_rows : Realtime.frame :=
  [ dict [("Id", VInt 1); ("Comments", VStr "call Ann on 555-123-4567")];
    dict [("Id", VInt 2); ("Comments", VNone)];
    dict [("Id", VInt 3); ("Comments", VStr "mail bob@example.com")] ].
Definition no_column : Realtime.frame := [ dict [("Id", VInt 1)] ].

(** Real-time collaborators over a bucket that holds the configuration and
    a CSV file read as [df]; [model] is the model's behaviour. *)
Definition serving (df : Realtime.frame) (model : string -> result value)
    (config : value -> value -> result (list Byte.byte)) : Realtime.env :=
  {| Realtime.fmt := fun _ => "";
     Realtime.converse := model;
     Realtime.get_object := config;
     Realtime.decode := fun _ => Ok [];
     Realtime.read_csv := fun _ => Ok df;
     Realtime.to_csv := fun f => pretty (length f);
     Realtime.put_object := fun _ _ _ => None;
     Realtime.dumps := fun _ => "" |}.

Definition model_down (t : string) : result value :=
  Raise (ClientError "ThrottlingException").
Definition model_up (t : string) : result value :=
  Ok (VDict [("output", VDict [("message", VDict
        [("content", VList [VDict [("text", VStr "<PII_NAME> called")]])])])]).
Definition bucket_up (b k : value) : result (list Byte.byte) := Ok [].
Definition bucket_down (b k : value) : result (list Byte.byte) :=
  Raise (ClientError "AccessDenied").

Definition csv_uploaded : value := VDict (s3_event "input" "Newfile/data.csv").
Definition csv_elsewhere : value := VDict (s3_event "input" "uploads/data.csv").

(** A bucket that holds the configuration and nothing else, and the
    collaborators of [E] with a bucket that takes no write. *)
Definition bucket_without_file (b k : value) : result (list Byte.byte) :=
  match k with
  | VStr "config/pii_types.txt" => Ok []
  | _ => Raise (ClientError "NoSuchKey")
  end.

Definition read_only (E : Realtime.env) : Realtime.env :=
  {| Realtime.fmt := Realtime.fmt E;
     Realtime.converse := Realtime.converse E;
     Realtime.get_object := Realtime.get_object E;
     Realtime.decode := Realtime.decode E;
     Realtime.read_csv := Realtime.read_csv E;
     Realtime.to_csv := Realtime.to_csv E;
     Realtime.put_object := fun _ _ _ => Some (ClientError "AccessDenied");
     Realtime.dumps := Realtime.dumps E |}.

End Examples.

(** * Part II. Theorems *)

(** ** The matcher against the declarative reading *)

Section Matcher.
Import Re.
Variable U : unicode.

Lemma lastc_app p u v : lastc p (u ++ v) = lastc (lastc p u) v.
Proof. revert p. induction u as [|c u IH]; intros p; simpl; [done|apply IH]. Qed.

Lemma lastc_cons p c w : lastc p (c :: w) = lastc (Some c) w.
Proof. reflexivity. Qed.

Lemma lastc_nonempty p q w : w <> [] -> lastc p w = lastc q w.
Proof. destruct w; [done|reflexivity]. Qed.

Lemma lastc_snoc p w c : lastc p (w ++ [c]) = Some c.
Proof. by rewrite lastc_app. Qed.

Lemma lastc_Some w : forall p g,
  lastc p w = Some g -> (w = [] /\ p = Some g) \/ exists w', w = w' ++ [g].
Proof.
  induction w as [|c w IH]; intros p g H; simpl in H; [by left|].
  right. destruct (IH _ _ H) as [[-> Hc]|[w' ->]].
  - injection Hc as ->. by exists [].
  - by exists (c :: w').
Qed.

Lemma hd_or_app w y : hd_or w (head y) = head (w ++ y).
Proof. by destruct w. Qed.

Lemma fits_zero lo hi : fits 0 lo hi -> lo = 0.
Proof. intros [H _]. lia. Qed.

Lemma fits_succ n lo hi :
  room hi = true -> fits n (pred lo) (less hi) -> fits (S n) lo hi.
Proof.
  intros Hr [H1 H2]. split; [lia|].
  destruct hi as [[|h]|]; simpl in *; try done. lia.
Qed.

Lemma fits_pred n lo hi :
  fits (S n) lo hi -> room hi = true /\ fits n (pred lo) (less hi).
Proof.
  intros [H1 H2]. destruct hi as [[|h]|]; simpl in *; try lia.
  - repeat split; lia.
  - repeat split; lia.
Qed.

(** A successful run of a quantified class took some prefix within its
    bounds and handed the rest to the continuation. *)
Lemma rep_go_sound cls k s : forall lo hi p n r,
  rep_go U cls k lo hi p s n = Some r ->
  exists u v, s = u ++ v /\ forallb (member U cls) u = true /\
              fits (length u) lo hi /\ k (lastc p u) v (n + length u) = Some r.
Proof.
  induction s as [|c s IH]; intros lo hi p n r H; simpl in H.
  - destruct lo; [|done]. exists [], []. simpl.
    rewrite Nat.add_0_r. split; [done|]. split; [done|]. split; [|done].
    split; [done|]. destruct hi; lia.
  - assert (Hstop : match lo with 0 => k p (c :: s) n | S _ => None end = Some r ->
        exists u v, c :: s = u ++ v /\ forallb (member U cls) u = true /\
          fits (length u) lo hi /\ k (lastc p u) v (n + length u) = Some r).
    { intros Hs. destruct lo; [|done]. exists [], (c :: s). simpl.
      rewrite Nat.add_0_r. split; [done|]. split; [done|]. split; [|done].
      split; [done|]. destruct hi; lia. }
    destruct (member U cls c && room hi) eqn:Hc; [|by apply Hstop].
    apply andb_prop in Hc as [Hm Hr].
    destruct (rep_go U cls k (pred lo) (less hi) (Some c) s (S n)) as [r'|] eqn:Hrec;
      [|by apply Hstop].
    injection H as ->.
    destruct (IH _ _ _ _ _ Hrec) as (u & v & -> & Hu & Hf & Hk).
    exists (c :: u), v. simpl. rewrite Hm, Hu.
    split; [done|]. split; [done|]. split; [by apply fits_succ|].
    by rewrite <- Nat.add_succ_comm.
Qed.

Lemma bt_sound pat : forall p s n r,
  bt U pat p s n = Some r ->
  exists w y, s = w ++ y /\ lang U pat p w (head y) /\ r = n + length w.
Proof.
  induction pat as [|[|cls lo hi] pat IH]; intros p s n r H; simpl in H.
  - injection H as <-. exists [], s. simpl. auto with lia.
  - destruct (bnd U p (head s)) eqn:Hb; [|done].
    destruct (IH _ _ _ _ H) as (w & y & -> & Hl & ->).
    exists w, y. split; [done|]. split; [|done]. simpl. by rewrite hd_or_app.
  - destruct (rep_go_sound _ _ _ _ _ _ _ _ H) as (u & v & -> & Hu & Hf & Hk).
    destruct (IH _ _ _ _ Hk) as (w & y & -> & Hl & ->).
    exists (u ++ w), y. rewrite length_app, <- app_assoc.
    split; [done|]. split; [|lia]. simpl. eauto 10.
Qed.

(** Whatever prefix the class may take, the matcher finds some match as
    soon as the continuation accepts after that prefix. *)
Lemma rep_go_complete cls k u : forall v lo hi p n,
  forallb (member U cls) u = true ->
  fits (length u) lo hi ->
  is_Some (k (lastc p u) v (n + length u)) ->
  is_Some (rep_go U cls k lo hi p (u ++ v) n).
Proof.
  induction u as [|c u IH]; intros v lo hi p n Hu Hf Hk; simpl in *.
  - apply fits_zero in Hf as ->. rewrite Nat.add_0_r in Hk.
    destruct v as [|c v]; simpl; [done|].
    destruct (member U cls c && room hi); [|done].
    by destruct (rep_go U cls k 0 (less hi) (Some c) v (S n)).
  - apply andb_prop in Hu as [Hm Hu].
    apply fits_pred in Hf as [Hr Hf]. rewrite Hm, Hr. simpl.
    rewrite <- Nat.add_succ_comm in Hk.
    destruct (IH v _ _ (Some c) (S n) Hu Hf Hk) as [r ->]. done.
Qed.

Lemma bt_complete pat : forall p w y n,
  lang U pat p w (head y) -> is_Some (bt U pat p (w ++ y) n).
Proof.
  induction pat as [|[|cls lo hi] pat IH]; intros p w y n H; simpl in *.
  - done.
  - destruct H as [Hb H]. rewrite hd_or_app in Hb. rewrite Hb. by apply IH.
  - destruct H as (u & v & -> & Hu & Hf & H). rewrite <- app_assoc.
    apply rep_go_complete; auto.
Qed.

(** Only the word-ness of the two neighbours matters. *)
Lemma lang_ctx pat : forall p p' w nx nx',
  isw U p = isw U p' -> isw U nx = isw U nx' ->
  lang U pat p w nx -> lang U pat p' w nx'.
Proof.
  induction pat as [|[|cls lo hi] pat IH]; intros p p' w nx nx' Hp Hn H; simpl in *.
  - done.
  - destruct H as [Hb H]. split; [|by eapply IH].
    unfold bnd in *. rewrite <- Hp. destruct w; simpl in *; [by rewrite <- Hn|done].
  - destruct H as (u & v & -> & Hu & Hf & H). exists u, v.
    split; [done|]. split; [done|]. split; [done|].
    eapply IH; [| |exact H]; [|done]. destruct u; [done|reflexivity].
Qed.

Lemma lang_start pat p w nx :
  starts_bnd pat = true -> lang U pat p w nx -> bnd U p (hd_or w nx) = true.
Proof. destruct pat as [|[|] pat]; try done. by intros _ [H _]. Qed.

Lemma lang_end pat : forall p w nx,
  ends_bnd pat = true -> lang U pat p w nx -> bnd U (lastc p w) nx = true.
Proof.
  induction pat as [|it pat IH]; intros p w nx He H; [done|].
  destruct it as [|cls lo hi].
  - destruct pat as [|it' pat'].
    + destruct H as [Hb ->]. done.
    + destruct H as [_ H]. by apply IH.
  - destruct pat as [|it' pat']; [done|].
    destruct H as (u & v & -> & _ & _ & H). rewrite lastc_app. by apply IH.
Qed.

Lemma lang_avoids c pat : forall p w nx,
  avoids U c pat = true -> lang U pat p w nx -> c ∉ w.
Proof.
  induction pat as [|[|cls lo hi] pat IH]; intros p w nx Ha H; simpl in *.
  - subst. apply not_elem_of_nil.
  - destruct H as [_ H]. by eapply IH.
  - apply andb_prop in Ha as [Hc Ha].
    destruct H as (u & v & -> & Hu & _ & H).
    rewrite elem_of_app. intros [Hin|Hin]; [|by eapply IH].
    rewrite forallb_forall in Hu. apply list_elem_of_In in Hin.
    rewrite (Hu _ Hin) in Hc. done.
Qed.

Lemma core_cons it pat :
  core U (it :: pat) =
  match it with Rep cls (S _) _ => rejects U tag_chars cls | _ => false end
  || core U pat.
Proof. reflexivity. Qed.

Lemma lang_core pat : forall p w nx,
  core U pat = true -> lang U pat p w nx -> exists c, c ∈ w /\ c ∉ tag_chars.
Proof.
  induction pat as [|it pat IH]; intros p w nx Hc H; [done|].
  rewrite core_cons in Hc. apply orb_prop in Hc as [Hc|Hc].
  - destruct it as [|cls [|lo] hi]; try done.
    destruct H as (u & v & -> & Hu & [Hlo _] & _).
    destruct u as [|c u]; [simpl in Hlo; lia|].
    exists c. split; [set_solver|].
    simpl in Hu. apply andb_prop in Hu as [Hm _].
    intros Hin. unfold rejects in Hc. rewrite forallb_forall in Hc.
    apply list_elem_of_In in Hin. apply Hc in Hin. by rewrite Hm in Hin.
  - destruct it as [|cls lo hi].
    + destruct H as [_ H]. by eapply IH.
    + destruct H as (u & v & -> & _ & _ & H).
      destruct (IH _ _ _ Hc H) as (c & Hin & Hn). exists c. split; [set_solver|done].
Qed.

Lemma lang_nonempty pat p w nx :
  core U pat = true -> lang U pat p w nx -> w <> [].
Proof.
  intros Hc H ->. destruct (lang_core _ _ _ _ Hc H) as (c & Hin & _).
  by apply elem_of_nil in Hin.
Qed.

End Matcher.

(** ** [re.sub] replaces matches and leaves none behind *)

Section Substitution.
Import Re.
Variable U : unicode.

Lemma sub_go_skip pat repl m : forall p b,
  sub_go U pat repl p (length m) (m ++ b) = sub_go U pat repl (lastc p m) 0 b.
Proof.
  induction m as [|c m IH]; intros p b; simpl.
  - by destruct b.
  - apply IH.
Qed.

(** The scan is one way of rewriting. *)
Lemma sub_go_rewrites pat repl :
  core U pat = true ->
  forall s p, rewrites U pat repl p s (sub_go U pat repl p 0 s).
Proof.
  intros Hc s. remember (length s) as n eqn:Hn.
  revert s Hn. induction n as [n IH] using lt_wf_ind. intros s Hn p.
  destruct s as [|c s]; simpl.
  - destruct (match_at U pat p []) as [r|] eqn:Hm; [|constructor].
    apply bt_sound in Hm as (w & y & Hs & Hl & _).
    symmetry in Hs. apply app_eq_nil in Hs as [-> _].
    by apply lang_nonempty in Hl.
  - destruct (match_at U pat p (c :: s)) as [[|r]|] eqn:Hm.
    + apply bt_sound in Hm as (w & y & Hs & Hl & Hr).
      destruct w; [|done]. by apply lang_nonempty in Hl.
    + apply bt_sound in Hm as (w & y & Hs & Hl & Hr).
      destruct w as [|c' w]; [done|]. simpl in Hs, Hr.
      injection Hs as <- ->. injection Hr as ->.
      rewrite sub_go_skip.
      apply (rw_repl U pat repl p (c :: w) y); [done|done|].
      eapply IH; [|reflexivity]. subst n. simpl. rewrite length_app. lia.
    + apply rw_keep; [done|]. eapply IH; [|reflexivity]. subst n. simpl. lia.
Qed.

(** A text without a match is left as it is. *)
Lemma sub_go_clean pat repl s : forall p,
  clean U pat p s -> sub_go U pat repl p 0 s = s.
Proof.
  induction s as [|c s IH]; intros p Hcl; simpl.
  - destruct (match_at U pat p []) as [r|] eqn:Hm; [|done].
    apply bt_sound in Hm as (w & y & Hs & Hl & _).
    exfalso. apply (Hcl [] w y); done.
  - destruct (match_at U pat p (c :: s)) as [r|] eqn:Hm.
    + apply bt_sound in Hm as (w & y & Hs & Hl & _).
      exfalso. apply (Hcl [] w y); done.
    + f_equal. apply IH. intros u w y -> Hl.
      apply (Hcl (c :: u) w y); done.
Qed.

Lemma tag_shape t :
  tag_ok U t = true ->
  exists t0, t = lt :: t0 /\ (exists t1, t = t1 ++ [gt]) /\
    (forall c, c ∈ t -> c ∈ tag_chars) /\
    is_word U lt = false /\ is_word U gt = false.
Proof.
  unfold tag_ok. intros H.
  repeat (apply andb_prop in H as [H ?]).
  destruct t as [|c t0] eqn:Ht; [done|].
  apply N.eqb_eq in H as ->. exists t0. split; [done|].
  rewrite <- Ht in *. split; [|split; [|split]].
  - destruct (lastc None t) as [g|] eqn:Hl; [|done].
    apply N.eqb_eq in H3 as ->.
    apply lastc_Some in Hl as [[Hn _]|Hl]; [|done].
    rewrite Ht in Hn. done.
  - intros c Hin. rewrite forallb_forall in H2.
    apply list_elem_of_In in Hin. apply H2 in Hin.
    apply existsb_exists in Hin as (x & Hx & Heq).
    apply N.eqb_eq in Heq as ->. by apply list_elem_of_In.
  - by apply negb_true_iff.
  - by apply negb_true_iff.
Qed.

Section Prefix.
Variables (pat : pattern) (repl : text).
Hypothesis pat_start : starts_bnd pat = true.
Hypothesis repl_ok : tag_ok U repl = true.

(** A word free of [<] that begins the output begins the input too, and
    a boundary after it in the output is one in the input. *)
Lemma rewrites_prefix p s out :
  rewrites U pat repl p s out ->
  forall w y, out = w ++ y -> lt ∉ w ->
  exists y0, s = w ++ y0 /\
    (bnd U (lastc p w) (head y) = true -> bnd U (lastc p w) (head y0) = true).
Proof using All.
  destruct (tag_shape _ repl_ok) as (t0 & Hrepl & _).
  induction 1 as [p|p c s out Hm Hrw IH|p m b out Hne Hl Hrw IH]; intros w y Hout Hlt.
  - symmetry in Hout. apply app_eq_nil in Hout as [-> ->]. by exists [].
  - destruct w as [|c' w].
    + simpl in Hout. subst y. by exists (c :: s).
    + injection Hout as <- Hout.
      destruct (IH w y Hout) as (y0 & -> & Hb); [set_solver|].
      by exists y0.
  - destruct w as [|c' w].
    + exists (m ++ b). split; [done|]. intros _. simpl.
      rewrite <- hd_or_app. exact (lang_start U pat p m (head b) pat_start Hl).
    + rewrite Hrepl in Hout. simpl in Hout. injection Hout as Hc _.
      subst c'. set_solver.
Qed.

End Prefix.

Section Trace.
(** [pat] is replaced by [repl]; [cand] is the pattern looked for
    afterwards. *)
Variables (pat cand : pattern) (repl : text).
Hypothesis pat_start : starts_bnd pat = true.
Hypothesis pat_end : ends_bnd pat = true.
Hypothesis cand_start : starts_bnd cand = true.
Hypothesis cand_end : ends_bnd cand = true.
Hypothesis cand_lt : avoids U lt cand = true.
Hypothesis cand_gt : avoids U gt cand = true.
Hypothesis cand_core : core U cand = true.
Hypothesis repl_ok : tag_ok U repl = true.

Lemma repl_shape :
  exists t0, repl = lt :: t0 /\ (exists t1, repl = t1 ++ [gt]) /\
    (forall c, c ∈ repl -> c ∈ tag_chars) /\
    is_word U lt = false /\ is_word U gt = false.
Proof using repl_ok. by apply tag_shape. Qed.

(** A match of [cand] in the output stands at a place of the input where
    [cand] matches as well and where the scan found no match of [pat]. *)
Lemma rewrites_trace pin s out :
  rewrites U pat repl pin s out ->
  forall pout u w y,
  (bnd U pout (head s) = true -> isw U pin = isw U pout) ->
  out = u ++ w ++ y ->
  lang U cand (lastc pout u) w (head y) ->
  exists u0 y0, s = u0 ++ w ++ y0 /\
    lang U cand (lastc pin u0) w (head y0) /\
    match_at U pat (lastc pin u0) (w ++ y0) = None.
Proof using All.
  destruct repl_shape as (t0 & Hrepl & [t1 Hrepl'] & Htag & Hwlt & Hwgt).
  induction 1 as [p|p c s out Hm Hrw IH|p m b out Hne Hl Hrw IH];
    intros pout u w y Hctx Hout Hcand.
  - symmetry in Hout. apply app_eq_nil in Hout as [-> Hout].
    apply app_eq_nil in Hout as [-> ->].
    by apply lang_nonempty in Hcand.
  - destruct u as [|c' u].
    + simpl in Hout, Hcand.
      pose proof (lang_nonempty U _ _ _ _ cand_core Hcand) as Hw.
      pose proof (lang_start U _ _ _ _ cand_start Hcand) as Hs.
      pose proof (lang_end U _ _ _ _ cand_end Hcand) as He.
      pose proof (lang_avoids U _ _ _ _ _ cand_lt Hcand) as Hlt.
      destruct (rewrites_prefix pat repl pat_start repl_ok _ _ _
                  (rw_keep U pat repl p c s out Hm Hrw) w y Hout Hlt)
        as (y0 & Hs0 & Hb).
      destruct w as [|c0 w]; [done|]. injection Hs0 as <- ->.
      simpl in Hs. specialize (Hctx Hs).
      exists [], y0. split; [done|]. split; [|done]. simpl.
      eapply lang_ctx; [symmetry; exact Hctx| |exact Hcand].
      simpl in He, Hb. specialize (Hb He). unfold bnd in *.
      destruct (isw U (lastc (Some c) w)), (isw U (head y)), (isw U (head y0)); done.
    + injection Hout as <- Hout.
      destruct (IH (Some c) u w y (fun _ => eq_refl) Hout Hcand) as (u0 & y0 & -> & H1 & H2).
      by exists (c :: u0), y0.
  - apply app_eq_app in Hout as [l [[Hr Hz]|[Hu Ho]]].
    + (* the candidate would start inside the replacement *)
      destruct l as [|c l].
      * rewrite app_nil_r in Hr. simpl in Hz. subst u.
        destruct (IH (Some gt) [] w y) as (u0 & y0 & -> & H1 & H2); auto.
        { intros Hb. pose proof (lang_end U _ _ _ _ pat_end Hl) as He.
          unfold bnd in *. simpl in *. rewrite Hwgt in *.
          destruct (isw U (lastc p m)), (isw U (head b)); done. }
        { simpl. eapply lang_ctx; [| |exact Hcand]; [|done].
          rewrite Hrepl', lastc_snoc. simpl. done. }
        exists (m ++ u0), y0. rewrite <- app_assoc, lastc_app. done.
      * exfalso.
        destruct (lang_core U _ _ _ _ cand_core Hcand) as (x & Hx & Hnx).
        apply Hnx, Htag.
        pose proof (lang_avoids U _ _ _ _ _ cand_gt Hcand) as Hgt.
        assert (Hsuf : exists l0, c :: l = l0 ++ [gt]).
        { rewrite Hrepl' in Hr. clear -Hr.
          destruct (exists_last (l:=c :: l)) as (l0 & g & Hl0); [done|].
          rewrite Hl0 in Hr |- *. rewrite app_assoc in Hr.
          apply app_inj_tail in Hr as [_ ->]. by exists l0. }
        destruct Hsuf as (l0 & Hl0). rewrite Hl0 in Hz, Hr.
        rewrite <- app_assoc in Hz. simpl in Hz.
        assert (Hpre : exists l1, l0 = w ++ l1).
        { clear -Hz Hgt. revert l0 Hz. induction w as [|a w IHw]; intros l0 Hz.
          - by exists l0.
          - destruct l0 as [|a' l0]; simpl in Hz.
            + injection Hz as Ha _. subst a. destruct Hgt. apply list_elem_of_here.
            + injection Hz as Ha Hz. subst a'.
              destruct (IHw) with (l0:=l0) as [l1 ->]; [set_solver|done|].
              by exists l1. }
        destruct Hpre as (l1 & ->). rewrite Hr. set_solver.
    + subst u. rewrite lastc_app in Hcand.
      destruct (IH (lastc pout repl) l w y) as (u0 & y0 & -> & H1 & H2); auto.
      { rewrite Hrepl', lastc_snoc. intros Hb.
        pose proof (lang_end U _ _ _ _ pat_end Hl) as He.
        unfold bnd in *. simpl in *. rewrite Hwgt in *.
        destruct (isw U (lastc p m)), (isw U (head b)); done. }
      exists (m ++ u0), y0. rewrite <- app_assoc, lastc_app. done.
Qed.

End Trace.

End Substitution.

(** ** The fallback redaction applied twice *)

Section Idempotence.
Import Re.
Variable U : unicode.

Lemma rule_ok_parts r :
  rule_ok U r = true ->
  starts_bnd (fst r) = true /\ ends_bnd (fst r) = true /\
  avoids U lt (fst r) = true /\ avoids U gt (fst r) = true /\
  core U (fst r) = true /\ tag_ok U (str (snd r)) = true.
Proof.
  unfold rule_ok. intros H.
  repeat (apply andb_prop in H as [H ?]). auto 10.
Qed.

(** After its own substitution a rule finds nothing. *)
Lemma sub_clean_self r s :
  rule_ok U r = true -> clean U (fst r) None (sub U (fst r) (snd r) s).
Proof.
  intros Hr. destruct (rule_ok_parts _ Hr) as (Hs & He & Hl & Hg & Hc & Ht).
  intros u w y Hout Hcand.
  destruct (rewrites_trace U (fst r) (fst r) (str (snd r)) Hs He Hs He Hl Hg Hc Ht
              None s _ (sub_go_rewrites U _ _ Hc s None) None u w y
              (fun _ => eq_refl) Hout Hcand) as (u0 & y0 & _ & Hl0 & Hm).
  destruct (bt_complete U _ _ _ _ 0 Hl0) as [n Hn].
  unfold match_at in Hm. congruence.
Qed.

(** The substitution of one rule creates no match of another. *)
Lemma sub_clean_other r q s :
  rule_ok U r = true -> rule_ok U q = true ->
  clean U (fst q) None s -> clean U (fst q) None (sub U (fst r) (snd r) s).
Proof.
  intros Hr Hq Hcl.
  destruct (rule_ok_parts _ Hr) as (Hs & He & _ & _ & Hc & Ht).
  destruct (rule_ok_parts _ Hq) as (Hs' & He' & Hl' & Hg' & Hc' & _).
  intros u w y Hout Hcand.
  destruct (rewrites_trace U (fst r) (fst q) (str (snd r)) Hs He Hs' He' Hl' Hg' Hc' Ht
              None s _ (sub_go_rewrites U _ _ Hc s None) None u w y
              (fun _ => eq_refl) Hout Hcand) as (u0 & y0 & Hs0 & Hl0 & _).
  exact (Hcl _ _ _ Hs0 Hl0).
Qed.

Lemma apply_rules_clean_other rs : forall q s,
  forallb (rule_ok U) rs = true -> rule_ok U q = true ->
  clean U (fst q) None s -> clean U (fst q) None (apply_rules U rs s).
Proof.
  induction rs as [|r rs IH]; intros q s Hrs Hq Hcl; [done|].
  simpl in Hrs. apply andb_prop in Hrs as [Hr Hrs].
  apply (IH q _ Hrs Hq). by apply sub_clean_other.
Qed.

Lemma apply_rules_clean rs : forall q s,
  forallb (rule_ok U) rs = true -> In q rs ->
  clean U (fst q) None (apply_rules U rs s).
Proof.
  induction rs as [|r rs IH]; intros q s Hrs Hin; [done|].
  simpl in Hrs. apply andb_prop in Hrs as [Hr Hrs].
  destruct Hin as [->|Hin].
  - apply (apply_rules_clean_other rs q _ Hrs Hr). by apply sub_clean_self.
  - exact (IH q _ Hrs Hin).
Qed.

Lemma apply_rules_id rs : forall s,
  (forall q, In q rs -> clean U (fst q) None s) -> apply_rules U rs s = s.
Proof.
  induction rs as [|r rs IH]; intros s Hcl; [done|].
  change (apply_rules U rs (sub U (fst r) (snd r) s) = s). unfold sub.
  rewrite (sub_go_clean U (fst r) (str (snd r)) s None (Hcl r (or_introl eq_refl))).
  apply IH. intros q Hq. apply Hcl. by right.
Qed.

Lemma rules_ok : forallb (rule_ok U) rules = true.
Proof. reflexivity. Qed.

End Idempotence.

(** C4. The deterministic pattern strategy is idempotent: for every text [t]
    (and whatever the Unicode tables say above code point 127), running the
    four substitutions on their own output changes nothing. *)
Theorem redact_idempotent (U : Re.unicode) (t : Re.text) :
  Re.processed_content U (Re.processed_content U t) = Re.processed_content U t.
Proof.
  apply (apply_rules_id U Re.rules). intros q Hq.
  apply (apply_rules_clean U Re.rules); [apply rules_ok|done].
Qed.

(** ** Runs of ASCII digits *)

Section Digits.
Import Re.
Variable U : unicode.

Lemma ascii_digit_In c : ascii_digit c = true -> In c ascii_digits.
Proof.
  unfold ascii_digit, between. intros H. apply andb_prop in H as [H1 H2].
  apply N.leb_le in H1, H2.
  assert (c = 48 \/ c = 49 \/ c = 50 \/ c = 51 \/ c = 52 \/ c = 53 \/ c = 54 \/
          c = 55 \/ c = 56 \/ c = 57)%N as Hc by lia.
  unfold ascii_digits. simpl.
  repeat (destruct Hc as [->|Hc]; [tauto|]). subst. tauto.
Qed.

Lemma ascii_digit_word c : ascii_digit c = true -> is_word U c = true.
Proof.
  unfold ascii_digit, is_word. intros H. rewrite H.
  unfold between in H. apply andb_prop in H as [_ H]. apply N.leb_le in H.
  assert ((c <? 128)%N = true) as -> by (apply N.ltb_lt; lia). done.
Qed.

Lemma fitsb_fits n lo hi : fits n lo hi -> fitsb n lo hi = true.
Proof.
  intros [H1 H2]. unfold fitsb. apply andb_true_intro. split.
  - by apply Nat.leb_le.
  - destruct hi; [by apply Nat.leb_le|done].
Qed.

(** An accepted word of ASCII digits has one of the lengths that
    [digit_word] allows. *)
Lemma digit_word_sound pat : forall p w nx,
  lang U pat p w nx -> forallb ascii_digit w = true ->
  digit_word U pat (length w) = true.
Proof.
  induction pat as [|[|cls lo hi] pat IH]; intros p w nx H Hd; simpl in H.
  - by subst.
  - destruct H as [_ H]. simpl. by eapply IH.
  - destruct H as (u & v & -> & Hu & Hf & H).
    rewrite forallb_app in Hd. apply andb_prop in Hd as [Hdu Hdv].
    cbn [digit_word]. destruct (rejects U ascii_digits cls) eqn:Hrej.
    + destruct u as [|c u].
      * apply fits_zero in Hf as ->. simpl. by eapply IH.
      * exfalso. simpl in Hu, Hdu.
        apply andb_prop in Hu as [Hm _]. apply andb_prop in Hdu as [Hc _].
        unfold rejects in Hrej. rewrite forallb_forall in Hrej.
        apply ascii_digit_In, Hrej in Hc. by rewrite Hm in Hc.
    + apply existsb_exists. exists (length u). split.
      * apply in_seq. rewrite length_app. lia.
      * rewrite (fitsb_fits _ _ _ Hf). simpl.
        replace (length (u ++ v) - length u) with (length v)
          by (rewrite length_app; lia).
        by eapply IH.
Qed.

Lemma lastc_digit w : forall p,
  forallb ascii_digit w = true -> w <> [] -> isw U (lastc p w) = true.
Proof.
  induction w as [|c w IH]; intros p Hd Hne; [done|].
  simpl in Hd. apply andb_prop in Hd as [Hc Hd].
  destruct w as [|c' w'].
  - simpl. by apply ascii_digit_word.
  - rewrite lastc_cons. by apply IH.
Qed.

(** A standalone run of ASCII digits whose length a pattern does not allow
    holds no match of it. *)
Lemma digits_clean pat ds :
  starts_bnd pat = true -> ends_bnd pat = true -> core U pat = true ->
  forallb ascii_digit ds = true ->
  digit_word U pat (length ds) = false ->
  clean U pat None ds.
Proof.
  intros Hs He Hc Hd Hn u w y -> Hl.
  rewrite !forallb_app in Hd.
  apply andb_prop in Hd as [Hdu Hd]. apply andb_prop in Hd as [Hdw Hdy].
  pose proof (lang_nonempty U _ _ _ _ Hc Hl) as Hw.
  pose proof (lang_start U _ _ _ _ Hs Hl) as Hb.
  pose proof (lang_end U _ _ _ _ He Hl) as Hb'.
  pose proof (digit_word_sound _ _ _ _ Hl Hdw) as Hlen.
  assert (u = []) as ->.
  { destruct u as [|c u]; [done|]. exfalso.
    destruct w as [|c' w]; [done|]. simpl in Hdw.
    apply andb_prop in Hdw as [Hc' _]. apply ascii_digit_word in Hc'.
    unfold bnd in Hb. rewrite (lastc_digit (c :: u)) in Hb by done.
    simpl in Hb. by rewrite Hc' in Hb. }
  assert (y = []) as ->.
  { destruct y as [|c y]; [done|]. exfalso.
    simpl in Hdy. apply andb_prop in Hdy as [Hc' _]. apply ascii_digit_word in Hc'.
    unfold bnd in Hb'. rewrite (lastc_digit w) in Hb' by done.
    simpl in Hb'. by rewrite Hc' in Hb'. }
  simpl in Hn. rewrite app_nil_r in Hn. congruence.
Qed.

End Digits.

(** C9. Under the deterministic pattern strategy the standalone inputs
    [4111-1111-1111-1111] and [4111111111111111] both come out as
    [<PII_CREDIT_CARD>], the e-mail and phone rules having left them as they
    were; a standalone run [ds] of fifteen ASCII digits holds no match of the
    credit-card rule and comes out unchanged. *)
Theorem credit_card_examples (U : Re.unicode) (ds : Re.text) :
  length ds = 15 ->
  forallb Re.ascii_digit ds = true ->
  (Re.sub U Re.phone "<PII_PHONE>"
     (Re.sub U Re.email "<PII_EMAIL>" (Re.str "4111-1111-1111-1111"))
     = Re.str "4111-1111-1111-1111" /\
   Re.processed_content U (Re.str "4111-1111-1111-1111") = Re.str "<PII_CREDIT_CARD>") /\
  (Re.sub U Re.phone "<PII_PHONE>"
     (Re.sub U Re.email "<PII_EMAIL>" (Re.str "4111111111111111"))
     = Re.str "4111111111111111" /\
   Re.processed_content U (Re.str "4111111111111111") = Re.str "<PII_CREDIT_CARD>") /\
  (Re.clean U Re.credit_card None ds /\
   Re.sub U Re.credit_card "<PII_CREDIT_CARD>" ds = ds /\
   Re.processed_content U ds = ds).
Proof.
  intros Hlen Hd. split; [|split].
  - split; vm_compute; reflexivity.
  - split; vm_compute; reflexivity.
  - assert (Hall : forall q, In q Re.rules -> Re.clean U (fst q) None ds).
    { intros q Hq. apply digits_clean; try done.
      - simpl in Hq. destruct Hq as [<-|[<-|[<-|[<-|[]]]]]; reflexivity.
      - simpl in Hq. destruct Hq as [<-|[<-|[<-|[<-|[]]]]]; reflexivity.
      - simpl in Hq. destruct Hq as [<-|[<-|[<-|[<-|[]]]]]; reflexivity.
      - rewrite Hlen. simpl in Hq.
        destruct Hq as [<-|[<-|[<-|[<-|[]]]]]; vm_compute; reflexivity. }
    split; [|split].
    + apply (Hall (Re.credit_card, "<PII_CREDIT_CARD>")). simpl. tauto.
    + apply sub_go_clean. apply (Hall (Re.credit_card, "<PII_CREDIT_CARD>")).
      simpl. tauto.
    + by apply apply_rules_id.
Qed.

Lemma credit_card_examples_witness :
  Re.processed_content Re.ascii_only (Re.str "411111111111111")
  = Re.str "411111111111111".
Proof.
  exact (proj2 (proj2 (proj2 (proj2
    (credit_card_examples Re.ascii_only (Re.str "411111111111111")
       eq_refl eq_refl))))).
Defined.

(** ** The submitter *)

Section Submitter.
Import Py Batch Batch.Processor.

Local Arguments dict : simpl never.
Local Arguments submitted_item : simpl never.
Local Arguments processed_item : simpl never.
Local Arguments Re.processed_content : simpl never.
Local Arguments String.append : simpl never.

(** The handler once the locals are there and the backend refuses the job. *)
Lemma handler_refused E event w l w1 e :
  setup E event w = (Ok l, w1) ->
  create_model_invocation_job E (request l) = Raise e ->
  handler E event w = fallback E l e w1.
Proof.
  intros Hs Hc. unfold handler, try_except, bind. rewrite Hs.
  unfold batch_inference, bedrock_create, bind, lift. rewrite Hc.
  unfold fallback, bind, try_except, logger, modify. simpl.
  destruct (direct_processing E l _) as [[r|e'] w']; reflexivity.
Qed.

Lemma locate_world event input_bucket w r w' :
  locate event input_bucket w = (r, w') -> w' = w.
Proof.
  unfold locate, bind, lift, ret.
  repeat case_match; intros; simplify_eq; done.
Qed.

Lemma setup_tick E event w l w1 :
  setup E event w = (Ok l, w1) -> w1 = tick w.
Proof.
  unfold setup, getenv, datetime_now, bind, ret, raise.
  repeat (case_match; try done); intros; simplify_eq.
  match goal with H : locate _ _ _ = _ |- _ => apply locate_world in H as -> end.
  done.
Qed.

(** The direct path, step by step. *)
Lemma direct_processing_run E l w :
  match direct_error E l (ticks w) with
  | Some e => exists w', direct_processing E l w = (Raise e, w') /\
                         table w' = table w /\ log w' = log w /\ jobs w' = jobs w
  | None => exists r w' csv_content,
      direct_processing E l w = (Ok r, w') /\
      r !! "statusCode" = Some (VInt 200) /\
      get_object E (bucket l) (key l) = Ok csv_content /\
      objects w' = <[(output_bucket l, output_key l) :=
                      Re.processed_content (unicode E) csv_content]> (objects w) /\
      table w' = <[job_id l := processed_item l (now E (ticks w)) (now E (S (ticks w)))
                                  (now E (S (S (ticks w))))]> (table w) /\
      log w' = log w /\ jobs w' = jobs w
  end.
Proof.
  unfold direct_error, direct_processing, s3_get_object, s3_put_object, table_put_item,
    datetime_now, call, bind, lift, ret, modify, raise.
  destruct (get_object E (bucket l) (key l)) as [c|e1]; simpl; [|by eexists].
  destruct (put_object E _ _ _) as [e2|]; simpl; [by eexists|].
  destruct (put_item E _ _) as [e3|]; simpl; [by eexists|].
  eexists _, _, c. repeat split; try done.
Qed.

(** The handler once the backend has accepted the job and handed back a
    [jobArn], and the table takes the item. *)
Lemma handler_submitted E event w l w1 response job_arn :
  setup E event w = (Ok l, w1) ->
  create_model_invocation_job E (request l) = Ok response ->
  getitem response "jobArn" = Ok job_arn ->
  put_item E (job_id l)
    (submitted_item l job_arn (now E (ticks w1)) (now E (S (ticks w1)))) = None ->
  exists r w',
    handler E event w = (Ok r, w') /\
    r = dict [ ("statusCode", VInt 200); ("jobId", VStr (job_id l));
               ("jobArn", job_arn);
               ("message", VStr ("Successfully created batch job for "
                                   +:+ format (fmt E) (key l))) ] /\
    table w' = <[job_id l := submitted_item l job_arn (now E (ticks w1))
                               (now E (S (ticks w1)))]> (table w) /\
    objects w' = objects w /\ jobs w' = jobs w ++ [request l] /\ log w' = log w.
Proof.
  intros Hs Hc Hj Hp. pose proof (setup_tick _ _ _ _ _ Hs) as ->.
  unfold handler, try_except, bind. rewrite Hs.
  unfold batch_inference, bedrock_create, table_put_item, datetime_now, call,
    bind, lift, modify, ret. rewrite Hc. simpl. rewrite Hj. simpl in *.
  rewrite Hp. simpl. eexists _, _. split; [reflexivity|]. done.
Qed.

End Submitter.

(** C1 (evaluated where it fails). The backend accepts the batch job, the
    table refuses the item of the submitted job, and the same run goes on to
    redact the file with the patterns, write the output and store a
    [direct_processing] record under the same job id. *)
Theorem both_paths_in_one_run :
  let run := Batch.Processor.handler Examples.half_way Examples.csv_arrived Batch.initial in
  Batch.create_model_invocation_job Examples.half_way
    (Batch.Processor.request Examples.csv_locals)
    = Py.Ok (Py.VDict [("jobArn", Py.VStr "arn:job:1")]) /\
  Batch.jobs (snd run) = [Batch.Processor.request Examples.csv_locals] /\
  Batch.objects (snd run) !! ("output", "processed-data.csv")
    = Some (Re.str "Contact: <PII_EMAIL>, phone <PII_PHONE>") /\
  Batch.attribute (snd run) "pii-job-1700000000" "method"
    = Some (Py.VStr "direct_processing") /\
  Batch.attribute (snd run) "pii-job-1700000000" "status"
    = Some (Py.VStr "Completed") /\
  Batch.attribute (snd run) "pii-job-1700000000" "jobArn" = None /\
  Py.field run "statusCode" = Some (Py.VInt 200) /\
  Py.field run "jobId" = Some (Py.VStr "pii-job-1700000000") /\
  Py.field run "method" = Some (Py.VStr "direct_processing").
Proof. vm_compute. repeat split. Qed.

(** C2 (the claim as stated fails). The backend accepts the job and returns
    [arn:job:1], the table takes the item, and the item stored has no
    [method] attribute at all. *)
Lemma method_absent_after_submission :
  let run := Batch.Processor.handler Examples.smooth Examples.csv_arrived Batch.initial in
  Batch.create_model_invocation_job Examples.smooth
    (Batch.Processor.request Examples.csv_locals)
    = Py.Ok (Py.VDict [("jobArn", Py.VStr "arn:job:1")]) /\
  Batch.jobs (snd run) = [Batch.Processor.request Examples.csv_locals] /\
  Py.field run "statusCode" = Some (Py.VInt 200) /\
  Batch.attribute (snd run) "pii-job-1700000000" "jobArn" = Some (Py.VStr "arn:job:1") /\
  Batch.attribute (snd run) "pii-job-1700000000" "status" = Some (Py.VStr "InProgress") /\
  Batch.attribute (snd run) "pii-job-1700000000" "method" <> Some (Py.VStr "async_model").
Proof. vm_compute. repeat split. discriminate. Qed.

(** C2 (amended). When the backend accepts the job and returns a [jobArn],
    and the table takes the item, the handler answers 200 with the job id and
    the record stored under that id has [status = InProgress], the returned
    [jobArn], no [completedAt] and no [method]; nothing is written to S3. *)
Theorem submitted_record (E : Batch.env) (event : list (string * Py.value))
    (w w1 : Batch.world) (l : Batch.Processor.locals) (response job_arn : Py.value) :
  Batch.Processor.setup E event w = (Py.Ok l, w1) ->
  Batch.create_model_invocation_job E (Batch.Processor.request l) = Py.Ok response ->
  Py.getitem response "jobArn" = Py.Ok job_arn ->
  Batch.put_item E (Batch.Processor.job_id l)
    (Batch.Processor.submitted_item l job_arn
       (Batch.now E (Batch.ticks w1)) (Batch.now E (S (Batch.ticks w1)))) = None ->
  exists r w' attrs,
    Batch.Processor.handler E event w = (Py.Ok r, w') /\
    r !! "statusCode" = Some (Py.VInt 200) /\
    r !! "jobId" = Some (Py.VStr (Batch.Processor.job_id l)) /\
    Batch.table w' !! Batch.Processor.job_id l = Some attrs /\
    attrs !! "status" = Some (Py.VStr "InProgress") /\
    attrs !! "jobArn" = Some job_arn /\
    attrs !! "completedAt" = None /\
    attrs !! "method" = None /\
    Batch.objects w' = Batch.objects w.
Proof.
  intros Hs Hc Hj Hp.
  destruct (handler_submitted _ _ _ _ _ _ _ Hs Hc Hj Hp)
    as (r & w' & Hrun & Hr & Ht & Ho & _).
  eexists r, w', _. split; [exact Hrun|]. subst r.
  rewrite Ht, lookup_insert_eq. repeat split; try done.
Qed.

Lemma submitted_record_witness :
  exists r w' attrs,
    Batch.Processor.handler Examples.smooth Examples.csv_arrived Batch.initial = (Py.Ok r, w') /\
    r !! "statusCode" = Some (Py.VInt 200) /\
    r !! "jobId" = Some (Py.VStr "pii-job-1700000000") /\
    Batch.table w' !! "pii-job-1700000000" = Some attrs /\
    attrs !! "status" = Some (Py.VStr "InProgress") /\
    attrs !! "jobArn" = Some (Py.VStr "arn:job:1") /\
    attrs !! "completedAt" = None /\
    attrs !! "method" = None /\
    Batch.objects w' = Batch.objects Batch.initial.
Proof.
  exact (submitted_record Examples.smooth Examples.csv_arrived Batch.initial
           (Batch.tick Batch.initial) Examples.csv_locals
           (Py.VDict [("jobArn", Py.VStr "arn:job:1")]) (Py.VStr "arn:job:1")
           eq_refl eq_refl eq_refl eq_refl).
Defined.

(** C3 (the claim as stated fails). The backend refuses the job with
    [AccessDeniedException], the file cannot be read ([NoSuchKey]): the
    answer is 500, its only text names the second error and does not hold the
    first. *)
Lemma first_error_dropped :
  let run := Batch.Processor.handler Examples.all_down Examples.csv_arrived Batch.initial in
  Batch.create_model_invocation_job Examples.all_down
    (Batch.Processor.request Examples.csv_locals)
    = Py.Raise (Py.ClientError "AccessDeniedException") /\
  Py.field run "statusCode" = Some (Py.VInt 500) /\
  Py.field run "error"
    = Some (Py.VStr "Both Bedrock and direct processing failed: NoSuchKey") /\
  Py.contains "AccessDeniedException"
    "Both Bedrock and direct processing failed: NoSuchKey" = false /\
  fst run = Py.Ok (Py.dict
    [ ("statusCode", Py.VInt 500);
      ("error", Py.VStr "Both Bedrock and direct processing failed: NoSuchKey") ]).
Proof. repeat split; reflexivity. Qed.

(** C3 (amended). When the backend refuses the job with [e1] and the direct
    path then fails with [e2], the handler answers 500 with the one text
    "Both Bedrock and direct processing failed: " followed by [str(e2)]; the
    first error goes to the log only; the table is left as it was. *)
Theorem dual_failure (E : Batch.env) (event : list (string * Py.value))
    (w w1 : Batch.world) (l : Batch.Processor.locals) (e1 e2 : Py.exn) :
  Batch.Processor.setup E event w = (Py.Ok l, w1) ->
  Batch.create_model_invocation_job E (Batch.Processor.request l) = Py.Raise e1 ->
  Batch.Processor.direct_error E l (Batch.ticks w1) = Some e2 ->
  exists w',
    Batch.Processor.handler E event w =
      (Py.Ok (Py.dict
         [ ("statusCode", Py.VInt 500);
           ("error", Py.VStr ("Both Bedrock and direct processing failed: "
                                +:+ Py.str_exn e2)) ]), w') /\
    Batch.table w' = Batch.table w /\
    Batch.jobs w' = Batch.jobs w /\
    Batch.log w' = Batch.log w ++
      [ (Py.WARNING,
         "Bedrock batch job creation failed, falling back to direct processing: "
           +:+ Py.str_exn e1);
        (Py.ERROR, "Direct processing failed: " +:+ Py.str_exn e2) ].
Proof.
  intros Hs Hc Hd. pose proof (setup_tick _ _ _ _ _ Hs) as ->.
  rewrite (handler_refused _ _ _ _ _ _ Hs Hc).
  unfold Batch.Processor.fallback, Py.bind, Py.try_except, Batch.logger, Py.modify.
  cbn beta iota.
  set (w2 := Batch.with_log Py.WARNING _ _).
  pose proof (direct_processing_run E l w2) as Hrun.
  change (Batch.ticks w2) with (Batch.ticks (Batch.tick w)) in Hrun.
  rewrite Hd in Hrun. destruct Hrun as (w3 & -> & Ht & Hl & Hj).
  eexists. split; [reflexivity|]. cbn. rewrite Ht, Hl, Hj. subst w2.
  split; [done|]. split; [done|]. cbn. by rewrite <- app_assoc.
Qed.

Lemma dual_failure_witness :
  exists w',
    Batch.Processor.handler Examples.all_down Examples.csv_arrived Batch.initial =
      (Py.Ok (Py.dict
         [ ("statusCode", Py.VInt 500);
           ("error", Py.VStr "Both Bedrock and direct processing failed: NoSuchKey") ]), w') /\
    Batch.table w' = Batch.table Batch.initial /\
    Batch.jobs w' = Batch.jobs Batch.initial /\
    Batch.log w' = Batch.log Batch.initial ++
      [ (Py.WARNING,
         "Bedrock batch job creation failed, falling back to direct processing: AccessDeniedException");
        (Py.ERROR, "Direct processing failed: NoSuchKey") ].
Proof.
  exact (dual_failure Examples.all_down Examples.csv_arrived Batch.initial
           (Batch.tick Batch.initial) Examples.csv_locals
           (Py.ClientError "AccessDeniedException") (Py.ClientError "NoSuchKey")
           eq_refl eq_refl eq_refl).
Defined.

(** ** The real-time handler *)

(** C5. [obfuscate_pii] always returns: the text of the model's answer when
    the call and the reading of the answer both succeed, and the input
    [text] itself as soon as either raises. *)
Theorem obfuscate_pii_fail_open (E : Realtime.env) (text : Py.value) (w : Realtime.world) :
  exists w',
    Realtime.obfuscate_pii E text w =
      (Py.Ok (match Realtime.converse E (Realtime.message E text) with
              | Py.Ok response =>
                  match Realtime.extract response with
                  | Py.Ok masked => masked
                  | Py.Raise _ => text
                  end
              | Py.Raise _ => text
              end), w').
Proof.
  unfold Realtime.obfuscate_pii, Realtime.ask, Realtime.bedrock_converse,
    Py.try_except, Py.bind, Py.lift, Py.modify, Realtime.logger, Py.ret.
  cbn beta iota.
  destruct (Realtime.converse E (Realtime.message E text)) as [response|e];
    [|by eexists].
  destruct (Realtime.extract response) as [masked|e]; by eexists.
Qed.

(** C10 (the claim as stated fails). The batch submitter never looks at the
    extension: for [data.txt], with the backend refusing the job, it answers
    200, redacts the file and writes the output. *)
Lemma batch_submitter_takes_any_key :
  let run := Batch.Processor.handler Examples.backend_down Examples.txt_arrived Batch.initial in
  Py.endswith "data.txt" ".csv" = false /\
  Py.field run "statusCode" = Some (Py.VInt 200) /\
  Py.field run "outputFile" = Some (Py.VStr "s3://output/processed-data.txt") /\
  Batch.objects (snd run) !! ("output", "processed-data.txt")
    = Some (Re.str "Contact: <PII_EMAIL>, phone <PII_PHONE>").
Proof. vm_compute. repeat split. Qed.

(** C10 (amended). The real-time handler answers 400 to every notification
    whose key does not end in [.csv]; it then calls neither the model nor
    S3, the only trace being one line in the log. *)
Theorem non_csv_rejected (E : Realtime.env) (event source_bucket : Py.value)
    (key : string) (w : Realtime.world) :
  Realtime.source event = Py.Ok (source_bucket, Py.VStr key) ->
  Py.endswith key ".csv" = false ->
  exists w',
    Realtime.lambda_handler E event w =
      (Py.Ok (Py.dict [ ("statusCode", Py.VInt 400);
                        ("body", Py.VStr "Invalid file format") ]), w') /\
    Realtime.conversed w' = Realtime.conversed w /\
    Realtime.written w' = Realtime.written w.
Proof.
  intros Hs He.
  unfold Realtime.lambda_handler, Py.try_except, Py.bind, Py.lift. rewrite Hs.
  cbn beta iota. unfold Realtime.str_method, Py.ret at 1. cbn beta iota.
  rewrite He. cbn. by eexists.
Qed.

Lemma non_csv_rejected_witness :
  exists w',
    Realtime.lambda_handler Examples.realtime (Py.VDict Examples.txt_arrived)
      Realtime.initial =
      (Py.Ok (Py.dict [ ("statusCode", Py.VInt 400);
                        ("body", Py.VStr "Invalid file format") ]), w') /\
    Realtime.conversed w' = Realtime.conversed Realtime.initial /\
    Realtime.written w' = Realtime.written Realtime.initial.
Proof.
  exact (non_csv_rejected Examples.realtime (Py.VDict Examples.txt_arrived)
           (Py.VStr "input") "data.txt" Realtime.initial eq_refl eq_refl).
Defined.

(** ** The reconciler *)

Section Reconciler.
Import Py Batch Batch.Monitor.

Local Arguments dict : simpl never.
Local Arguments String.append : simpl never.
Local Arguments assign : simpl never.

Lemma is_str_eq v s : is_str v s = true -> v = VStr s.
Proof.
  destruct v; simpl; try done. intros H. apply String.eqb_eq in H. by subst.
Qed.

(** The texts of the errors that a malformed event or response runs into. *)
Lemma error_texts :
  Py.str_exn (Py.not_subscriptable (Py.VInt 5)) = "'int' object is not subscriptable" /\
  Py.str_exn (Py.not_subscriptable Py.VNone) = "'NoneType' object is not subscriptable" /\
  Py.getfirst (Py.VDict [("a", Py.VInt 1)]) = Py.Raise (Py.KeyError (Py.KInt 0)) /\
  Py.str_exn (Py.KeyError (Py.KInt 0)) = "0" /\
  Py.str_exn (Py.KeyError (Py.KStr "s3")) = "'s3'" /\
  Py.str_exn (Py.no_attribute (Py.VList []) "endswith")
    = "'list' object has no attribute 'endswith'".
Proof. repeat split; reflexivity. Qed.

Lemma getitem_Ok v k x :
  getitem v k = Ok x -> exists d, v = VDict d /\ assoc k d = Some x.
Proof.
  destruct v; simpl; try done. destruct (assoc k d) eqn:Ha; [|done].
  intros [= <-]. eauto.
Qed.

Lemma terminal_not_in_progress attrs status :
  attrs !! "status" = Some status -> terminal status = true ->
  in_progress attrs = false.
Proof.
  intros Hs Ht. unfold in_progress. rewrite Hs. unfold terminal in Ht.
  apply orb_prop in Ht as [Ht|Ht]; [apply orb_prop in Ht as [Ht|Ht]|];
    apply is_str_eq in Ht as ->; reflexivity.
Qed.

Lemma assign_lookup_status job_response job_status completed attrs :
  assign (assignments job_response job_status completed) attrs !! "status"
  = Some job_status.
Proof.
  unfold assignments, assign.
  destruct (is_str job_status "Failed"); [destruct job_response|]; simpl;
    by simplify_map_eq.
Qed.

(** One turn of the loop on an item that the table holds. *)
Lemma visit_spec E c u k attrs w :
  exists w',
    visit E (c, u) (k, attrs) w =
      (Ok (if skipped attrs then c else S c,
           match transition E k attrs (ticks w) with Some _ => S u | None => u end), w') /\
    table w' = match transition E k attrs (ticks w) with
               | Some sets => <[k := assign sets (default ∅ (table w !! k))]> (table w)
               | None => table w
               end /\
    updates w' = updates w ++ match transition E k attrs (ticks w) with
                              | Some _ => [k]
                              | None => []
                              end /\
    queries w' = queries w ++ (if skipped attrs then [] else [arn attrs]) /\
    objects w' = objects w /\ jobs w' = jobs w.
Proof.
  unfold visit, transition, reports, arn.
  destruct (skipped attrs) eqn:Hsk.
  { exists w. rewrite !app_nil_r. done. }
  unfold check, bedrock_get, table_update_item, datetime_now, failure, call, logger,
    try_except, bind, lift, modify, ret, raise.
  cbn beta iota.
  destruct (get_model_invocation_job E _) as [job_response|e] eqn:Hq; cbn;
    [|eexists; rewrite !app_nil_r; done].
  destruct (getitem job_response "status") as [job_status|e] eqn:Hst; cbn;
    [|eexists; rewrite !app_nil_r; done].
  destruct (terminal job_status) eqn:Ht; cbn;
    [|eexists; rewrite !app_nil_r; done].
  apply getitem_Ok in Hst as (d & -> & Hd).
  unfold assignments.
  destruct (is_str job_status "Failed") eqn:Hf; cbn;
    (destruct (update_item E k _) as [e|] eqn:Hu; cbn;
       [eexists; rewrite !app_nil_r; done|eexists; done]).
Qed.

(** The whole loop over items that the table holds under distinct keys. *)
Lemma for_each_visit E items : forall c u w,
  NoDup items.*1 ->
  (forall k a, (k, a) ∈ items -> table w !! k = Some a) ->
  exists c' u' w' us,
    for_each (visit E) (c, u) items w = (Ok (c', u'), w') /\
    c' = c + length (checked items) /\
    u' = u + length us /\
    updates w' = updates w ++ us /\
    queries w' = queries w ++ map (fun it => arn (snd it)) (checked items) /\
    objects w' = objects w /\ jobs w' = jobs w /\
    (forall k, k ∉ items.*1 -> table w' !! k = table w !! k) /\
    (forall k a, (k, a) ∈ items ->
       exists t, table w' !! k =
                 Some (match transition E k a t with
                       | Some sets => assign sets a
                       | None => a
                       end)) /\
    (forall k, k ∈ us ->
       exists a t, (k, a) ∈ items /\ is_Some (transition E k a t)).
Proof.
  induction items as [|[k a] items IH]; intros c u w Hnd Htab.
  - exists c, u, w, []. simpl. rewrite !app_nil_r, !Nat.add_0_r.
    repeat split; try done.
    + intros k a Hin. by apply elem_of_nil in Hin.
    + intros k Hin. by apply elem_of_nil in Hin.
  - simpl in Hnd. apply NoDup_cons in Hnd as [Hk Hnd].
    destruct (visit_spec E c u k a w) as (w1 & Hv & Ht1 & Hu1 & Hq1 & Ho1 & Hj1).
    assert (Hka : table w !! k = Some a) by (apply Htab; left).
    rewrite Hka in Ht1. simpl in Ht1.
    assert (Hother : forall k', k' <> k -> table w1 !! k' = table w !! k').
    { intros k' Hne. rewrite Ht1. destruct (transition E k a (ticks w)); [|done].
      by rewrite lookup_insert_ne. }
    destruct (IH (if skipped a then c else S c)
                 (match transition E k a (ticks w) with Some _ => S u | None => u end)
                 w1 Hnd)
      as (c' & u' & w' & us & Hrun & Hc' & Hu' & Hup & Hqu & Hob & Hjo & Hout & Hin & Hus).
    { intros k' a' Hin'. rewrite Hother.
      - apply Htab. by right.
      - intros ->. apply Hk. apply list_elem_of_fmap. by exists (k, a'). }
    exists c', u', w',
      (match transition E k a (ticks w) with Some _ => [k] | None => [] end ++ us).
    split.
    { cbn [for_each]. unfold bind at 1. rewrite Hv. exact Hrun. }
    split.
    { rewrite Hc'. unfold checked. simpl. destruct (skipped a); simpl; lia. }
    split.
    { rewrite Hu', length_app. destruct (transition E k a (ticks w)); simpl; lia. }
    split.
    { rewrite Hup, Hu1. by rewrite <- app_assoc. }
    split.
    { rewrite Hqu, Hq1. unfold checked. simpl.
      destruct (skipped a); simpl; by rewrite <- app_assoc. }
    split; [congruence|]. split; [congruence|].
    split.
    { intros k' Hk'. simpl in Hk'. apply not_elem_of_cons in Hk' as [Hne Hk'].
      rewrite Hout by done. by apply Hother. }
    split.
    { intros k' a' Hin'. apply elem_of_cons in Hin' as [[= -> ->]|Hin'].
      - exists (ticks w). rewrite Hout by done. rewrite Ht1.
        destruct (transition E k a (ticks w)); [by rewrite lookup_insert_eq|done].
      - by apply Hin. }
    intros k' Hk'. apply elem_of_app in Hk' as [Hk'|Hk'].
    + destruct (transition E k a (ticks w)) eqn:Htr.
      * apply list_elem_of_singleton in Hk' as ->. exists a, (ticks w).
        split; [left|]. by rewrite Htr.
      * by apply elem_of_nil in Hk'.
    + destruct (Hus _ Hk') as (a' & t & Hin' & Hsome). exists a', t.
      split; [by right|done].
Qed.

Lemma scanned_spec E w k a :
  (k, a) ∈ scanned E w <->
  table w !! k = Some a /\ page E k = true /\ in_progress a = true.
Proof.
  unfold scanned. rewrite elem_of_map_to_list, map_lookup_filter_Some. simpl.
  by rewrite andb_true_iff.
Qed.

Lemma checked_spec items k a :
  (k, a) ∈ checked items <-> (k, a) ∈ items /\ skipped a = false.
Proof.
  unfold checked. rewrite !list_elem_of_In, filter_In. simpl.
  by rewrite negb_true_iff.
Qed.

(** A pass that gets to the loop. *)
Lemma monitor_pass E event w name :
  environ E !! "DYNAMODB_TABLE" = Some name ->
  scan E = None ->
  exists c us w',
    handler E event w =
      (Ok (dict
         [ ("statusCode", VInt 200);
           ("jobsChecked", VInt (Z.of_nat c));
           ("jobsUpdated", VInt (Z.of_nat (length us)));
           ("message", VStr ("Checked " +:+ pretty c +:+ " jobs, updated "
                               +:+ pretty (length us))) ]), w') /\
    c = length (checked (scanned E w)) /\
    updates w' = updates w ++ us /\
    queries w' = queries w ++ map (fun it => arn (snd it)) (checked (scanned E w)) /\
    objects w' = objects w /\ jobs w' = jobs w /\
    (forall k a, table w !! k = Some a ->
       exists t, table w' !! k = Some (reconciled E k a t)) /\
    (forall k, table w !! k = None -> table w' !! k = None) /\
    (forall k, k ∈ us ->
       exists a t, table w !! k = Some a /\ page E k = true /\ in_progress a = true /\
                   is_Some (transition E k a t)).
Proof.
  intros Henv Hscan.
  pose proof (scanned_spec E w) as Hitems.
  set (items := scanned E w) in *.
  destruct (for_each_visit E items 0 0 w) as
    (c' & u' & w' & us & Hrun & Hc' & Hu' & Hup & Hqu & Hob & Hjo & Hout & Hin & Hus).
  { apply NoDup_fst_map_to_list. }
  { intros k a Hka. by apply Hitems in Hka as [? _]. }
  exists c', us, w'. split.
  { unfold handler, try_except, bind, getenv, table_scan, call, gets, ret.
    rewrite Henv, Hscan. unfold bind. cbn beta iota. fold items. rewrite Hrun.
    simpl in Hu'. subst u'. done. }
  split; [done|]. split; [done|]. split; [done|]. split; [done|]. split; [done|].
  split.
  { intros k a Hka. unfold reconciled.
    destruct (page E k && in_progress a) eqn:Hip.
    - apply andb_true_iff in Hip as [Hpg Hip]. apply Hin. by apply Hitems.
    - exists 0. rewrite Hout; [done|].
      intros Hk. apply list_elem_of_fmap in Hk as ([k' a'] & -> & Hk).
      apply Hitems in Hk as (Hk & Hpg & Hip'). simpl in Hka, Hip.
      rewrite Hka in Hk. injection Hk as <-. by rewrite Hpg, Hip' in Hip. }
  split.
  { intros k Hk. rewrite Hout; [done|].
    intros Hk'. apply list_elem_of_fmap in Hk' as ([k' a'] & -> & Hk').
    apply Hitems in Hk' as [Hk' _]. simpl in Hk. congruence. }
  intros k Hk. destruct (Hus k Hk) as (a & t & Hka & Hsome).
  apply Hitems in Hka as (Hka & Hpg & Hip). by exists a, t.
Qed.

(** A pass that does not get to the loop changes nothing but the log. *)
Lemma monitor_abort E event w :
  environ E !! "DYNAMODB_TABLE" = None \/ is_Some (scan E) ->
  exists e w',
    handler E event w =
      (Ok (dict [ ("statusCode", VInt 500); ("error", VStr (str_exn e)) ]), w') /\
    table w' = table w /\ updates w' = updates w /\ queries w' = queries w.
Proof.
  intros H. unfold handler, try_except, bind, getenv, table_scan, call, gets, ret,
    raise, logger, modify.
  destruct (environ E !! "DYNAMODB_TABLE") as [name|] eqn:Henv.
  - destruct H as [H|[e He]]; [done|]. rewrite He. cbn. by eexists e, _.
  - cbn. by eexists (KeyError (KStr "DYNAMODB_TABLE")), _.
Qed.

Lemma transition_steady E k a t t' :
  steady E -> transition E k a t = None -> transition E k a t' = None.
Proof.
  intros Hst. unfold transition.
  destruct (reports E a) as [[job_response job_status]|]; [|done].
  destruct (update_item E k (assignments _ _ (now E t'))) eqn:Hu'; [done|].
  by rewrite (Hst _ _ (assignments job_response job_status (now E t)) Hu').
Qed.

Lemma transition_terminal E k a t sets :
  transition E k a t = Some sets -> in_progress (assign sets a) = false.
Proof.
  unfold transition, reports.
  destruct (skipped a); [done|].
  destruct (get_model_invocation_job E _) as [job_response|]; [|done].
  destruct (getitem job_response "status") as [job_status|]; [|done].
  destruct (terminal job_status) eqn:Ht; [|done].
  destruct (update_item E k _); [done|]. intros [= <-].
  eapply terminal_not_in_progress; [apply assign_lookup_status|done].
Qed.

(** Once reconciled, a record is not touched by a further turn. *)
Lemma reconciled_settled E k a t t' :
  steady E ->
  reconciled E k (reconciled E k a t) t' = reconciled E k a t /\
  (page E k = true -> in_progress (reconciled E k a t) = true ->
   transition E k (reconciled E k a t) t' = None).
Proof.
  intros Hst. unfold reconciled at 2 3 4 5.
  destruct (page E k) eqn:Hpg; cbn [andb].
  - destruct (in_progress a) eqn:Hip.
    + destruct (transition E k a t) as [sets|] eqn:Htr.
      * pose proof (transition_terminal _ _ _ _ _ Htr) as Hnot.
        unfold reconciled. rewrite Hpg, Hnot. split; [done|]. congruence.
      * pose proof (transition_steady _ _ _ _ t' Hst Htr) as Htr'.
        unfold reconciled. rewrite Hpg, Hip, Htr'. done.
    + unfold reconciled. rewrite Hpg, Hip. split; [done|]. congruence.
  - unfold reconciled. rewrite Hpg. split; [done|]. congruence.
Qed.

(** Two passes in a row with the same collaborators: the second finds
    nothing to do. *)
Lemma second_pass_idle E event event' w name :
  steady E ->
  environ E !! "DYNAMODB_TABLE" = Some name ->
  scan E = None ->
  exists r1 w1 r2 w2,
    handler E event w = (Ok r1, w1) /\
    handler E event' w1 = (Ok r2, w2) /\
    table w2 = table w1 /\ updates w2 = updates w1 /\
    r2 !! "statusCode" = Some (VInt 200) /\
    r2 !! "jobsUpdated" = Some (VInt 0).
Proof.
  intros Hst Henv Hscan.
  destruct (monitor_pass E event w name Henv Hscan)
    as (c1 & us1 & w1 & Hrun1 & _ & _ & _ & _ & _ & Hrec1 & Hnone1 & _).
  destruct (monitor_pass E event' w1 name Henv Hscan)
    as (c2 & us2 & w2 & Hrun2 & _ & Hup2 & _ & _ & _ & Hrec2 & Hnone2 & Hus2).
  assert (us2 = []) as ->.
  { destruct us2 as [|k us2]; [done|]. exfalso.
    destruct (Hus2 k) as (a1 & t' & Hka1 & Hpg1 & Hip1 & Hsome); [left|].
    destruct (table w !! k) as [a|] eqn:Hka.
    - destruct (Hrec1 k a Hka) as [t Hka1']. rewrite Hka1 in Hka1'.
      injection Hka1' as ->.
      destruct (reconciled_settled E k a t t' Hst) as [_ Htr].
      rewrite (Htr Hpg1 Hip1) in Hsome. by destruct Hsome.
    - rewrite (Hnone1 k Hka) in Hka1. done. }
  eexists _, w1, _, w2. split; [exact Hrun1|]. split; [exact Hrun2|].
  split; [|split; [by rewrite Hup2, app_nil_r|done]].
  apply map_eq. intros k. destruct (table w1 !! k) as [a1|] eqn:Hka1.
  - destruct (Hrec2 k a1 Hka1) as [t' ->]. f_equal.
    destruct (table w !! k) as [a|] eqn:Hka.
    + destruct (Hrec1 k a Hka) as [t Hka1']. rewrite Hka1 in Hka1'.
      injection Hka1' as ->. by apply reconciled_settled.
    + rewrite (Hnone1 k Hka) in Hka1. done.
  - by apply Hnone2.
Qed.

End Reconciler.

(** C6. A record whose status is terminal is the same after a pass, whatever
    the pass does, and is not among the updates that [jobsUpdated] counts.
    In particular, when the table takes updates steadily, a second pass
    right after the first, with the same collaborators, changes no record and
    reports [jobsUpdated = 0]. *)
Theorem terminal_records_stay (E : Batch.env) (event event' : list (string * Py.value))
    (w : Batch.world) (k : string) (attrs : gmap string Py.value) (status : Py.value) :
  Batch.table w !! k = Some attrs ->
  attrs !! "status" = Some status ->
  Batch.Monitor.terminal status = true ->
  exists r1 w1 us,
    Batch.Monitor.handler E event w = (Py.Ok r1, w1) /\
    Batch.table w1 !! k = Some attrs /\
    Batch.updates w1 = Batch.updates w ++ us /\
    (k ∉ us) /\
    (r1 !! "jobsUpdated" = Some (Py.VInt (Z.of_nat (length us))) \/
     r1 !! "statusCode" = Some (Py.VInt 500)) /\
    (Batch.Monitor.steady E ->
     is_Some (Batch.environ E !! "DYNAMODB_TABLE") ->
     Batch.scan E = None ->
     exists r2 w2,
       Batch.Monitor.handler E event' w1 = (Py.Ok r2, w2) /\
       Batch.table w2 = Batch.table w1 /\
       Batch.updates w2 = Batch.updates w1 /\
       r2 !! "statusCode" = Some (Py.VInt 200) /\
       r2 !! "jobsUpdated" = Some (Py.VInt 0)).
Proof.
  intros Hk Hs Ht.
  pose proof (terminal_not_in_progress _ _ Hs Ht) as Hip.
  destruct (Batch.environ E !! "DYNAMODB_TABLE") as [name|] eqn:Henv;
    [destruct (Batch.scan E) as [e|] eqn:Hscan|].
  - destruct (monitor_abort E event w) as (e' & w1 & Hrun & Htab & Hup & _).
    { right. rewrite Hscan. by eexists. }
    eexists _, w1, []. split; [exact Hrun|]. rewrite Htab, Hup, app_nil_r.
    split; [done|]. split; [done|]. split; [apply not_elem_of_nil|].
    split; [by right|]. intros _ _ [=].
  - destruct (monitor_pass E event w name Henv Hscan)
      as (c & us & w1 & Hrun & _ & Hup & _ & _ & _ & Hrec & _ & Hus).
    eexists _, w1, us. split; [exact Hrun|].
    split.
    { destruct (Hrec k attrs Hk) as [t ->]. unfold Batch.Monitor.reconciled.
      by rewrite Hip, andb_false_r. }
    split; [done|]. split.
    { intros Hin. destruct (Hus k Hin) as (a & t & Hka & _ & Hip' & _). congruence. }
    split; [by left|].
    intros Hst _ _.
    destruct (second_pass_idle E event event' w name Hst Henv Hscan)
      as (r1 & w1' & r2 & w2 & Hrun1 & Hrun2 & Htab & Hup2 & Hcode & Hzero).
    rewrite Hrun in Hrun1. injection Hrun1 as _ <-.
    by exists r2, w2.
  - destruct (monitor_abort E event w) as (e' & w1 & Hrun & Htab & Hup & _).
    { by left. }
    eexists _, w1, []. split; [exact Hrun|]. rewrite Htab, Hup, app_nil_r.
    split; [done|]. split; [done|]. split; [apply not_elem_of_nil|].
    split; [by right|]. intros _ [? [=]].
Qed.

Lemma terminal_records_stay_witness :
  exists r1 w1 r2 w2,
    Batch.Monitor.handler Examples.smooth [] Examples.some_jobs = (Py.Ok r1, w1) /\
    Batch.table w1 !! "pii-job-0" = Some Examples.done_job /\
    Batch.Monitor.handler Examples.smooth [] w1 = (Py.Ok r2, w2) /\
    Batch.table w2 = Batch.table w1 /\
    r2 !! "jobsUpdated" = Some (Py.VInt 0).
Proof.
  destruct (terminal_records_stay Examples.smooth [] [] Examples.some_jobs
              "pii-job-0" Examples.done_job (Py.VStr "Completed"))
    as (r1 & w1 & us & Hrun & Hk & _ & _ & _ & Hsecond);
    [reflexivity|reflexivity|reflexivity|].
  destruct Hsecond as (r2 & w2 & Hrun2 & Htab & _ & _ & Hzero);
    [intros ? ? ? ?; reflexivity|by eexists|reflexivity|].
  exists r1, w1, r2, w2.
  exact (conj Hrun (conj Hk (conj Hrun2 (conj Htab Hzero)))).
Defined.


(** C8. When the backend names a terminal status for an in-progress job
    that the scan returns and that is checked, and the table takes the update, the record after the
    pass has that status and a [completedAt]; its [failureReason] is the
    backend's [failureMessage], or "Unknown failure" when there is none, if
    the status is [Failed], and is what it was before otherwise; every other
    attribute is what it was. *)
Theorem failed_job_recorded (E : Batch.env) (event : list (string * Py.value))
    (w : Batch.world) (name k : string) (a : gmap string Py.value)
    (d : list (string * Py.value)) (status : Py.value) :
  Batch.environ E !! "DYNAMODB_TABLE" = Some name ->
  Batch.scan E = None ->
  Batch.table w !! k = Some a ->
  Batch.page E k = true ->
  Batch.in_progress a = true ->
  Batch.Monitor.skipped a = false ->
  Batch.get_model_invocation_job E (Batch.Monitor.arn a) = Py.Ok (Py.VDict d) ->
  Py.assoc "status" d = Some status ->
  Batch.Monitor.terminal status = true ->
  (forall sets, Batch.update_item E k sets = None) ->
  exists r w' t attrs',
    Batch.Monitor.handler E event w = (Py.Ok r, w') /\
    Batch.table w' !! k = Some attrs' /\
    attrs' !! "status" = Some status /\
    attrs' !! "completedAt" = Some (Py.VStr (Py.isoformat (Batch.now E t))) /\
    attrs' !! "failureReason" =
      (if Py.is_str status "Failed"
       then Some (match Py.assoc "failureMessage" d with
                  | Some failure_message => failure_message
                  | None => Py.VStr "Unknown failure"
                  end)
       else a !! "failureReason") /\
    (forall x, x <> "status" -> x <> "completedAt" -> x <> "failureReason" ->
               attrs' !! x = a !! x).
Proof.
  intros Henv Hscan Hka Hpg Hip Hsk Hget Hst Hterm Hupd.
  destruct (monitor_pass E event w name Henv Hscan)
    as (c & us & w' & Hrun & _ & _ & _ & _ & _ & Hrec & _ & _).
  destruct (Hrec k a Hka) as [t Hk'].
  eexists _, w', t, _. split; [exact Hrun|]. split; [exact Hk'|].
  unfold Batch.Monitor.reconciled, Batch.Monitor.transition, Batch.Monitor.reports.
  unfold Batch.Monitor.arn in Hget.
  rewrite Hpg, Hip, Hsk, Hget. simpl. rewrite Hst, Hterm, Hupd.
  unfold Batch.Monitor.assignments, Batch.assign, Py.dict_get.
  destruct (Py.is_str status "Failed"); simpl.
  - split; [by simplify_map_eq|]. split; [by simplify_map_eq|].
    split; [by simplify_map_eq|]. intros x H1 H2 H3. by simplify_map_eq.
  - split; [by simplify_map_eq|]. split; [by simplify_map_eq|].
    split; [by simplify_map_eq|]. intros x H1 H2 H3. by simplify_map_eq.
Qed.

Lemma failed_job_recorded_witness :
  exists r w' attrs',
    Batch.Monitor.handler Examples.smooth [] Examples.some_jobs = (Py.Ok r, w') /\
    Batch.table w' !! "pii-job-1" = Some attrs' /\
    attrs' !! "status" = Some (Py.VStr "Failed") /\
    attrs' !! "failureReason" = Some (Py.VStr "quota exceeded").
Proof.
  destruct (failed_job_recorded Examples.smooth [] Examples.some_jobs "jobs" "pii-job-1"
              (Examples.job "arn:job:1")
              [("status", Py.VStr "Failed"); ("failureMessage", Py.VStr "quota exceeded")]
              (Py.VStr "Failed"))
    as (r & w' & t & attrs' & Hrun & Hk & Hs & _ & Hf & _);
    try reflexivity.
  exists r, w', attrs'.
  exact (conj Hrun (conj Hk (conj Hs Hf))).
Defined.

(** * Part III. Further properties of the handlers *)

(** ** The submitter, path by path *)

Section SubmitterPaths.
Import Py Batch Batch.Processor.

Local Arguments dict : simpl never.
Local Arguments submitted_item : simpl never.
Local Arguments processed_item : simpl never.
Local Arguments Re.processed_content : simpl never.
Local Arguments String.append : simpl never.

(** Lines 23-53 touch nothing but the clock. *)
Lemma setup_world E event w r w1 :
  setup E event w = (r, w1) ->
  table w1 = table w /\ objects w1 = objects w /\ jobs w1 = jobs w /\
  log w1 = log w /\ updates w1 = updates w /\ queries w1 = queries w.
Proof.
  unfold setup, getenv, datetime_now, bind, ret, raise.
  repeat (case_match; try done); intros; simplify_eq; try done.
  all: match goal with H : locate _ _ _ = _ |- _ => apply locate_world in H as -> end.
  all: done.
Qed.

Lemma setup_job_id E event w l w1 :
  setup E event w = (Ok l, w1) ->
  job_id l = "pii-job-" +:+ pretty (timestamp (now E (ticks w))).
Proof.
  unfold setup, getenv, datetime_now, bind, ret, raise.
  repeat (case_match; try done); intros; simplify_eq.
  match goal with H : locate _ _ _ = _ |- _ => apply locate_world in H as -> end.
  done.
Qed.

(** The inner [try], outcome by outcome. *)
Lemma batch_inference_run E l w r w' :
  batch_inference E l w = (r, w') ->
  objects w' = objects w /\ log w' = log w /\
  match r with
  | Ok d =>
      d !! "statusCode" = Some (VInt 200) /\
      d !! "jobId" = Some (VStr (job_id l)) /\
      is_Some (table w' !! job_id l) /\
      jobs w' = jobs w ++ [request l]
  | Raise _ => table w' = table w
  end.
Proof.
  unfold batch_inference, bedrock_create, table_put_item, datetime_now, call,
    bind, lift, modify, ret, raise.
  destruct (create_model_invocation_job E (request l)) as [response|e]; cbn;
    [|by intros [= <- <-]].
  destruct (getitem response "jobArn") as [job_arn|e]; cbn; [|by intros [= <- <-]].
  destruct (put_item E _ _) as [e|]; cbn; [by intros [= <- <-]|].
  intros [= <- <-]. cbn. rewrite lookup_insert_eq. done.
Qed.

(** The first handler, outcome by outcome. *)
Lemma fallback_run E l e w :
  exists r w',
    fallback E l e w = (Ok r, w') /\
    jobs w' = jobs w /\
    match direct_error E l (ticks w) with
    | Some e2 =>
        r = dict [ ("statusCode", VInt 500);
                   ("error", VStr ("Both Bedrock and direct processing failed: "
                                     +:+ str_exn e2)) ] /\
        table w' = table w
    | None =>
        r !! "statusCode" = Some (VInt 200) /\
        r !! "jobId" = Some (VStr (job_id l)) /\
        table w' = <[job_id l := processed_item l (now E (ticks w)) (now E (S (ticks w)))
                                    (now E (S (S (ticks w))))]> (table w)
    end.
Proof.
  unfold fallback, bind, try_except, logger, modify. cbn beta iota.
  set (w2 := with_log WARNING _ w).
  pose proof (direct_processing_run E l w2) as Hrun.
  change (ticks w2) with (ticks w) in Hrun.
  destruct (direct_error E l (ticks w)) as [e2|].
  - destruct Hrun as (w3 & Hd & Ht & Hl & Hj). rewrite Hd.
    eexists _, _. split; [reflexivity|]. cbn. rewrite Hj, Ht. done.
  - destruct Hrun as (r & w3 & c & Hd & Hcode & Hget & Ho & Ht & Hl & Hj).
    rewrite Hd. exists r, w3. split; [done|]. rewrite Hj, Ht. split; [done|].
    split; [done|]. split; [|done].
    revert Hd. unfold direct_processing, s3_get_object, s3_put_object, table_put_item,
      datetime_now, call, bind, lift, ret, modify, raise.
    rewrite Hget. cbn. destruct (put_object E _ _ _); cbn; [done|].
    destruct (put_item E _ _); cbn; [done|]. by intros [= <- _].
Qed.

Lemma failure_before_submission_aux E event w w1 e :
  setup E event w = (Raise e, w1) ->
  exists w',
    handler E event w =
      (Ok (dict [ ("statusCode", VInt 500); ("error", VStr (str_exn e)) ]), w') /\
    table w' = table w.
Proof.
  intros Hs. destruct (setup_world _ _ _ _ _ Hs) as (Ht & _).
  unfold handler, try_except, bind. rewrite Hs.
  cbn. eexists. split; [reflexivity|]. done.
Qed.

End SubmitterPaths.

(** X1. The four environment variables are read in the order
    [INPUT_BUCKET], [OUTPUT_BUCKET], [DYNAMODB_TABLE], [BEDROCK_ROLE_ARN]:
    when [name] is the first of them that is missing, the submitter answers
    500 with the quoted [name] as error text, logs one error line and does
    nothing else: the clock is not read and the table, the bucket and the
    backend are untouched. *)
Theorem missing_configuration (E : Batch.env) (event : list (string * Py.value))
    (w : Batch.world) (before after : list string) (name : string) :
  ["INPUT_BUCKET"; "OUTPUT_BUCKET"; "DYNAMODB_TABLE"; "BEDROCK_ROLE_ARN"]
    = before ++ name :: after ->
  Forall (fun x => is_Some (Batch.environ E !! x)) before ->
  Batch.environ E !! name = None ->
  Batch.Processor.handler E event w =
    (Py.Ok (Py.dict [ ("statusCode", Py.VInt 500);
                      ("error", Py.VStr ("'" +:+ name +:+ "'")) ]),
     Batch.with_log Py.ERROR ("Handler error: '" +:+ name +:+ "'") w).
Proof.
  intros Hsplit Hbefore Hnone.
  unfold Batch.Processor.handler, Batch.Processor.setup, Batch.getenv,
    Py.try_except, Py.bind, Py.raise, Py.ret, Batch.logger, Py.modify.
  destruct before as [|x1 before]; simpl in Hsplit.
  { injection Hsplit as <- _. by rewrite Hnone. }
  injection Hsplit as <- Hsplit. apply Forall_cons in Hbefore as [[v1 ->] Hbefore].
  cbn beta iota.
  destruct before as [|x2 before]; simpl in Hsplit.
  { injection Hsplit as <- _. by rewrite Hnone. }
  injection Hsplit as <- Hsplit. apply Forall_cons in Hbefore as [[v2 ->] Hbefore].
  cbn beta iota.
  destruct before as [|x3 before]; simpl in Hsplit.
  { injection Hsplit as <- _. by rewrite Hnone. }
  injection Hsplit as <- Hsplit. apply Forall_cons in Hbefore as [[v3 ->] Hbefore].
  cbn beta iota.
  destruct before as [|x4 before]; simpl in Hsplit.
  { injection Hsplit as <- _. by rewrite Hnone. }
  injection Hsplit as _ Hsplit. by destruct before.
Qed.

Lemma missing_configuration_witness :
  Batch.Processor.handler
    (Examples.unset "OUTPUT_BUCKET" (Examples.unset "BEDROCK_ROLE_ARN" Examples.smooth))
    Examples.csv_arrived Batch.initial =
    (Py.Ok (Py.dict [ ("statusCode", Py.VInt 500);
                      ("error", Py.VStr "'OUTPUT_BUCKET'") ]),
     Batch.with_log Py.ERROR "Handler error: 'OUTPUT_BUCKET'" Batch.initial).
Proof.
  apply (missing_configuration
           (Examples.unset "OUTPUT_BUCKET"
              (Examples.unset "BEDROCK_ROLE_ARN" Examples.smooth))
           Examples.csv_arrived Batch.initial
           ["INPUT_BUCKET"] ["DYNAMODB_TABLE"; "BEDROCK_ROLE_ARN"] "OUTPUT_BUCKET").
  - reflexivity.
  - repeat constructor. by eexists.
  - reflexivity.
Defined.

(** X2. Whatever goes wrong before the job is attempted (configuration,
    shape of the event) ends in a 500 answer carrying [str(e)]; one error
    line is logged and the table, the bucket and the backend are as they
    were. *)
Theorem failure_before_submission (E : Batch.env) (event : list (string * Py.value))
    (w w1 : Batch.world) (e : Py.exn) :
  Batch.Processor.setup E event w = (Py.Raise e, w1) ->
  exists w',
    Batch.Processor.handler E event w =
      (Py.Ok (Py.dict [ ("statusCode", Py.VInt 500);
                        ("error", Py.VStr (Py.str_exn e)) ]), w') /\
    Batch.log w' = Batch.log w ++ [(Py.ERROR, "Handler error: " +:+ Py.str_exn e)] /\
    Batch.table w' = Batch.table w /\ Batch.objects w' = Batch.objects w /\
    Batch.jobs w' = Batch.jobs w.
Proof.
  intros Hs. destruct (setup_world _ _ _ _ _ Hs) as (Ht & Ho & Hj & Hl & _).
  unfold Batch.Processor.handler, Py.try_except, Py.bind. rewrite Hs.
  cbn. eexists. split; [reflexivity|]. cbn. by rewrite Ht, Ho, Hj, Hl.
Qed.

Lemma failure_before_submission_witness :
  exists w',
    Batch.Processor.handler Examples.smooth Examples.number_record Batch.initial =
      (Py.Ok (Py.dict [ ("statusCode", Py.VInt 500);
                        ("error", Py.VStr "'int' object is not subscriptable") ]), w') /\
    Batch.log w' = Batch.log Batch.initial ++
      [(Py.ERROR, "Handler error: 'int' object is not subscriptable")] /\
    Batch.table w' = Batch.table Batch.initial /\
    Batch.objects w' = Batch.objects Batch.initial /\
    Batch.jobs w' = Batch.jobs Batch.initial.
Proof.
  exact (failure_before_submission Examples.smooth Examples.number_record Batch.initial
           Batch.initial (Py.TypeError "'int' object is not subscriptable") eq_refl).
Defined.

(** X3. An event without [Records], or with an empty one, is a manual
    invocation: the bucket is the event's [bucket] or else [INPUT_BUCKET], the
    key the event's [key] or else [sample_pii_data.csv]; the job id is
    [pii-job-] followed by the clock's whole seconds and the output key is the
    key with [processed-] before it. *)
Theorem manual_invocation (E : Batch.env) (event : list (string * Py.value))
    (w : Batch.world) (input_bucket output_bucket table_name role : string) :
  Batch.environ E !! "INPUT_BUCKET" = Some input_bucket ->
  Batch.environ E !! "OUTPUT_BUCKET" = Some output_bucket ->
  Batch.environ E !! "DYNAMODB_TABLE" = Some table_name ->
  Batch.environ E !! "BEDROCK_ROLE_ARN" = Some role ->
  (forall records, Py.assoc "Records" event = Some records -> Py.truthy records = false) ->
  exists l,
    Batch.Processor.setup E event w = (Py.Ok l, Batch.tick w) /\
    Batch.Processor.bucket l = Py.dict_get event "bucket" (Py.VStr input_bucket) /\
    Batch.Processor.key l = Py.dict_get event "key" (Py.VStr "sample_pii_data.csv") /\
    Batch.Processor.job_id l
      = "pii-job-" +:+ pretty (Py.timestamp (Batch.now E (Batch.ticks w))) /\
    Batch.Processor.output_bucket l = output_bucket /\
    Batch.Processor.output_key l
      = "processed-" +:+ Py.format (Batch.fmt E) (Batch.Processor.key l) /\
    Batch.Processor.input_uri l
      = "s3://" +:+ Py.format (Batch.fmt E) (Batch.Processor.bucket l) +:+ "/"
          +:+ Py.format (Batch.fmt E) (Batch.Processor.key l) /\
    Batch.Processor.output_uri l
      = "s3://" +:+ output_bucket +:+ "/" +:+ Batch.Processor.output_key l.
Proof.
  intros H1 H2 H3 H4 Hrec.
  unfold Batch.Processor.setup, Batch.getenv, Batch.datetime_now,
    Py.bind, Py.ret. rewrite H1, H2, H3, H4. cbn beta iota.
  unfold Batch.Processor.locate.
  destruct (Py.assoc "Records" event) as [records|] eqn:Hr.
  - rewrite (Hrec records eq_refl). cbn. eexists. split; [reflexivity|]. done.
  - cbn. eexists. split; [reflexivity|]. done.
Qed.

Lemma manual_invocation_witness :
  exists l,
    Batch.Processor.setup Examples.smooth Examples.manual Batch.initial
      = (Py.Ok l, Batch.tick Batch.initial) /\
    Batch.Processor.bucket l = Py.VStr "input" /\
    Batch.Processor.key l = Py.VStr "batch.csv" /\
    Batch.Processor.output_uri l = "s3://output/processed-batch.csv".
Proof.
  destruct (manual_invocation Examples.smooth Examples.manual Batch.initial
              "input" "output" "jobs" "arn:role" eq_refl eq_refl eq_refl eq_refl)
    as (l & Hs & Hb & Hk & _ & Hob & Hok & _ & Hou).
  { intros records [=]. }
  exists l. split; [exact Hs|]. split; [exact Hb|]. split; [exact Hk|].
  rewrite Hou, Hok, Hk. reflexivity.
Defined.

(** X4. When the inner [try] raises (the backend refuses the job, say) and
    the direct path goes through, the handler answers 200 with
    [method = direct_processing]; the output object holds the file after the
    four substitutions; the record stored under the job id is [Completed],
    [direct_processing], has a [completedAt], no [jobArn] and a [ttl] thirty
    days after the clock reading; one warning naming the first error is
    logged. *)
Theorem fallback_record (E : Batch.env) (event : list (string * Py.value))
    (w w1 : Batch.world) (l : Batch.Processor.locals) (e1 : Py.exn) :
  Batch.Processor.setup E event w = (Py.Ok l, w1) ->
  Batch.create_model_invocation_job E (Batch.Processor.request l) = Py.Raise e1 ->
  Batch.Processor.direct_error E l (Batch.ticks w1) = None ->
  exists r w' csv_content,
    Batch.Processor.handler E event w = (Py.Ok r, w') /\
    r !! "statusCode" = Some (Py.VInt 200) /\
    r !! "jobId" = Some (Py.VStr (Batch.Processor.job_id l)) /\
    r !! "method" = Some (Py.VStr "direct_processing") /\
    r !! "jobArn" = None /\
    Batch.get_object E (Batch.Processor.bucket l) (Batch.Processor.key l)
      = Py.Ok csv_content /\
    Batch.objects w' !! (Batch.Processor.output_bucket l, Batch.Processor.output_key l)
      = Some (Re.processed_content (Batch.unicode E) csv_content) /\
    Batch.attribute w' (Batch.Processor.job_id l) "status" = Some (Py.VStr "Completed") /\
    Batch.attribute w' (Batch.Processor.job_id l) "method"
      = Some (Py.VStr "direct_processing") /\
    Batch.attribute w' (Batch.Processor.job_id l) "completedAt"
      = Some (Py.VStr (Py.isoformat (Batch.now E (S (Batch.ticks w1))))) /\
    Batch.attribute w' (Batch.Processor.job_id l) "jobArn" = None /\
    Batch.attribute w' (Batch.Processor.job_id l) "ttl"
      = Some (Py.VInt (Py.timestamp (Batch.now E (S (S (Batch.ticks w1)))) + 2592000)) /\
    Batch.jobs w' = Batch.jobs w /\
    Batch.log w' = Batch.log w ++
      [ (Py.WARNING,
         "Bedrock batch job creation failed, falling back to direct processing: "
           +:+ Py.str_exn e1) ].
Proof.
  intros Hs Hc Hd. pose proof (setup_tick _ _ _ _ _ Hs) as ->.
  rewrite (handler_refused _ _ _ _ _ _ Hs Hc).
  unfold Batch.Processor.fallback, Py.bind, Py.try_except, Batch.logger, Py.modify.
  cbn beta iota.
  set (w2 := Batch.with_log Py.WARNING _ _).
  pose proof (direct_processing_run E l w2) as Hrun.
  change (Batch.ticks w2) with (Batch.ticks (Batch.tick w)) in Hrun.
  rewrite Hd in Hrun.
  destruct Hrun as (r & w3 & c & Hrun & Hcode & Hget & Ho & Ht & Hl & Hj).
  rewrite Hrun. exists r, w3, c. split; [done|].
  assert (Hr : r = Py.dict
    [ ("statusCode", Py.VInt 200);
      ("jobId", Py.VStr (Batch.Processor.job_id l));
      ("method", Py.VStr "direct_processing");
      ("outputFile", Py.VStr ("s3://" +:+ Batch.Processor.output_bucket l +:+ "/"
                                +:+ Batch.Processor.output_key l));
      ("message", Py.VStr ("Successfully processed "
                             +:+ Py.format (Batch.fmt E) (Batch.Processor.key l)
                             +:+ " directly")) ]).
  { revert Hrun. unfold Batch.Processor.direct_processing, Batch.s3_get_object,
      Batch.s3_put_object, Batch.table_put_item, Batch.datetime_now, Batch.call,
      Py.bind, Py.lift, Py.ret, Py.modify, Py.raise.
    rewrite Hget. cbn. destruct (Batch.put_object E _ _ _); cbn; [done|].
    destruct (Batch.put_item E _ _); cbn; [done|]. by intros [= <- _]. }
  unfold Batch.attribute. rewrite Ho, Ht, Hl, Hj, !lookup_insert_eq. subst r w2.
  repeat split; try done.
Qed.

Lemma fallback_record_witness :
  exists r w',
    Batch.Processor.handler Examples.backend_down Examples.csv_arrived Batch.initial
      = (Py.Ok r, w') /\
    r !! "method" = Some (Py.VStr "direct_processing") /\
    Batch.attribute w' "pii-job-1700000000" "status" = Some (Py.VStr "Completed") /\
    Batch.objects w' !! ("output", "processed-data.csv")
      = Some (Re.processed_content Re.ascii_only Examples.contact).
Proof.
  destruct (fallback_record Examples.backend_down Examples.csv_arrived Batch.initial
              (Batch.tick Batch.initial) Examples.csv_locals
              (Py.ClientError "AccessDeniedException") eq_refl eq_refl eq_refl)
    as (r & w' & c & Hrun & _ & _ & Hm & _ & Hget & Ho & Hst & _).
  exists r, w'. split; [exact Hrun|]. split; [exact Hm|]. split; [exact Hst|].
  injection Hget as <-. exact Ho.
Defined.

(** X5. The submitter never lets an exception out.  It answers either 200
    with a [jobId] under which the table then holds a record, or 500 without
    a [jobId] and with the table exactly as it was. *)
Theorem handler_answers (E : Batch.env) (event : list (string * Py.value))
    (w : Batch.world) :
  exists r w',
    Batch.Processor.handler E event w = (Py.Ok r, w') /\
    ((r !! "statusCode" = Some (Py.VInt 200) /\
      exists job_id, r !! "jobId" = Some (Py.VStr job_id) /\
                     is_Some (Batch.table w' !! job_id)) \/
     (r !! "statusCode" = Some (Py.VInt 500) /\
      r !! "jobId" = None /\
      Batch.table w' = Batch.table w)).
Proof.
  destruct (Batch.Processor.setup E event w) as [[l|e] w1] eqn:Hs.
  - destruct (setup_world _ _ _ _ _ Hs) as (Ht & _).
    unfold Batch.Processor.handler, Py.try_except, Py.bind. rewrite Hs.
    destruct (Batch.Processor.batch_inference E l w1) as [[d|e] w2] eqn:Hb.
    + destruct (batch_inference_run _ _ _ _ _ Hb) as (_ & _ & Hcode & Hid & Hin & _).
      exists d, w2. split; [done|]. left. split; [done|]. eauto.
    + destruct (batch_inference_run _ _ _ _ _ Hb) as (_ & _ & Ht2).
      destruct (fallback_run E l e w2) as (r & w3 & Hf & _ & Hcase).
      rewrite Hf. exists r, w3. split; [done|].
      destruct (Batch.Processor.direct_error E l (Batch.ticks w2)).
      * destruct Hcase as (-> & Ht3). right.
        split; [done|]. split; [done|]. congruence.
      * destruct Hcase as (Hcode & Hid & Ht3). left. split; [done|].
        eexists. split; [exact Hid|]. rewrite Ht3, lookup_insert_eq. by eexists.
  - destruct (failure_before_submission_aux E event w w1 e Hs) as (w' & Hrun & Ht).
    rewrite Hrun. eexists _, w'. split; [done|]. right. done.
Qed.

(** X6. The job id is made of the clock's whole seconds alone.  Of two
    submissions that the backend and the table accept, one after the other,
    both are answered 200; they get the same job id exactly when their clock
    readings fall in the same second, whatever the files are, and then the
    record of the second replaces the record of the first: the table is the
    one before the first submission with the second record added.  In
    different seconds both records are kept. *)
Theorem job_id_by_second (E : Batch.env) (event event' : list (string * Py.value))
    (w w1 w2 w3 : Batch.world) (r1 : gmap string Py.value)
    (l l' : Batch.Processor.locals) (response response' job_arn job_arn' : Py.value) :
  Batch.Processor.setup E event w = (Py.Ok l, w1) ->
  Batch.create_model_invocation_job E (Batch.Processor.request l) = Py.Ok response ->
  Py.getitem response "jobArn" = Py.Ok job_arn ->
  Batch.put_item E (Batch.Processor.job_id l)
    (Batch.Processor.submitted_item l job_arn
       (Batch.now E (Batch.ticks w1)) (Batch.now E (S (Batch.ticks w1)))) = None ->
  Batch.Processor.handler E event w = (Py.Ok r1, w2) ->
  Batch.Processor.setup E event' w2 = (Py.Ok l', w3) ->
  Batch.create_model_invocation_job E (Batch.Processor.request l') = Py.Ok response' ->
  Py.getitem response' "jobArn" = Py.Ok job_arn' ->
  Batch.put_item E (Batch.Processor.job_id l')
    (Batch.Processor.submitted_item l' job_arn'
       (Batch.now E (Batch.ticks w3)) (Batch.now E (S (Batch.ticks w3)))) = None ->
  let first := Batch.Processor.submitted_item l job_arn
                 (Batch.now E (Batch.ticks w1)) (Batch.now E (S (Batch.ticks w1))) in
  let second := Batch.Processor.submitted_item l' job_arn'
                  (Batch.now E (Batch.ticks w3)) (Batch.now E (S (Batch.ticks w3))) in
  let same_second := Py.timestamp (Batch.now E (Batch.ticks w))
                     = Py.timestamp (Batch.now E (Batch.ticks w2)) in
  exists r2 w4,
    Batch.Processor.handler E event' w2 = (Py.Ok r2, w4) /\
    r1 !! "statusCode" = Some (Py.VInt 200) /\
    r1 !! "jobId" = Some (Py.VStr (Batch.Processor.job_id l)) /\
    r2 !! "statusCode" = Some (Py.VInt 200) /\
    r2 !! "jobId" = Some (Py.VStr (Batch.Processor.job_id l')) /\
    (Batch.Processor.job_id l = Batch.Processor.job_id l' <-> same_second) /\
    (same_second ->
     Batch.table w4 = <[Batch.Processor.job_id l := second]> (Batch.table w)) /\
    (~ same_second ->
     Batch.table w4 !! Batch.Processor.job_id l = Some first /\
     Batch.table w4 !! Batch.Processor.job_id l' = Some second).
Proof.
  intros Hs Hc Hj Hp Hrun1 Hs' Hc' Hj' Hp' first second same_second.
  destruct (handler_submitted _ _ _ _ _ _ _ Hs Hc Hj Hp)
    as (r1' & w2' & Hrun1' & Hr1 & Ht2 & _).
  rewrite Hrun1 in Hrun1'. injection Hrun1' as <- <-.
  destruct (handler_submitted _ _ _ _ _ _ _ Hs' Hc' Hj' Hp')
    as (r2 & w4 & Hrun2 & Hr2 & Ht4 & _).
  fold first in Ht2. fold second in Ht4.
  assert (Hid : Batch.Processor.job_id l = Batch.Processor.job_id l' <-> same_second).
  { rewrite (setup_job_id _ _ _ _ _ Hs), (setup_job_id _ _ _ _ _ Hs').
    unfold same_second. split.
    - intros H. apply (inj (String.append "pii-job-")) in H. by apply (inj pretty) in H.
    - by intros ->. }
  exists r2, w4. split; [exact Hrun2|].
  split; [by rewrite Hr1|]. split; [by rewrite Hr1|].
  split; [by rewrite Hr2|]. split; [by rewrite Hr2|].
  split; [exact Hid|]. split.
  - intros Hsame. apply Hid in Hsame. rewrite Ht4, Ht2, <- Hsame.
    apply insert_insert_eq.
  - intros Hdiff. assert (Hne : Batch.Processor.job_id l' <> Batch.Processor.job_id l).
    { intros Heq. apply Hdiff, Hid. done. }
    rewrite Ht4, Ht2. split.
    + rewrite lookup_insert_ne by done. apply lookup_insert_eq.
    + apply lookup_insert_eq.
Qed.

Lemma job_id_by_second_witness :
  exists r2 w4,
    Batch.Processor.handler Examples.within_a_second Examples.other_arrived
      (snd (Batch.Processor.handler Examples.within_a_second Examples.csv_arrived
              Batch.initial)) = (Py.Ok r2, w4) /\
    r2 !! "jobId" = Some (Py.VStr "pii-job-1700000000") /\
    Batch.table w4 =
      <["pii-job-1700000000" :=
          Batch.Processor.submitted_item Examples.other_locals (Py.VStr "arn:job:1")
            (Batch.now Examples.within_a_second 4)
            (Batch.now Examples.within_a_second 5)]> (Batch.table Batch.initial).
Proof.
  destruct (job_id_by_second Examples.within_a_second
              Examples.csv_arrived Examples.other_arrived
              Batch.initial (Batch.tick Batch.initial)
              (snd (Batch.Processor.handler Examples.within_a_second Examples.csv_arrived
                      Batch.initial))
              (Batch.tick (snd (Batch.Processor.handler Examples.within_a_second
                                  Examples.csv_arrived Batch.initial)))
              (Py.dict [ ("statusCode", Py.VInt 200);
                         ("jobId", Py.VStr "pii-job-1700000000");
                         ("jobArn", Py.VStr "arn:job:1");
                         ("message", Py.VStr "Successfully created batch job for data.csv") ])
              Examples.csv_locals Examples.other_locals
              (Py.VDict [("jobArn", Py.VStr "arn:job:1")])
              (Py.VDict [("jobArn", Py.VStr "arn:job:1")])
              (Py.VStr "arn:job:1") (Py.VStr "arn:job:1"))
    as (r2 & w4 & Hrun & _ & _ & _ & Hid & _ & Hsame & _); try reflexivity.
  exists r2, w4. exact (conj Hrun (conj Hid (Hsame eq_refl))).
Defined.

(** X7. When the direct path fails only at the last step, the table
    refusing the record, the redacted file is already in the output bucket:
    the answer is 500 and no record exists, yet the output object holds the
    file after the four substitutions. *)
Theorem output_without_record (E : Batch.env) (event : list (string * Py.value))
    (w w1 : Batch.world) (l : Batch.Processor.locals) (e1 e2 : Py.exn)
    (csv_content : Re.text) :
  Batch.Processor.setup E event w = (Py.Ok l, w1) ->
  Batch.create_model_invocation_job E (Batch.Processor.request l) = Py.Raise e1 ->
  Batch.get_object E (Batch.Processor.bucket l) (Batch.Processor.key l)
    = Py.Ok csv_content ->
  Batch.put_object E (Batch.Processor.output_bucket l) (Batch.Processor.output_key l)
    (Re.processed_content (Batch.unicode E) csv_content) = None ->
  Batch.put_item E (Batch.Processor.job_id l)
    (Batch.Processor.processed_item l
       (Batch.now E (Batch.ticks w1)) (Batch.now E (S (Batch.ticks w1)))
       (Batch.now E (S (S (Batch.ticks w1))))) = Some e2 ->
  exists r w',
    Batch.Processor.handler E event w = (Py.Ok r, w') /\
    r !! "statusCode" = Some (Py.VInt 500) /\
    Batch.table w' = Batch.table w /\
    Batch.objects w' !! (Batch.Processor.output_bucket l, Batch.Processor.output_key l)
      = Some (Re.processed_content (Batch.unicode E) csv_content).
Proof.
  intros Hs Hc Hg Hp Hi. pose proof (setup_tick _ _ _ _ _ Hs) as ->.
  rewrite (handler_refused _ _ _ _ _ _ Hs Hc).
  unfold Batch.Processor.fallback, Batch.Processor.direct_processing,
    Batch.s3_get_object, Batch.s3_put_object, Batch.table_put_item,
    Batch.datetime_now, Batch.call, Batch.logger,
    Py.try_except, Py.bind, Py.lift, Py.ret, Py.modify, Py.raise.
  cbn beta iota. rewrite Hg. cbn beta iota. rewrite Hp.
  cbn -[Re.processed_content Py.dict String.append Batch.Processor.processed_item]
    in Hi |- *.
  rewrite Hi.
  cbn -[Re.processed_content Py.dict String.append Batch.Processor.processed_item].
  eexists _, _. split; [reflexivity|].
  cbn -[Re.processed_content Py.dict String.append Batch.Processor.processed_item].
  rewrite lookup_insert_eq. done.
Qed.

Lemma output_without_record_witness :
  exists r w',
    Batch.Processor.handler Examples.table_down Examples.csv_arrived Batch.initial
      = (Py.Ok r, w') /\
    r !! "statusCode" = Some (Py.VInt 500) /\
    Batch.table w' = Batch.table Batch.initial /\
    Batch.objects w' !! ("output", "processed-data.csv")
      = Some (Re.processed_content Re.ascii_only Examples.contact).
Proof.
  exact (output_without_record Examples.table_down Examples.csv_arrived Batch.initial
           (Batch.tick Batch.initial) Examples.csv_locals
           (Py.ClientError "AccessDeniedException")
           (Py.ClientError "ResourceNotFoundException") Examples.contact
           eq_refl eq_refl eq_refl eq_refl eq_refl).
Defined.

(** ** The reconciler, pass by pass *)

Section ReconcilerPasses.
Import Py Batch Batch.Monitor.

Local Arguments dict : simpl never.
Local Arguments String.append : simpl never.
Local Arguments assign : simpl never.

(** One turn leaves the bucket and the backend's jobs alone and never
    raises the count of updates above the count of checks. *)
Lemma for_each_counts E items : forall c u w c' u' w',
  for_each (visit E) (c, u) items w = (Ok (c', u'), w') ->
  u' - u <= c' - c /\ c' - c <= length items /\ c <= c' /\ u <= u'.
Proof.
  induction items as [|[k a] items IH]; intros c u w c' u' w' H.
  - cbn in H. injection H as <- <- _. simpl. lia.
  - cbn [for_each] in H. unfold bind at 1 in H.
    destruct (visit_spec E c u k a w) as (w1 & Hv & _). rewrite Hv in H.
    apply IH in H. simpl.
    assert (Hsk : skipped a = true -> transition E k a (ticks w) = None).
    { intros Hsk. unfold transition, reports. by rewrite Hsk. }
    destruct (skipped a); [rewrite Hsk in H by done; lia|].
    destruct (transition E k a (ticks w)); lia.
Qed.

(** A pass that does not get to the loop. *)
Lemma monitor_abort_world E event w :
  environ E !! "DYNAMODB_TABLE" = None \/ is_Some (scan E) ->
  exists e w',
    handler E event w =
      (Ok (dict [ ("statusCode", VInt 500); ("error", VStr (str_exn e)) ]), w') /\
    w' = with_log ERROR ("Monitor error: " +:+ str_exn e) w /\
    match environ E !! "DYNAMODB_TABLE" with
    | None => e = KeyError (KStr "DYNAMODB_TABLE")
    | Some _ => scan E = Some e
    end.
Proof.
  intros H. unfold handler, try_except, bind, getenv, table_scan, call, gets, ret,
    raise, logger, modify.
  destruct (environ E !! "DYNAMODB_TABLE") as [name|] eqn:Henv.
  - destruct H as [H|[e He]]; [done|]. rewrite He. cbn. by eexists e, _.
  - cbn. by eexists (KeyError (KStr "DYNAMODB_TABLE")), _.
Qed.

(** What a turn writes when it writes. *)
Lemma transition_Some E k a t sets :
  transition E k a t = Some sets ->
  skipped a = false /\
  exists d job_status,
    get_model_invocation_job E (arn a) = Ok (VDict d) /\
    assoc "status" d = Some job_status /\
    terminal job_status = true /\
    sets = assignments (VDict d) job_status (now E t).
Proof.
  unfold transition, reports, arn.
  destruct (skipped a); [done|].
  destruct (get_model_invocation_job E _) as [job_response|]; [|done].
  destruct (getitem job_response "status") as [job_status|] eqn:Hst; [|done].
  destruct (terminal job_status) eqn:Ht; [|done].
  apply getitem_Ok in Hst as (d & -> & Hd).
  destruct (update_item E k _); [done|]. intros [= <-].
  split; [done|]. by exists d, job_status.
Qed.

Lemma assign_assignments d job_status completed a :
  let a' := assign (assignments (VDict d) job_status completed) a in
  a' !! "status" = Some job_status /\
  a' !! "completedAt" = Some (VStr (isoformat completed)) /\
  a' !! "failureReason" =
    (if is_str job_status "Failed"
     then Some (dict_get d "failureMessage" (VStr "Unknown failure"))
     else a !! "failureReason") /\
  (forall x, x <> "status" -> x <> "completedAt" -> x <> "failureReason" ->
             a' !! x = a !! x).
Proof.
  unfold assignments, assign.
  destruct (is_str job_status "Failed"); simpl.
  - split; [by simplify_map_eq|]. split; [by simplify_map_eq|].
    split; [by simplify_map_eq|]. intros x H1 H2 H3. by simplify_map_eq.
  - split; [by simplify_map_eq|]. split; [by simplify_map_eq|].
    split; [by simplify_map_eq|]. intros x H1 H2 H3. by simplify_map_eq.
Qed.

(** The page of a scan holds no more than the in-progress records, which
    are no more than the table. *)
Lemma size_scanned E w :
  length (scanned E w)
    <= size (filter (fun kv => in_progress (snd kv) = true) (table w)) /\
  size (filter (fun kv => in_progress (snd kv) = true) (table w)) <= size (table w).
Proof.
  split; [|apply map_subseteq_size, map_filter_subseteq].
  unfold scanned. rewrite length_map_to_list. apply map_subseteq_size.
  apply map_subseteq_spec. intros k a. rewrite !map_lookup_filter_Some. simpl.
  rewrite andb_true_iff. tauto.
Qed.

Lemma checked_length items : length (checked items) <= length items.
Proof. unfold checked. apply filter_length_le. Qed.

End ReconcilerPasses.

(** X8. The reconciler never lets an exception out and answers 200 or 500;
    a pass neither adds nor removes a record, writes nothing to S3 and
    creates no backend job. *)
Theorem reconciler_answers (E : Batch.env) (event : list (string * Py.value))
    (w : Batch.world) :
  exists r w',
    Batch.Monitor.handler E event w = (Py.Ok r, w') /\
    (r !! "statusCode" = Some (Py.VInt 200) \/ r !! "statusCode" = Some (Py.VInt 500)) /\
    dom (Batch.table w') = dom (Batch.table w) /\
    Batch.objects w' = Batch.objects w /\
    Batch.jobs w' = Batch.jobs w.
Proof.
  destruct (Batch.environ E !! "DYNAMODB_TABLE") as [name|] eqn:Henv;
    [destruct (Batch.scan E) as [e|] eqn:Hscan|].
  - destruct (monitor_abort_world E event w) as (e' & w' & Hrun & -> & _).
    { right. rewrite Hscan. by eexists. }
    eexists _, _. split; [exact Hrun|]. split; [by right|]. done.
  - destruct (monitor_pass E event w name Henv Hscan)
      as (c & us & w' & Hrun & _ & _ & _ & Ho & Hj & Hrec & Hnone & _).
    eexists _, w'. split; [exact Hrun|]. split; [by left|]. split; [|done].
    apply set_eq. intros k. rewrite !elem_of_dom.
    destruct (Batch.table w !! k) as [a|] eqn:Hk.
    + destruct (Hrec k a Hk) as [t ->]. split; by eexists.
    + rewrite (Hnone k Hk). done.
  - destruct (monitor_abort_world E event w) as (e' & w' & Hrun & -> & _); [by left|].
    eexists _, _. split; [exact Hrun|]. split; [by right|]. done.
Qed.

(** X9. After a pass every record is either exactly what it was, or it was
    in progress with a usable [jobArn] and now has one of the three terminal
    statuses and a [completedAt], every attribute other than [status],
    [completedAt] and [failureReason] being what it was. *)
Theorem status_only_moves_forward (E : Batch.env) (event : list (string * Py.value))
    (w : Batch.world) (k : string) (a : gmap string Py.value) :
  Batch.table w !! k = Some a ->
  exists a',
    Batch.table (snd (Batch.Monitor.handler E event w)) !! k = Some a' /\
    (a' = a \/
     (Batch.in_progress a = true /\ Batch.Monitor.skipped a = false /\
      exists job_status t,
        Batch.Monitor.terminal job_status = true /\
        a' !! "status" = Some job_status /\
        a' !! "completedAt" = Some (Py.VStr (Py.isoformat (Batch.now E t))) /\
        (forall x, x <> "status" -> x <> "completedAt" -> x <> "failureReason" ->
                   a' !! x = a !! x))).
Proof.
  intros Hk.
  destruct (Batch.environ E !! "DYNAMODB_TABLE") as [name|] eqn:Henv;
    [destruct (Batch.scan E) as [e|] eqn:Hscan|].
  - destruct (monitor_abort_world E event w) as (e' & w' & Hrun & -> & _).
    { right. rewrite Hscan. by eexists. }
    rewrite Hrun. exists a. split; [done|by left].
  - destruct (monitor_pass E event w name Henv Hscan)
      as (c & us & w' & Hrun & _ & _ & _ & _ & _ & Hrec & _ & _).
    rewrite Hrun. destruct (Hrec k a Hk) as [t Hk'].
    eexists. split; [exact Hk'|]. unfold Batch.Monitor.reconciled.
    destruct (Batch.page E k) eqn:Hpg; cbn [andb]; [|by left].
    destruct (Batch.in_progress a) eqn:Hip; [|by left].
    destruct (Batch.Monitor.transition E k a t) as [sets|] eqn:Htr; [|by left].
    right. split; [done|].
    destruct (transition_Some _ _ _ _ _ Htr) as (Hsk & d & st & _ & _ & Hterm & ->).
    split; [done|]. exists st, t. split; [done|].
    destruct (assign_assignments d st (Batch.now E t) a) as (H1 & H2 & _ & H4).
    done.
  - destruct (monitor_abort_world E event w) as (e' & w' & Hrun & -> & _); [by left|].
    rewrite Hrun. exists a. split; [done|by left].
Qed.

Lemma status_only_moves_forward_witness :
  exists a',
    Batch.table (snd (Batch.Monitor.handler Examples.patchy [] Examples.some_jobs))
      !! "pii-job-2" = Some a' /\
    (a' = Examples.job "arn:job:2" \/
     (Batch.in_progress (Examples.job "arn:job:2") = true /\
      Batch.Monitor.skipped (Examples.job "arn:job:2") = false /\
      exists job_status t,
        Batch.Monitor.terminal job_status = true /\
        a' !! "status" = Some job_status /\
        a' !! "completedAt"
          = Some (Py.VStr (Py.isoformat (Batch.now Examples.patchy t))) /\
        (forall x, x <> "status" -> x <> "completedAt" -> x <> "failureReason" ->
                   a' !! x = Examples.job "arn:job:2" !! x))).
Proof.
  exact (status_only_moves_forward Examples.patchy [] Examples.some_jobs
           "pii-job-2" (Examples.job "arn:job:2") eq_refl).
Defined.

(** X10. When the scan of the table raises, the reconciler answers 500
    with [str(e)], logs one error line, asks the backend nothing and leaves
    the table as it was. *)
Theorem scan_failure (E : Batch.env) (event : list (string * Py.value))
    (w : Batch.world) (name : string) (e : Py.exn) :
  Batch.environ E !! "DYNAMODB_TABLE" = Some name ->
  Batch.scan E = Some e ->
  Batch.Monitor.handler E event w =
    (Py.Ok (Py.dict [ ("statusCode", Py.VInt 500); ("error", Py.VStr (Py.str_exn e)) ]),
     Batch.with_log Py.ERROR ("Monitor error: " +:+ Py.str_exn e) w).
Proof.
  intros Henv Hscan.
  destruct (monitor_abort_world E event w) as (e' & w' & Hrun & -> & He).
  { right. rewrite Hscan. by eexists. }
  rewrite Henv, Hscan in He. injection He as <-. exact Hrun.
Qed.

Lemma scan_failure_witness :
  Batch.Monitor.handler Examples.scan_down [] Examples.some_jobs =
    (Py.Ok (Py.dict [ ("statusCode", Py.VInt 500);
                      ("error", Py.VStr "ProvisionedThroughputExceededException") ]),
     Batch.with_log Py.ERROR "Monitor error: ProvisionedThroughputExceededException"
       Examples.some_jobs).
Proof.
  exact (scan_failure Examples.scan_down [] Examples.some_jobs "jobs"
           (Py.ClientError "ProvisionedThroughputExceededException") eq_refl eq_refl).
Defined.

(** X11. In the answer of a pass that reaches the loop, [jobsUpdated] is at
    most [jobsChecked], which is at most the number of records the scan
    returned, itself at most the number of in-progress records and that at
    most the size of the table. *)
Theorem counts_ordered (E : Batch.env) (event : list (string * Py.value))
    (w : Batch.world) (name : string) :
  Batch.environ E !! "DYNAMODB_TABLE" = Some name ->
  Batch.scan E = None ->
  exists r w' (checked updated : nat),
    Batch.Monitor.handler E event w = (Py.Ok r, w') /\
    r !! "jobsChecked" = Some (Py.VInt (Z.of_nat checked)) /\
    r !! "jobsUpdated" = Some (Py.VInt (Z.of_nat updated)) /\
    updated <= checked /\
    checked <= length (Batch.scanned E w) /\
    length (Batch.scanned E w)
      <= size (filter (fun kv => Batch.in_progress (snd kv) = true) (Batch.table w)) /\
    size (filter (fun kv => Batch.in_progress (snd kv) = true) (Batch.table w))
      <= size (Batch.table w).
Proof.
  intros Henv Hscan.
  destruct (for_each_visit E (Batch.scanned E w) 0 0 w) as
    (c' & u' & w' & us & Hrun & _).
  { apply NoDup_fst_map_to_list. }
  { intros k a Hka. by apply scanned_spec in Hka as [? _]. }
  destruct (for_each_counts _ _ _ _ _ _ _ _ Hrun) as (H1 & H2 & _ & _).
  eexists _, w', c', u'. split.
  { unfold Batch.Monitor.handler, Py.try_except, Py.bind, Batch.getenv,
      Batch.table_scan, Batch.call, Py.gets, Py.ret.
    rewrite Henv, Hscan. unfold Py.bind. cbn beta iota. rewrite Hrun. reflexivity. }
  split; [done|]. split; [done|]. split; [lia|]. split; [lia|].
  apply size_scanned.
Qed.

Lemma counts_ordered_witness :
  exists r w' (checked updated : nat),
    Batch.Monitor.handler Examples.patchy [] Examples.some_jobs = (Py.Ok r, w') /\
    r !! "jobsChecked" = Some (Py.VInt (Z.of_nat checked)) /\
    r !! "jobsUpdated" = Some (Py.VInt (Z.of_nat updated)) /\
    updated <= checked /\
    checked <= length (Batch.scanned Examples.patchy Examples.some_jobs) /\
    length (Batch.scanned Examples.patchy Examples.some_jobs)
      <= size (filter (fun kv => Batch.in_progress (snd kv) = true)
                 (Batch.table Examples.some_jobs)) /\
    size (filter (fun kv => Batch.in_progress (snd kv) = true)
            (Batch.table Examples.some_jobs))
      <= size (Batch.table Examples.some_jobs).
Proof.
  exact (counts_ordered Examples.patchy [] Examples.some_jobs "jobs" eq_refl eq_refl).
Defined.

(** X12. When for every in-progress record the backend's answer is an
    error or names no terminal status, a pass changes no record and reports
    [jobsUpdated = 0]. *)
Theorem no_news_no_change (E : Batch.env) (event : list (string * Py.value))
    (w : Batch.world) (name : string) :
  Batch.environ E !! "DYNAMODB_TABLE" = Some name ->
  Batch.scan E = None ->
  (forall k a, Batch.table w !! k = Some a -> Batch.in_progress a = true ->
               Batch.Monitor.reports E a = None) ->
  exists r w',
    Batch.Monitor.handler E event w = (Py.Ok r, w') /\
    r !! "statusCode" = Some (Py.VInt 200) /\
    r !! "jobsUpdated" = Some (Py.VInt 0) /\
    Batch.table w' = Batch.table w /\
    Batch.updates w' = Batch.updates w.
Proof.
  intros Henv Hscan Hno.
  destruct (monitor_pass E event w name Henv Hscan)
    as (c & us & w' & Hrun & _ & Hup & _ & _ & _ & Hrec & Hnone & Hus).
  assert (us = []) as ->.
  { destruct us as [|k us]; [done|]. exfalso.
    destruct (Hus k) as (a & t & Hka & _ & Hip & Hsome); [left|].
    unfold Batch.Monitor.transition in Hsome. rewrite (Hno k a Hka Hip) in Hsome.
    by destruct Hsome. }
  eexists _, w'. split; [exact Hrun|]. split; [done|]. split; [done|].
  split; [|by rewrite Hup, app_nil_r].
  apply map_eq. intros k. destruct (Batch.table w !! k) as [a|] eqn:Hk.
  - destruct (Hrec k a Hk) as [t ->]. f_equal. unfold Batch.Monitor.reconciled.
    destruct (Batch.in_progress a) eqn:Hip; [|by rewrite andb_false_r].
    unfold Batch.Monitor.transition. rewrite (Hno k a Hk Hip).
    by destruct (Batch.page E k).
  - by apply Hnone.
Qed.

Lemma no_news_no_change_witness :
  exists r w',
    Batch.Monitor.handler Examples.waiting [] Examples.some_jobs = (Py.Ok r, w') /\
    r !! "statusCode" = Some (Py.VInt 200) /\
    r !! "jobsUpdated" = Some (Py.VInt 0) /\
    Batch.table w' = Batch.table Examples.some_jobs /\
    Batch.updates w' = Batch.updates Examples.some_jobs.
Proof.
  apply (no_news_no_change Examples.waiting [] Examples.some_jobs "jobs");
    [reflexivity|reflexivity|].
  intros k a _ _. unfold Batch.Monitor.reports.
  destruct (Batch.Monitor.skipped a); reflexivity.
Defined.

(** X13. Submitter and reconciler in a row: a job that the backend accepted
    with a non-empty [jobArn], whose record the table took and which the scan
    of the next pass returns, is asked about in that pass under that
    [jobArn]; and when the backend then names a terminal status and the table
    takes the update, the record carries that status while [jobArn],
    [sourceFile], [createdAt] and [ttl] are the ones written at
    submission. *)
Theorem submitted_then_reconciled (E : Batch.env) (event event' : list (string * Py.value))
    (w w1 : Batch.world) (l : Batch.Processor.locals) (response job_arn : Py.value) :
  Batch.Processor.setup E event w = (Py.Ok l, w1) ->
  Batch.create_model_invocation_job E (Batch.Processor.request l) = Py.Ok response ->
  Py.getitem response "jobArn" = Py.Ok job_arn ->
  Py.truthy job_arn = true ->
  Batch.put_item E (Batch.Processor.job_id l)
    (Batch.Processor.submitted_item l job_arn
       (Batch.now E (Batch.ticks w1)) (Batch.now E (S (Batch.ticks w1)))) = None ->
  Batch.scan E = None ->
  Batch.page E (Batch.Processor.job_id l) = true ->
  exists r1 w2 r2 w3 asked,
    Batch.Processor.handler E event w = (Py.Ok r1, w2) /\
    Batch.Monitor.handler E event' w2 = (Py.Ok r2, w3) /\
    Batch.queries w3 = Batch.queries w2 ++ asked /\
    job_arn ∈ asked /\
    (forall d job_status,
       Batch.get_model_invocation_job E job_arn = Py.Ok (Py.VDict d) ->
       Py.assoc "status" d = Some job_status ->
       Batch.Monitor.terminal job_status = true ->
       (forall sets, Batch.update_item E (Batch.Processor.job_id l) sets = None) ->
       Batch.attribute w3 (Batch.Processor.job_id l) "status" = Some job_status /\
       Batch.attribute w3 (Batch.Processor.job_id l) "jobArn" = Some job_arn /\
       Batch.attribute w3 (Batch.Processor.job_id l) "sourceFile"
         = Some (Batch.Processor.key l) /\
       Batch.attribute w3 (Batch.Processor.job_id l) "createdAt"
         = Some (Py.VStr (Py.isoformat (Batch.now E (Batch.ticks w1)))) /\
       Batch.attribute w3 (Batch.Processor.job_id l) "ttl"
         = Some (Py.VInt (Py.timestamp (Batch.now E (S (Batch.ticks w1))) + 2592000))).
Proof.
  intros Hs Hc Hj Htruthy Hp Hscan Hpg.
  destruct (handler_submitted _ _ _ _ _ _ _ Hs Hc Hj Hp)
    as (r1 & w2 & Hrun1 & _ & Ht2 & _).
  assert (Henv : exists name, Batch.environ E !! "DYNAMODB_TABLE" = Some name).
  { revert Hs. unfold Batch.Processor.setup, Batch.getenv, Py.bind, Py.raise, Py.ret.
    destruct (Batch.environ E !! "INPUT_BUCKET"); [|done].
    destruct (Batch.environ E !! "OUTPUT_BUCKET"); [|done].
    destruct (Batch.environ E !! "DYNAMODB_TABLE"); [|done]. by eexists. }
  destruct Henv as [name Henv].
  set (a := Batch.Processor.submitted_item l job_arn
              (Batch.now E (Batch.ticks w1)) (Batch.now E (S (Batch.ticks w1)))) in *.
  assert (Ha : Batch.table w2 !! Batch.Processor.job_id l = Some a)
    by (rewrite Ht2; apply lookup_insert_eq).
  assert (Harn : Batch.Monitor.arn a = job_arn) by reflexivity.
  assert (Hip : Batch.in_progress a = true) by reflexivity.
  assert (Hsk : Batch.Monitor.skipped a = false).
  { unfold Batch.Monitor.skipped. fold (Batch.Monitor.arn a). rewrite Harn, Htruthy.
    reflexivity. }
  destruct (monitor_pass E event' w2 name Henv Hscan)
    as (c & us & w3 & Hrun2 & _ & _ & Hq & _ & _ & Hrec & _ & _).
  exists r1, w2. eexists _, w3, _. split; [exact Hrun1|]. split; [exact Hrun2|].
  split; [exact Hq|]. split.
  { rewrite <- Harn.
    apply list_elem_of_In, in_map_iff. exists (Batch.Processor.job_id l, a).
    split; [done|]. apply list_elem_of_In, checked_spec.
    split; [by apply scanned_spec|done]. }
  intros d job_status Hget Hst Hterm Hupd.
  destruct (Hrec _ a Ha) as [t Hk]. unfold Batch.attribute. rewrite Hk.
  unfold Batch.Monitor.reconciled, Batch.Monitor.transition, Batch.Monitor.reports.
  fold (Batch.Monitor.arn a). rewrite Hpg, Hip, Hsk, Harn, Hget. simpl.
  rewrite Hst, Hterm, Hupd.
  destruct (assign_assignments d job_status (Batch.now E t) a) as (H1 & _ & _ & H4).
  split; [exact H1|].
  rewrite !H4 by done. repeat split; reflexivity.
Qed.

Lemma submitted_then_reconciled_witness :
  exists r1 w2 r2 w3,
    Batch.Processor.handler Examples.smooth Examples.csv_arrived Batch.initial
      = (Py.Ok r1, w2) /\
    Batch.Monitor.handler Examples.smooth [] w2 = (Py.Ok r2, w3) /\
    Py.VStr "arn:job:1" ∈ Batch.queries w3 /\
    Batch.attribute w3 "pii-job-1700000000" "status" = Some (Py.VStr "Failed") /\
    Batch.attribute w3 "pii-job-1700000000" "jobArn" = Some (Py.VStr "arn:job:1").
Proof.
  destruct (submitted_then_reconciled Examples.smooth Examples.csv_arrived []
              Batch.initial (Batch.tick Batch.initial) Examples.csv_locals
              (Py.VDict [("jobArn", Py.VStr "arn:job:1")]) (Py.VStr "arn:job:1"))
    as (r1 & w2 & r2 & w3 & asked & H1 & H2 & Hq & Hin & Hrec); try reflexivity.
  destruct (Hrec [("status", Py.VStr "Failed"); ("failureMessage", Py.VStr "quota exceeded")]
              (Py.VStr "Failed")) as (H3 & H4 & _); try reflexivity.
  exists r1, w2, r2, w3.
  refine (conj H1 (conj H2 (conj _ (conj H3 H4)))).
  rewrite Hq. apply elem_of_app. by right.
Defined.

(** X25. Failures of the status queries do not end a pass.  A pass that
    gets its table name and its scan answers 200 whichever queries fail; it
    asks the backend about every record that the scan returned and that has
    a [jobArn] and is not marked [direct_processing], and reports how many
    these are and how many it updated.  A record marked [direct_processing]
    or without a [jobArn] is left as it is and is not among the updates. *)
Theorem pass_survives_failures (E : Batch.env) (event : list (string * Py.value))
    (w : Batch.world) (name : string) :
  Batch.environ E !! "DYNAMODB_TABLE" = Some name ->
  Batch.scan E = None ->
  exists r w' us,
    Batch.Monitor.handler E event w = (Py.Ok r, w') /\
    r !! "statusCode" = Some (Py.VInt 200) /\
    r !! "jobsChecked" = Some (Py.VInt (Z.of_nat
      (length (Batch.Monitor.checked (Batch.scanned E w))))) /\
    r !! "jobsUpdated" = Some (Py.VInt (Z.of_nat (length us))) /\
    Batch.updates w' = Batch.updates w ++ us /\
    Batch.queries w' = Batch.queries w ++
      map (fun it => Batch.Monitor.arn (snd it))
        (Batch.Monitor.checked (Batch.scanned E w)) /\
    (forall k a, Batch.table w !! k = Some a ->
       Batch.page E k = true ->
       Batch.in_progress a = true ->
       Py.truthy (Batch.Monitor.arn a) = true ->
       a !! "method" <> Some (Py.VStr "direct_processing") ->
       Batch.Monitor.arn a ∈
         map (fun it => Batch.Monitor.arn (snd it))
           (Batch.Monitor.checked (Batch.scanned E w))) /\
    (forall k a, Batch.table w !! k = Some a ->
       a !! "method" = Some (Py.VStr "direct_processing") \/ a !! "jobArn" = None ->
       Batch.table w' !! k = Some a /\ k ∉ us).
Proof.
  intros Henv Hscan.
  destruct (monitor_pass E event w name Henv Hscan)
    as (c & us & w' & Hrun & -> & Hup & Hqu & _ & _ & Hrec & _ & Hus).
  eexists _, w', us. split; [exact Hrun|].
  split; [done|]. split; [done|]. split; [done|]. split; [done|]. split; [done|].
  split.
  - intros k a Hka Hpg Hip Harn Hm.
    apply list_elem_of_In, in_map_iff. exists (k, a). split; [done|].
    apply list_elem_of_In, checked_spec. split; [by apply scanned_spec|].
    unfold Batch.Monitor.skipped. fold (Batch.Monitor.arn a). rewrite Harn. simpl.
    destruct (a !! "method") as [m|] eqn:Hmeth; [|done]. simpl.
    destruct (Py.is_str m "direct_processing") eqn:Hd; [|done].
    apply is_str_eq in Hd as ->. done.
  - intros k a Hka Hskip.
    assert (Hsk : Batch.Monitor.skipped a = true).
    { unfold Batch.Monitor.skipped. destruct Hskip as [-> | ->]; simpl.
      - apply orb_true_r.
      - done. }
    assert (Htr : forall t, Batch.Monitor.transition E k a t = None).
    { intros t. unfold Batch.Monitor.transition, Batch.Monitor.reports. by rewrite Hsk. }
    split.
    + destruct (Hrec k a Hka) as [t ->]. unfold Batch.Monitor.reconciled.
      rewrite Htr. by destruct (Batch.page E k && Batch.in_progress a).
    + intros Hin. destruct (Hus k Hin) as (a' & t & Hka' & _ & _ & Hsome).
      rewrite Hka in Hka'. injection Hka' as <-. rewrite Htr in Hsome.
      by destruct Hsome.
Qed.

Lemma pass_survives_failures_witness :
  exists r w',
    Batch.Monitor.handler Examples.patchy [] Examples.some_jobs = (Py.Ok r, w') /\
    r !! "statusCode" = Some (Py.VInt 200) /\
    length (Batch.queries w') = 2 /\
    Batch.table w' !! "pii-job-3" = Some Examples.stale_direct.
Proof.
  destruct (pass_survives_failures Examples.patchy [] Examples.some_jobs "jobs")
    as (r & w' & us & Hrun & Hcode & _ & _ & _ & Hq & _ & Hskip);
    [reflexivity|reflexivity|].
  exists r, w'. split; [exact Hrun|]. split; [exact Hcode|]. split.
  - rewrite Hq. reflexivity.
  - apply (Hskip "pii-job-3" Examples.stale_direct); [reflexivity|].
    left. reflexivity.
Defined.

(** ** The real-time handler, step by step *)

Section RealtimeSteps.
Import Py Realtime.

Local Arguments dict : simpl never.
Local Arguments String.append : simpl never.
Local Arguments prompt : simpl never.
Local Arguments message : simpl never.

(** One call of the model per call of [obfuscate_pii], nothing written. *)
Lemma obfuscate_pii_run E text w :
  exists w',
    obfuscate_pii E text w = (Ok (masked E text), w') /\
    conversed w' = conversed w ++ [message E text] /\
    written w' = written w.
Proof.
  unfold obfuscate_pii, ask, bedrock_converse, masked,
    try_except, bind, lift, modify, logger, ret.
  cbn beta iota.
  destruct (converse E (message E text)) as [response|e]; [|by eexists].
  destruct (extract response) as [m|e]; by eexists.
Qed.

(** The loop over the rows, when every row has the column. *)
Lemma process_rows_run E rows : forall pre df w,
  df = pre ++ rows ->
  Forall (fun row => is_Some (row !! "Comments")) rows ->
  exists w',
    process_rows E rows (length pre) df w
      = (Ok (pre ++ map (masked_row E) rows), w') /\
    conversed w' = conversed w ++ map (message E) (comments rows) /\
    written w' = written w.
Proof.
  induction rows as [|row rows IH]; intros pre df w -> Hall.
  - exists w. cbn. rewrite !app_nil_r. done.
  - apply Forall_cons in Hall as [[c Hc] Hall].
    assert (Hmr : masked_row E row
                  = if notna c then <["Comments" := masked E c]> row else row).
    { unfold masked_row. by rewrite Hc. }
    assert (Hcm : comments (row :: rows)
                  = (if notna c then [c] else []) ++ comments rows).
    { unfold comments. cbn. rewrite Hc. by destruct (notna c). }
    rewrite Hcm. cbn [map process_rows]. rewrite Hmr, Hc.
    unfold bind, ret. cbn beta iota.
    destruct (notna c) eqn:Hn; cbn beta iota.
    + destruct (obfuscate_pii_run E c w) as (w1 & Hob & Hcv & Hwr). rewrite Hob.
      cbn beta iota.
      destruct (IH (pre ++ [<["Comments" := masked E c]> row])
                  (alter (insert "Comments" (masked E c)) (length pre)
                     (pre ++ row :: rows)) w1) as (w' & Hrun & Hcv' & Hwr').
      { rewrite <- app_assoc. simpl.
        rewrite alter_app_r_alt by lia. rewrite Nat.sub_diag. done. }
      { done. }
      rewrite length_app, Nat.add_1_r, <- app_assoc in Hrun.
      exists w'. split; [exact Hrun|].
      rewrite Hcv', Hcv, Hwr', Hwr, <- app_assoc. done.
    + destruct (IH (pre ++ [row]) (pre ++ row :: rows) w) as (w' & Hrun & Hcv' & Hwr').
      { by rewrite <- app_assoc. }
      { done. }
      rewrite length_app, Nat.add_1_r, <- app_assoc in Hrun.
      exists w'. split; [exact Hrun|]. done.
Qed.

(** The handler up to the loop. *)
Lemma lambda_handler_loaded E event w source_bucket key config types obj df :
  source event = Ok (source_bucket, VStr key) ->
  endswith key ".csv" = true ->
  get_object E source_bucket (VStr "config/pii_types.txt") = Ok config ->
  decode E config = Ok types ->
  get_object E source_bucket (VStr key) = Ok obj ->
  read_csv E obj = Ok df ->
  lambda_handler E event w =
    match process_rows E df 0 df w with
    | (Ok df', w1) =>
        match put_object E source_bucket (replace key "Newfile/" "Newoutputfile/")
                (to_csv E df') with
        | None =>
            (Ok (dict
               [ ("statusCode", VInt 200);
                 ("body", VStr (dumps E (dict
                    [ ("message", VStr "Processing complete");
                      ("input_file", VStr key);
                      ("output_file", VStr (replace key "Newfile/" "Newoutputfile/"));
                      ("rows_processed", VInt (Z.of_nat (length df))) ]))) ]),
             with_written source_bucket (replace key "Newfile/" "Newoutputfile/")
               (to_csv E df') w1)
        | Some e =>
            (Ok (dict
               [ ("statusCode", VInt 500);
                 ("body", VStr ("Error saving processed file: " +:+ str_exn e)) ]),
             with_log ERROR ("Failed to save processed file: " +:+ str_exn e) w1)
        end
    | (Raise e, w1) =>
        (Ok (dict [ ("statusCode", VInt 500);
                    ("body", VStr ("Unexpected error: " +:+ str_exn e)) ]),
         with_log ERROR ("Unexpected error in lambda_handler: " +:+ str_exn e) w1)
    end.
Proof.
  intros Hs He Hc Hd Ho Hr.
  unfold lambda_handler, try_except, bind, lift, str_method, ret.
  rewrite Hs. cbn beta iota. rewrite He. cbn [negb]. cbn beta iota.
  rewrite Hc. cbn beta iota. rewrite Hd. cbn beta iota.
  rewrite Ho. cbn beta iota. rewrite Hr. cbn beta iota.
  destruct (process_rows E df 0 df w) as [[df'|e] w1]; [|reflexivity].
  unfold s3_put_object, bind, modify, raise, logger.
  destruct (put_object E source_bucket _ _); reflexivity.
Qed.

(** A key without the segment is its own target. *)
Lemma replace_go_absent old new s :
  contains old s = false -> replace_go old new 0 s = s.
Proof.
  induction s as [|a s IH]; intros H; [done|].
  cbn [contains] in H. apply orb_false_elim in H as [Hp Hc].
  cbn [replace_go]. rewrite Hp. f_equal. by apply IH.
Qed.

Lemma replace_absent s old new :
  contains old s = false -> replace s old new = s.
Proof.
  intros H. unfold replace. destruct old; [done|]. by apply replace_go_absent.
Qed.

(** A row whose comment comes back as it went is unchanged. *)
Lemma masked_row_down E row :
  (forall t, exists e, converse E t = Raise e) -> masked_row E row = row.
Proof.
  intros Hdown. unfold masked_row. destruct (row !! "Comments") as [c|] eqn:Hc; [|done].
  destruct (notna c); [|done]. unfold masked.
  destruct (Hdown (message E c)) as [e ->]. by apply insert_id.
Qed.

(** The loop writes nothing, whatever the rows are. *)
Lemma process_rows_written E rows : forall index df w r w',
  process_rows E rows index df w = (r, w') -> written w' = written w.
Proof.
  induction rows as [|row rows IH]; intros index df w r w' H.
  - cbn in H. by injection H as _ <-.
  - cbn [process_rows] in H. unfold bind, ret, raise in H. cbn beta iota in H.
    destruct (row !! "Comments") as [c|]; cbn beta iota in H;
      [|by injection H as _ <-].
    destruct (notna c); cbn beta iota in H.
    + destruct (obfuscate_pii_run E c w) as (w1 & Hob & _ & Hwr).
      rewrite Hob in H. cbn beta iota in H. apply IH in H. congruence.
    + by apply IH in H.
Qed.

(** A first row without the column stops the loop at once. *)
Lemma process_rows_missing E row rows index df w :
  row !! "Comments" = None ->
  process_rows E (row :: rows) index df w = (Raise (KeyError (KStr "Comments")), w).
Proof. intros H. cbn [process_rows]. rewrite H. reflexivity. Qed.

End RealtimeSteps.

(** X14. When the configuration and the CSV are read, every row has the
    [Comments] column and S3 takes the result, the real-time handler answers
    200, calls the model once for each comment that is not missing, in row
    order, and writes one object, to the source bucket under the key with
    [Newfile/] replaced by [Newoutputfile/]: the frame in which each such
    comment is replaced by what [obfuscate_pii] returned and all else is
    kept. *)
Theorem rows_processed (E : Realtime.env) (event source_bucket : Py.value)
    (key : string) (w : Realtime.world) (config obj : list Byte.byte)
    (types : Re.text) (df : Realtime.frame) :
  Realtime.source event = Py.Ok (source_bucket, Py.VStr key) ->
  Py.endswith key ".csv" = true ->
  Realtime.get_object E source_bucket (Py.VStr "config/pii_types.txt") = Py.Ok config ->
  Realtime.decode E config = Py.Ok types ->
  Realtime.get_object E source_bucket (Py.VStr key) = Py.Ok obj ->
  Realtime.read_csv E obj = Py.Ok df ->
  Forall (fun row => is_Some (row !! "Comments")) df ->
  Realtime.put_object E source_bucket (Py.replace key "Newfile/" "Newoutputfile/")
    (Realtime.to_csv E (map (Realtime.masked_row E) df)) = None ->
  exists r w',
    Realtime.lambda_handler E event w = (Py.Ok r, w') /\
    r !! "statusCode" = Some (Py.VInt 200) /\
    Realtime.conversed w' = Realtime.conversed w ++
      map (Realtime.message E) (Realtime.comments df) /\
    Realtime.written w' = Realtime.written w ++
      [ (source_bucket, Py.replace key "Newfile/" "Newoutputfile/",
         Realtime.to_csv E (map (Realtime.masked_row E) df)) ].
Proof.
  intros Hs He Hc Hd Ho Hr Hall Hp.
  rewrite (lambda_handler_loaded _ _ w _ _ _ _ _ _ Hs He Hc Hd Ho Hr).
  destruct (process_rows_run E df [] df w eq_refl Hall) as (w1 & Hrun & Hcv & Hwr).
  cbn [length app] in Hrun. rewrite Hrun, Hp.
  eexists _, _. split; [reflexivity|]. split; [done|]. cbn. by rewrite Hcv, Hwr.
Qed.

Lemma rows_processed_witness :
  exists r w',
    Realtime.lambda_handler
      (Examples.serving Examples.few_rows Examples.model_up Examples.bucket_up)
      Examples.csv_uploaded Realtime.initial = (Py.Ok r, w') /\
    r !! "statusCode" = Some (Py.VInt 200) /\
    length (Realtime.conversed w') = 2 /\
    length (Realtime.written w') = 1.
Proof.
  destruct (rows_processed
              (Examples.serving Examples.few_rows Examples.model_up Examples.bucket_up)
              Examples.csv_uploaded (Py.VStr "input") "Newfile/data.csv"
              Realtime.initial [] [] [] Examples.few_rows)
    as (r & w' & Hrun & Hcode & Hcv & Hwr); try reflexivity.
  { repeat constructor; by eexists. }
  exists r, w'. split; [exact Hrun|]. split; [exact Hcode|].
  rewrite Hcv, Hwr. split; reflexivity.
Defined.

(** X15. Fail-open for the whole file: when every call of the model raises,
    the handler still answers 200 and what it writes is the frame it read,
    unchanged. *)
Theorem model_down_file_unchanged (E : Realtime.env) (event source_bucket : Py.value)
    (key : string) (w : Realtime.world) (config obj : list Byte.byte)
    (types : Re.text) (df : Realtime.frame) :
  Realtime.source event = Py.Ok (source_bucket, Py.VStr key) ->
  Py.endswith key ".csv" = true ->
  Realtime.get_object E source_bucket (Py.VStr "config/pii_types.txt") = Py.Ok config ->
  Realtime.decode E config = Py.Ok types ->
  Realtime.get_object E source_bucket (Py.VStr key) = Py.Ok obj ->
  Realtime.read_csv E obj = Py.Ok df ->
  Forall (fun row => is_Some (row !! "Comments")) df ->
  (forall t, exists e, Realtime.converse E t = Py.Raise e) ->
  Realtime.put_object E source_bucket (Py.replace key "Newfile/" "Newoutputfile/")
    (Realtime.to_csv E df) = None ->
  exists r w',
    Realtime.lambda_handler E event w = (Py.Ok r, w') /\
    r !! "statusCode" = Some (Py.VInt 200) /\
    Realtime.written w' = Realtime.written w ++
      [ (source_bucket, Py.replace key "Newfile/" "Newoutputfile/",
         Realtime.to_csv E df) ].
Proof.
  intros Hs He Hc Hd Ho Hr Hall Hdown Hp.
  assert (Hsame : map (Realtime.masked_row E) df = df).
  { clear -Hdown. induction df as [|row df IH]; [done|]. cbn [map].
    by rewrite IH, masked_row_down. }
  rewrite (lambda_handler_loaded _ _ w _ _ _ _ _ _ Hs He Hc Hd Ho Hr).
  destruct (process_rows_run E df [] df w eq_refl Hall) as (w1 & Hrun & Hcv & Hwr).
  cbn [length app] in Hrun. rewrite Hsame in Hrun. rewrite Hrun, Hp.
  eexists _, _. split; [reflexivity|]. split; [done|]. cbn. by rewrite Hwr.
Qed.

Lemma model_down_file_unchanged_witness :
  exists r w',
    Realtime.lambda_handler
      (Examples.serving Examples.few_rows Examples.model_down Examples.bucket_up)
      Examples.csv_uploaded Realtime.initial = (Py.Ok r, w') /\
    r !! "statusCode" = Some (Py.VInt 200) /\
    Realtime.written w' = Realtime.written Realtime.initial ++
      [ (Py.VStr "input", Py.replace "Newfile/data.csv" "Newfile/" "Newoutputfile/",
         Realtime.to_csv
           (Examples.serving Examples.few_rows Examples.model_down Examples.bucket_up)
           Examples.few_rows) ].
Proof.
  apply (model_down_file_unchanged
           (Examples.serving Examples.few_rows Examples.model_down Examples.bucket_up)
           Examples.csv_uploaded (Py.VStr "input") "Newfile/data.csv"
           Realtime.initial [] [] [] Examples.few_rows); try reflexivity.
  - repeat constructor; by eexists.
  - intros t. by eexists.
Defined.

(** X16. When the configuration object cannot be read or decoded, the
    real-time handler answers 500 with "Error reading PII configuration: "
    and [str(e)] and logs one error line; the model is not called and
    nothing is written. *)
Theorem configuration_unreadable (E : Realtime.env) (event source_bucket : Py.value)
    (key : string) (w : Realtime.world) (e : Py.exn) :
  Realtime.source event = Py.Ok (source_bucket, Py.VStr key) ->
  Py.endswith key ".csv" = true ->
  match Realtime.get_object E source_bucket (Py.VStr "config/pii_types.txt") with
  | Py.Ok config => Realtime.decode E config = Py.Raise e
  | Py.Raise e' => e' = e
  end ->
  Realtime.lambda_handler E event w =
    (Py.Ok (Py.dict
       [ ("statusCode", Py.VInt 500);
         ("body", Py.VStr ("Error reading PII configuration: " +:+ Py.str_exn e)) ]),
     Realtime.with_log Py.ERROR ("Failed to read PII configuration: " +:+ Py.str_exn e) w).
Proof.
  intros Hs He Hc.
  unfold Realtime.lambda_handler, Py.try_except, Py.bind, Py.lift,
    Realtime.str_method, Py.ret, Realtime.logger, Py.modify.
  rewrite Hs. cbn beta iota. rewrite He. cbn [negb]. cbn beta iota.
  destruct (Realtime.get_object E source_bucket (Py.VStr "config/pii_types.txt"))
    as [config|e'].
  - cbn beta iota. rewrite Hc. reflexivity.
  - subst e'. reflexivity.
Qed.

Lemma configuration_unreadable_witness :
  Realtime.lambda_handler
    (Examples.serving Examples.few_rows Examples.model_up Examples.bucket_down)
    Examples.csv_uploaded Realtime.initial =
    (Py.Ok (Py.dict
       [ ("statusCode", Py.VInt 500);
         ("body", Py.VStr "Error reading PII configuration: AccessDenied") ]),
     Realtime.with_log Py.ERROR "Failed to read PII configuration: AccessDenied"
       Realtime.initial).
Proof.
  exact (configuration_unreadable
           (Examples.serving Examples.few_rows Examples.model_up Examples.bucket_down)
           Examples.csv_uploaded (Py.VStr "input") "Newfile/data.csv" Realtime.initial
           (Py.ClientError "AccessDenied") eq_refl eq_refl eq_refl).
Defined.

(** X17. When the frame that was read has a first row without the
    [Comments] column, the [KeyError] escapes the loop: the handler answers
    500 with "Unexpected error: 'Comments'", having called the model for no
    row and written nothing. *)
Theorem comments_column_missing (E : Realtime.env) (event source_bucket : Py.value)
    (key : string) (w : Realtime.world) (config obj : list Byte.byte)
    (types : Re.text) (row : gmap string Py.value) (rows : Realtime.frame) :
  Realtime.source event = Py.Ok (source_bucket, Py.VStr key) ->
  Py.endswith key ".csv" = true ->
  Realtime.get_object E source_bucket (Py.VStr "config/pii_types.txt") = Py.Ok config ->
  Realtime.decode E config = Py.Ok types ->
  Realtime.get_object E source_bucket (Py.VStr key) = Py.Ok obj ->
  Realtime.read_csv E obj = Py.Ok (row :: rows) ->
  row !! "Comments" = None ->
  Realtime.lambda_handler E event w =
    (Py.Ok (Py.dict [ ("statusCode", Py.VInt 500);
                      ("body", Py.VStr "Unexpected error: 'Comments'") ]),
     Realtime.with_log Py.ERROR "Unexpected error in lambda_handler: 'Comments'" w).
Proof.
  intros Hs He Hc Hd Ho Hr Hrow.
  rewrite (lambda_handler_loaded _ _ w _ _ _ _ _ _ Hs He Hc Hd Ho Hr).
  by rewrite process_rows_missing.
Qed.

Lemma comments_column_missing_witness :
  Realtime.lambda_handler
    (Examples.serving Examples.no_column Examples.model_up Examples.bucket_up)
    Examples.csv_uploaded Realtime.initial =
    (Py.Ok (Py.dict [ ("statusCode", Py.VInt 500);
                      ("body", Py.VStr "Unexpected error: 'Comments'") ]),
     Realtime.with_log Py.ERROR "Unexpected error in lambda_handler: 'Comments'"
       Realtime.initial).
Proof.
  exact (comments_column_missing
           (Examples.serving Examples.no_column Examples.model_up Examples.bucket_up)
           Examples.csv_uploaded (Py.VStr "input") "Newfile/data.csv" Realtime.initial
           [] [] [] (Py.dict [("Id", Py.VInt 1)]) []
           eq_refl eq_refl eq_refl eq_refl eq_refl eq_refl eq_refl).
Defined.

(** X18. A key that holds no [Newfile/] is its own target: the processed
    file is then written to the source bucket under the very key it was read
    from. *)
Theorem target_is_source (E : Realtime.env) (event source_bucket : Py.value)
    (key : string) (w : Realtime.world) (config obj : list Byte.byte)
    (types : Re.text) (df : Realtime.frame) :
  Realtime.source event = Py.Ok (source_bucket, Py.VStr key) ->
  Py.endswith key ".csv" = true ->
  Py.contains "Newfile/" key = false ->
  Realtime.get_object E source_bucket (Py.VStr "config/pii_types.txt") = Py.Ok config ->
  Realtime.decode E config = Py.Ok types ->
  Realtime.get_object E source_bucket (Py.VStr key) = Py.Ok obj ->
  Realtime.read_csv E obj = Py.Ok df ->
  Forall (fun row => is_Some (row !! "Comments")) df ->
  Realtime.put_object E source_bucket key
    (Realtime.to_csv E (map (Realtime.masked_row E) df)) = None ->
  exists r w',
    Realtime.lambda_handler E event w = (Py.Ok r, w') /\
    r !! "statusCode" = Some (Py.VInt 200) /\
    Realtime.written w' = Realtime.written w ++
      [ (source_bucket, key, Realtime.to_csv E (map (Realtime.masked_row E) df)) ].
Proof.
  intros Hs He Hn Hc Hd Ho Hr Hall Hp.
  pose proof (replace_absent key "Newfile/" "Newoutputfile/" Hn) as Hkey.
  rewrite (lambda_handler_loaded _ _ w _ _ _ _ _ _ Hs He Hc Hd Ho Hr).
  destruct (process_rows_run E df [] df w eq_refl Hall) as (w1 & Hrun & Hcv & Hwr).
  cbn [length app] in Hrun. rewrite Hrun, Hkey, Hp.
  eexists _, _. split; [reflexivity|]. split; [done|]. cbn. by rewrite Hwr.
Qed.

Lemma target_is_source_witness :
  exists r w',
    Realtime.lambda_handler
      (Examples.serving Examples.few_rows Examples.model_up Examples.bucket_up)
      Examples.csv_elsewhere Realtime.initial = (Py.Ok r, w') /\
    r !! "statusCode" = Some (Py.VInt 200) /\
    Realtime.written w' = Realtime.written Realtime.initial ++
      [ (Py.VStr "input", "uploads/data.csv",
         Realtime.to_csv
           (Examples.serving Examples.few_rows Examples.model_up Examples.bucket_up)
           (map (Realtime.masked_row
                   (Examples.serving Examples.few_rows Examples.model_up
                      Examples.bucket_up)) Examples.few_rows)) ].
Proof.
  apply (target_is_source
           (Examples.serving Examples.few_rows Examples.model_up Examples.bucket_up)
           Examples.csv_elsewhere (Py.VStr "input") "uploads/data.csv"
           Realtime.initial [] [] [] Examples.few_rows); try reflexivity.
  repeat constructor; by eexists.
Defined.

(** X19. The real-time handler never lets an exception out; it answers
    200, 400 or 500, and whenever the answer is not 200 it has written
    nothing to S3. *)
Theorem lambda_handler_answers (E : Realtime.env) (event : Py.value)
    (w : Realtime.world) :
  exists r w',
    Realtime.lambda_handler E event w = (Py.Ok r, w') /\
    ((r !! "statusCode" = Some (Py.VInt 200) /\
      exists b k body, Realtime.written w' = Realtime.written w ++ [(b, k, body)]) \/
     ((r !! "statusCode" = Some (Py.VInt 400) \/ r !! "statusCode" = Some (Py.VInt 500)) /\
      Realtime.written w' = Realtime.written w)).
Proof.
  unfold Realtime.lambda_handler, Py.try_except, Py.bind, Py.lift,
    Realtime.str_method, Py.ret, Py.raise, Realtime.logger, Py.modify.
  destruct (Realtime.source event) as [[source_bucket source_key]|e]; cbn beta iota;
    [|eexists _, _; split; [reflexivity|]; right; split; [by right|done]].
  destruct source_key as [| | |key| |];
    try (eexists _, _; split; [reflexivity|]; right; split; [by right|done]).
  destruct (Py.endswith key ".csv"); cbn [negb]; cbn beta iota;
    [|eexists _, _; split; [reflexivity|]; right; split; [by left|done]].
  destruct (Realtime.get_object E source_bucket (Py.VStr "config/pii_types.txt"))
    as [config|e]; cbn beta iota;
    [|eexists _, _; split; [reflexivity|]; right; split; [by right|done]].
  destruct (Realtime.decode E config) as [types|e]; cbn beta iota;
    [|eexists _, _; split; [reflexivity|]; right; split; [by right|done]].
  destruct (Realtime.get_object E source_bucket (Py.VStr key)) as [obj|e];
    cbn beta iota;
    [|eexists _, _; split; [reflexivity|]; right; split; [by right|done]].
  destruct (Realtime.read_csv E obj) as [df|e]; cbn beta iota;
    [|eexists _, _; split; [reflexivity|]; right; split; [by right|done]].
  destruct (Realtime.process_rows E df 0 df w) as [[df'|e] w1] eqn:Hrun;
    pose proof (process_rows_written _ _ _ _ _ _ _ Hrun) as Hwr;
    [|eexists _, _; split; [reflexivity|]; right; split; [by right|done]].
  unfold Realtime.s3_put_object, Py.raise, Py.modify.
  destruct (Realtime.put_object E source_bucket _ _) as [e|].
  - eexists _, _. split; [reflexivity|]. right. split; [by right|done].
  - eexists _, _. split; [reflexivity|]. left. split; [done|].
    eexists _, _, _. cbn. by rewrite Hwr.
Qed.

(** X20. When the source object cannot be fetched or parsed, the
    real-time handler answers 500 with "Error reading source CSV: " and
    [str(e)]; the model is not called and nothing is written. *)
Theorem source_unreadable (E : Realtime.env) (event source_bucket : Py.value)
    (key : string) (w : Realtime.world) (config : list Byte.byte) (types : Re.text)
    (e : Py.exn) :
  Realtime.source event = Py.Ok (source_bucket, Py.VStr key) ->
  Py.endswith key ".csv" = true ->
  Realtime.get_object E source_bucket (Py.VStr "config/pii_types.txt") = Py.Ok config ->
  Realtime.decode E config = Py.Ok types ->
  match Realtime.get_object E source_bucket (Py.VStr key) with
  | Py.Ok obj => Realtime.read_csv E obj = Py.Raise e
  | Py.Raise e' => e' = e
  end ->
  Realtime.lambda_handler E event w =
    (Py.Ok (Py.dict
       [ ("statusCode", Py.VInt 500);
         ("body", Py.VStr ("Error reading source CSV: " +:+ Py.str_exn e)) ]),
     Realtime.with_log Py.ERROR ("Failed to read source CSV: " +:+ Py.str_exn e) w).
Proof.
  intros Hs He Hc Hd Ho.
  unfold Realtime.lambda_handler, Py.try_except, Py.bind, Py.lift,
    Realtime.str_method, Py.ret, Realtime.logger, Py.modify.
  rewrite Hs. cbn beta iota. rewrite He. cbn [negb]. cbn beta iota.
  rewrite Hc. cbn beta iota. rewrite Hd. cbn beta iota.
  destruct (Realtime.get_object E source_bucket (Py.VStr key)) as [obj|e'].
  - cbn beta iota. rewrite Ho. reflexivity.
  - subst e'. reflexivity.
Qed.

Lemma source_unreadable_witness :
  Realtime.lambda_handler
    (Examples.serving Examples.few_rows Examples.model_up Examples.bucket_without_file)
    Examples.csv_uploaded Realtime.initial =
    (Py.Ok (Py.dict
       [ ("statusCode", Py.VInt 500);
         ("body", Py.VStr "Error reading source CSV: NoSuchKey") ]),
     Realtime.with_log Py.ERROR "Failed to read source CSV: NoSuchKey" Realtime.initial).
Proof.
  exact (source_unreadable
           (Examples.serving Examples.few_rows Examples.model_up
              Examples.bucket_without_file)
           Examples.csv_uploaded (Py.VStr "input") "Newfile/data.csv" Realtime.initial
           [] [] (Py.ClientError "NoSuchKey") eq_refl eq_refl eq_refl eq_refl eq_refl).
Defined.

(** X21. When S3 refuses the processed file, the real-time handler answers
    500 with "Error saving processed file: " and [str(e)]; the model has
    by then been called for every comment that is not missing, and nothing
    is written. *)
Theorem save_failure (E : Realtime.env) (event source_bucket : Py.value)
    (key : string) (w : Realtime.world) (config obj : list Byte.byte)
    (types : Re.text) (df : Realtime.frame) (e : Py.exn) :
  Realtime.source event = Py.Ok (source_bucket, Py.VStr key) ->
  Py.endswith key ".csv" = true ->
  Realtime.get_object E source_bucket (Py.VStr "config/pii_types.txt") = Py.Ok config ->
  Realtime.decode E config = Py.Ok types ->
  Realtime.get_object E source_bucket (Py.VStr key) = Py.Ok obj ->
  Realtime.read_csv E obj = Py.Ok df ->
  Forall (fun row => is_Some (row !! "Comments")) df ->
  Realtime.put_object E source_bucket (Py.replace key "Newfile/" "Newoutputfile/")
    (Realtime.to_csv E (map (Realtime.masked_row E) df)) = Some e ->
  exists w',
    Realtime.lambda_handler E event w =
      (Py.Ok (Py.dict
         [ ("statusCode", Py.VInt 500);
           ("body", Py.VStr ("Error saving processed file: " +:+ Py.str_exn e)) ]), w') /\
    Realtime.conversed w' = Realtime.conversed w ++
      map (Realtime.message E) (Realtime.comments df) /\
    Realtime.written w' = Realtime.written w.
Proof.
  intros Hs He Hc Hd Ho Hr Hall Hp.
  rewrite (lambda_handler_loaded _ _ w _ _ _ _ _ _ Hs He Hc Hd Ho Hr).
  destruct (process_rows_run E df [] df w eq_refl Hall) as (w1 & Hrun & Hcv & Hwr).
  cbn [length app] in Hrun. rewrite Hrun, Hp.
  eexists. split; [reflexivity|]. cbn. by rewrite Hcv, Hwr.
Qed.

Lemma save_failure_witness :
  exists w',
    Realtime.lambda_handler
      (Examples.read_only
         (Examples.serving Examples.few_rows Examples.model_up Examples.bucket_up))
      Examples.csv_uploaded Realtime.initial =
      (Py.Ok (Py.dict
         [ ("statusCode", Py.VInt 500);
           ("body", Py.VStr "Error saving processed file: AccessDenied") ]), w') /\
    length (Realtime.conversed w') = 2 /\
    Realtime.written w' = [].
Proof.
  destruct (save_failure
              (Examples.read_only
                 (Examples.serving Examples.few_rows Examples.model_up Examples.bucket_up))
              Examples.csv_uploaded (Py.VStr "input") "Newfile/data.csv"
              Realtime.initial [] [] [] Examples.few_rows (Py.ClientError "AccessDenied"))
    as (w' & Hrun & Hcv & Hwr); try reflexivity.
  { repeat constructor; by eexists. }
  exists w'. split; [exact Hrun|]. rewrite Hcv, Hwr. split; reflexivity.
Defined.

(** ** What the fallback redaction leaves and what it leaves alone *)

Section Redaction.
Import Re.
Variable U : unicode.

(** The declarative and the executable reading of "no match anywhere". *)
Lemma clean_match_at pat p s :
  clean U pat p s <->
  (forall u v, s = u ++ v -> match_at U pat (lastc p u) v = None).
Proof.
  split.
  - intros Hcl u v ->. destruct (match_at U pat (lastc p u) v) as [n|] eqn:Hm; [|done].
    apply bt_sound in Hm as (w & y & -> & Hl & _). destruct (Hcl u w y); done.
  - intros Hno u w y -> Hl. specialize (Hno u (w ++ y) eq_refl).
    destruct (bt_complete U _ _ _ _ 0 Hl) as [n Hn]. unfold match_at in Hno. congruence.
Qed.

Lemma no_match_clean rs s :
  no_match U rs s <-> (forall q, In q rs -> clean U (fst q) None s).
Proof.
  split.
  - intros Hno [pat tag] Hin. apply clean_match_at. intros u v Hs. by eapply Hno.
  - intros Hcl pat tag u v Hin Hs.
    by apply (proj1 (clean_match_at pat None s) (Hcl (pat, tag) Hin)).
Qed.

(** A word accepted by a pattern that needs a digit or an [@] holds one. *)
Lemma lang_needs pat : forall p w nx,
  needs_digit_or_at pat = true -> lang U pat p w nx ->
  exists c, c ∈ w /\ (is_digit U c = true \/ c = code "@").
Proof.
  induction pat as [|it pat IH]; intros p w nx Hn H; [done|].
  cbn [needs_digit_or_at existsb] in Hn. apply orb_prop in Hn as [Hn|Hn].
  - destruct it as [|cls [|lo] hi]; try done.
    destruct H as (u & v & -> & Hu & [Hlo _] & _).
    destruct u as [|c u]; [simpl in Hlo; lia|].
    exists c. split; [apply elem_of_app; left; apply list_elem_of_here|].
    simpl in Hu. apply andb_prop in Hu as [Hm _].
    destruct cls as [|[a| | |] [|]]; try done; simpl in Hm, Hn;
      rewrite orb_false_r in Hm.
    + right. apply Ascii.eqb_eq in Hn as ->. by apply N.eqb_eq in Hm.
    + by left.
  - destruct it as [|cls lo hi].
    + destruct H as [_ H]. by eapply IH.
    + destruct H as (u & v & -> & _ & _ & H).
      destruct (IH _ _ _ Hn H) as (c & Hin & Hc). exists c.
      split; [apply elem_of_app; by right|done].
Qed.

Lemma rules_need : forallb (fun r => needs_digit_or_at (fst r)) rules = true.
Proof. reflexivity. Qed.

End Redaction.

(** X22. After the fallback redaction none of the four patterns matches at
    any position of the output. *)
Theorem output_holds_no_match (U : Re.unicode) (t : Re.text) :
  Re.no_match U Re.rules (Re.processed_content U t).
Proof.
  apply no_match_clean. intros q Hq.
  apply (apply_rules_clean U Re.rules); [apply rules_ok|done].
Qed.

(** X23. The texts that the fallback redaction returns unchanged are
    exactly those in which none of the four patterns matches at any
    position. *)
Theorem unchanged_iff_no_match (U : Re.unicode) (t : Re.text) :
  Re.processed_content U t = t <-> Re.no_match U Re.rules t.
Proof.
  split.
  - intros H. rewrite <- H. apply no_match_clean. intros q Hq.
    apply (apply_rules_clean U Re.rules); [apply rules_ok|done].
  - intros H. apply (apply_rules_id U Re.rules). by apply no_match_clean.
Qed.

(** X24. A text that holds neither a decimal digit (in the sense of [\d])
    nor an [@] comes out of the fallback redaction unchanged. *)
Theorem plain_text_unchanged (U : Re.unicode) (t : Re.text) :
  (forall c, c ∈ t -> Re.is_digit U c = false /\ c <> Re.code "@") ->
  Re.processed_content U t = t.
Proof.
  intros Hplain. apply (apply_rules_id U Re.rules). intros q Hq u w y -> Hl.
  assert (Hn : Re.needs_digit_or_at (fst q) = true).
  { pose proof (rules_need) as Hall. rewrite forallb_forall in Hall.
    exact (Hall q Hq). }
  destruct (lang_needs U _ _ _ _ Hn Hl) as (c & Hin & Hc).
  destruct (Hplain c) as [Hd Ha]; [rewrite !elem_of_app; auto|].
  destruct Hc as [Hc| ->]; congruence.
Qed.

Lemma plain_text_unchanged_witness :
  Re.processed_content Re.ascii_only (Re.str "Name,Comments") = Re.str "Name,Comments".
Proof.
  apply plain_text_unchanged. intros c Hc.
  apply list_elem_of_In in Hc. simpl in Hc.
  repeat (destruct Hc as [<-|Hc]; [split; [reflexivity|discriminate]|]).
  destruct Hc.
Defined.
